(** * dbucouple_bot: matching engine, validators and rate limiter

    A shallow embedding of the parts of the bot that decide who is shown
    to whom, when two likes become a match, which registration input is
    accepted and how often a user may call the bot:

    - [utils/validators.py]            (module [Validators])
    - [database.py], the schema        (module [Database])
    - [models/user_model.py]           (module [UserModel])
    - [handlers/browse_handler.py]     (module [BrowseHandler])
    - [handlers/start_handler.py]      (module [StartHandler])
    - [utils/rate_limiter.py]          (module [RateLimiterModel])

    Conventions.  Python [int] is [Z]; [str] is [string], one [ascii] per
    character (text outside Latin-1 is not described); a [dict] is a
    [gmap]; a table is the list of its rows (the order SQLite scans them
    in is left open: no property depends on it).  [time()]
    is an exact rational number of seconds: float rounding is not
    described.  What the environment decides (whether a store access
    raises, which row [ORDER BY RANDOM()] puts first, the clock) is an
    explicit argument. *)

From Stdlib Require Import Ascii String QArith Lqa.
From stdpp Require Import gmap list strings pretty.

Local Open Scope string_scope.
Local Open Scope list_scope.
Local Open Scope Z_scope.

(** ** Python built-ins used by the sources *)

Module Py.

Definition code (c : ascii) : N := N_of_ascii c.

(** [str.isspace] on one character, Latin-1 range. *)
Definition isspace (c : ascii) : bool :=
  let n := code c in
  ((9 <=? n) && (n <=? 13) || (28 <=? n) && (n <=? 32)
   || (n =? 133) || (n =? 160))%N.

Fixpoint lstrip (s : string) : string :=
  match s with
  | EmptyString => EmptyString
  | String c s' => if isspace c then lstrip s' else s
  end.

Fixpoint rstrip (s : string) : string :=
  match s with
  | EmptyString => EmptyString
  | String c s' =>
      match rstrip s' with
      | EmptyString => if isspace c then EmptyString else String c EmptyString
      | r => String c r
      end
  end.

(** [s.strip()] *)
Definition strip (s : string) : string := rstrip (lstrip s).

(** [len(s)] *)
Definition len (s : string) : Z := Z.of_nat (String.length s).

Definition digit (c : ascii) : option Z :=
  let n := code c in
  if ((48 <=? n) && (n <=? 57))%N then Some (Z.of_N (n - 48)) else None.

(** Decimal digits with single underscores between them, as [int]
    accepts them; [seen] tells whether the previous character was a
    digit. *)
Fixpoint digits (s : string) (acc : Z) (seen : bool) : option Z :=
  match s with
  | EmptyString => if seen then Some acc else None
  | String c s' =>
      if Ascii.eqb c "_"%char then (if seen then digits s' acc false else None)
      else match digit c with
           | Some d => digits s' (10 * acc + d) true
           | None => None
           end
  end.

Fixpoint count_digits (s : string) : Z :=
  match s with
  | EmptyString => 0
  | String c s' =>
      (match digit c with Some _ => 1 | None => 0 end) + count_digits s'
  end.

(** [sys.get_int_max_str_digits()], at its default. *)
Definition int_max_str_digits : Z := 4300.

(** [int(s)] for a [str]: [None] stands for [ValueError]. *)
Definition int (s : string) : option Z :=
  let numeral r :=
    if int_max_str_digits <? count_digits r then None
    else digits r 0 false in
  match strip s with
  | String "+"%char r => numeral r
  | String "-"%char r => Z.opp <$> numeral r
  | r => numeral r
  end.

(** [int(x)] for a number: truncation towards zero. *)
Definition trunc (q : Q) : Z := Z.quot (Qnum q) (Z.pos (Qden q)).

(** Truthiness of a [str]. *)
Definition truthy (s : string) : bool :=
  match s with EmptyString => false | _ => true end.

End Py.

(** ** utils/validators.py *)

Module Validators.

Definition validate_age (age_str : string) : bool * option Z :=
  match Py.int (Py.strip age_str) with
  | Some age =>
      if (16 <=? age) && (age <=? 100) then (true, Some age)
      else (false, None)
  | None => (false, None)
  end.

Definition validate_text_length (text : string) (min_length max_length : Z)
  : bool :=
  if negb (Py.truthy text) then false
  else (min_length <=? Py.len (Py.strip text))
       && (Py.len (Py.strip text) <=? max_length).

Definition validate_name (name : string) : bool :=
  validate_text_length name 2 50.

Definition validate_bio (bio : string) : bool :=
  validate_text_length bio 10 500.

Definition validate_department (dept : string) : bool :=
  validate_text_length dept 2 100.

End Validators.

(** ** database.py: the schema, and the SQL the queries use *)

Module Database.

(** [CURRENT_TIMESTAMP], as SQLite renders it. *)
Definition timestamp := string.

Record user_row := {
  user_id : Z; name : string; age : Z; department : string;
  bio : string; photo_id : string;
  created_at : timestamp; updated_at : timestamp }.

Record like_row := {
  liker_id : Z; liked_id : Z; like_created_at : timestamp }.

Record match_row := {
  user1_id : Z; user2_id : Z; match_created_at : timestamp }.

Record block_row := {
  blocker_id : Z; blocked_id : Z; block_created_at : timestamp }.

(** The tables the matching engine reads and writes.  No [PRAGMA
    foreign_keys] is issued, so SQLite does not enforce the declared
    references. *)
Record DB := {
  users : list user_row;
  likes : list like_row;
  matches : list match_row;
  blocks : list block_row }.

#[export] Instance user_row_eq_dec : EqDecision user_row.
Proof. solve_decision. Defined.

Definition empty : DB :=
  {| users := []; likes := []; matches := []; blocks := [] |}.

Definition set_users (db : DB) (t : list user_row) : DB :=
  {| users := t; likes := likes db; matches := matches db;
     blocks := blocks db |}.
Definition set_likes (db : DB) (t : list like_row) : DB :=
  {| users := users db; likes := t; matches := matches db;
     blocks := blocks db |}.
Definition set_matches (db : DB) (t : list match_row) : DB :=
  {| users := users db; likes := likes db; matches := t;
     blocks := blocks db |}.
Definition set_blocks (db : DB) (t : list block_row) : DB :=
  {| users := users db; likes := likes db; matches := matches db;
     blocks := t |}.

(** Whether the store access of one call goes through or raises
    ([sqlite3.Error]: locked file, timeout, I/O error). *)
Inductive access := Ok | Err.

(** [try: body  except Exception: handler] around one store access. *)
Definition try_except {A : Type} (io : access) (body handler : A) : A :=
  match io with Ok => body | Err => handler end.

(** [with db_manager.transaction() as cursor: ...; return True], with
    [except Exception: return False]: commit, or roll back. *)
Definition transaction (io : access) (db db' : DB) : DB * bool :=
  try_except io (db', true) (db, false).

(** [INSERT OR IGNORE] under a primary key. *)
Definition insert_or_ignore {R K : Type} `{EqDecision K}
    (key : R -> K) (r : R) (t : list R) : list R :=
  if decide (Exists (fun r' => key r' = key r) t) then t else t ++ [r].

(** [INSERT OR REPLACE] under a primary key. *)
Definition insert_or_replace {R K : Type} `{EqDecision K}
    (key : R -> K) (r : R) (t : list R) : list R :=
  filter (fun r' => key r' <> key r) t ++ [r].

(** [cursor.fetchone()] *)
Definition fetchone {R : Type} (rows : list R) : option R := head rows.

(** [ORDER BY RANDOM() LIMIT 1]: [rnd] says which row comes first. *)
Definition order_by_random_limit_1 {R : Type} (rnd : nat) (rows : list R)
  : list R :=
  option_list (rows !! (rnd mod List.length rows)%nat).

(** SQLite's [LIKE]: [%] is any run of characters, [_] any one
    character, letters of ASCII compared without case. *)
Definition tolower (c : ascii) : ascii :=
  let n := Py.code c in
  if ((65 <=? n) && (n <=? 90))%N then ascii_of_N (n + 32) else c.

Definition like_char (c d : ascii) : bool :=
  Ascii.eqb c d
  || ((Py.code c <? 128)%N && (Py.code d <? 128)%N
      && Ascii.eqb (tolower c) (tolower d)).

Fixpoint like (pattern : string) : string -> bool :=
  match pattern with
  | EmptyString =>
      fun text => match text with EmptyString => true | _ => false end
  | String c p =>
      if Ascii.eqb c "%"%char then
        fix any (text : string) : bool :=
          like p text
          || match text with
             | EmptyString => false
             | String _ text' => any text'
             end
      else if Ascii.eqb c "_"%char then
        fun text =>
          match text with
          | EmptyString => false
          | String _ text' => like p text'
          end
      else
        fun text =>
          match text with
          | EmptyString => false
          | String d text' => like_char c d && like p text'
          end
  end.

End Database.

(** ** models/user_model.py *)

Module UserModel.
Import Database.

Definition save_user (io : access) (now : timestamp) (db : DB)
    (uid : Z) (name : string) (age : Z) (department bio photo_id : string)
  : DB * bool :=
  let row := {| user_id := uid; name := name; age := age;
                department := department; bio := bio;
                photo_id := photo_id;
                created_at := now; updated_at := now |} in
  transaction io db (set_users db (insert_or_replace user_id row (users db))).

(** [blocks] holds a row of [blocker] blocking [u]. *)
Definition blocked_by (db : DB) (blocker u : Z) : Prop :=
  Exists (fun b => blocker_id b = blocker /\ blocked_id b = u) (blocks db).

Definition get_random_user (io : access) (rnd : nat) (db : DB)
    (exclude_id : Z) (exclude_blocked : bool) : option user_row :=
  try_except io
    (let rows :=
       if exclude_blocked then
         filter (fun u => user_id u <> exclude_id
                          /\ ~ blocked_by db exclude_id (user_id u))
                (users db)
       else filter (fun u => user_id u <> exclude_id) (users db) in
     fetchone (order_by_random_limit_1 rnd rows))
    None.

Definition add_like (io : access) (now : timestamp) (db : DB)
    (liker liked : Z) : DB * bool :=
  let row := {| liker_id := liker; liked_id := liked;
                like_created_at := now |} in
  transaction io db
    (set_likes db
       (insert_or_ignore (fun l => (liker_id l, liked_id l)) row (likes db))).

(** [likes] holds the edge [liker -> liked]. *)
Definition has_like (db : DB) (liker liked : Z) : Prop :=
  Exists (fun l => liker_id l = liker /\ liked_id l = liked) (likes db).

Definition check_match (io : access) (db : DB) (user1_id user2_id : Z)
  : bool :=
  try_except io
    (let rows := filter (fun l => liker_id l = user2_id
                                  /\ liked_id l = user1_id) (likes db) in
     bool_decide (fetchone rows <> None))
    false.

Definition user_exists (io : access) (db : DB) (uid : Z) : bool :=
  try_except io
    (bool_decide
       (fetchone (filter (fun u => user_id u = uid) (users db)) <> None))
    false.

Definition get_user (io : access) (db : DB) (uid : Z) : option user_row :=
  try_except io
    (fetchone (filter (fun u => user_id u = uid) (users db)))
    None.

Definition get_user_matches (io : access) (db : DB) (uid : Z)
  : list user_row :=
  try_except io
    (remove_dups
       (filter (fun u => has_like db uid (user_id u)
                         /\ has_like db (user_id u) uid
                         /\ user_id u <> uid)
               (users db)))
    [].

Definition save_match (io : access) (now : timestamp) (db : DB)
    (u1 u2 : Z) : DB * bool :=
  let row := {| user1_id := Z.min u1 u2; user2_id := Z.max u1 u2;
                match_created_at := now |} in
  transaction io db
    (set_matches db
       (insert_or_ignore (fun m => (user1_id m, user2_id m)) row
          (matches db))).

Definition get_users_who_liked_me (io : access) (db : DB) (uid : Z)
  : list user_row :=
  try_except io
    (remove_dups
       (u ← users db;
        l ← filter (fun l => liker_id l = user_id u) (likes db);
        if decide (liked_id l = uid
                   /\ ~ has_like db uid (user_id u)
                   /\ user_id u <> uid)
        then [u] else []))
    [].

Definition block_user (io : access) (now : timestamp) (db : DB)
    (blocker blocked : Z) : DB * bool :=
  let row := {| blocker_id := blocker; blocked_id := blocked;
                block_created_at := now |} in
  transaction io db
    (set_blocks db
       (insert_or_ignore (fun b => (blocker_id b, blocked_id b)) row
          (blocks db))).

Definition is_blocked (io : access) (db : DB) (blocker blocked : Z)
  : bool :=
  try_except io
    (bool_decide
       (fetchone (filter (fun b => blocker_id b = blocker
                                   /\ blocked_id b = blocked) (blocks db))
        <> None))
    false.

(** One [AND ...] of the query text that [get_users_with_filters]
    builds, with its parameter. *)
Inductive clause :=
| IdNe (uid : Z)            (* user_id != ? *)
| AgeGe (n : Z)             (* age >= ? *)
| AgeLe (n : Z)             (* age <= ? *)
| DeptLike (pat : string).  (* department LIKE ? *)

Definition holds (u : user_row) (c : clause) : bool :=
  match c with
  | IdNe uid => negb (user_id u =? uid)
  | AgeGe n => n <=? age u
  | AgeLe n => age u <=? n
  | DeptLike pat => like pat (department u)
  end.

Definition where_ (query : list clause) (u : user_row) : Prop :=
  Is_true (forallb (holds u) query).

(** [if department:] on an [Optional[str]] *)
Definition supplied (department : option string) : option string :=
  match department with
  | Some d => if Py.truthy d then Some d else None
  | None => None
  end.

Definition build_query (exclude_id : Z) (min_age max_age : option Z)
    (department : option string) : list clause :=
  [IdNe exclude_id]
  ++ match min_age with Some n => [AgeGe n] | None => [] end
  ++ match max_age with Some n => [AgeLe n] | None => [] end
  ++ match supplied department with
     | Some d => [DeptLike ("%" +:+ d +:+ "%")]
     | None => []
     end.

Definition get_users_with_filters (io : access) (rnd : nat) (db : DB)
    (exclude_id : Z) (min_age max_age : option Z)
    (department : option string) : option user_row :=
  try_except io
    (let query := build_query exclude_id min_age max_age department in
     fetchone (order_by_random_limit_1 rnd (filter (where_ query) (users db))))
    None.

End UserModel.

(** ** handlers/browse_handler.py *)

Module BrowseHandler.
Import Database.

(** [context.user_data['preferences']], as preferences_handler.py
    fills it. *)
Record preferences := {
  min_age : option Z; max_age : option Z; pref_department : option string }.

(** [prefs and any(prefs.values())] *)
Definition any_values (prefs : option preferences) : bool :=
  match prefs with
  | None => false
  | Some p =>
      match min_age p with Some n => negb (n =? 0) | None => false end
      || match max_age p with Some n => negb (n =? 0) | None => false end
      || match pref_department p with
         | Some d => Py.truthy d
         | None => false
         end
  end.

(** The profile [show_next_profile] puts on screen, if any. *)
Definition show_next_profile (io : access) (rnd : nat) (db : DB)
    (prefs : option preferences) (uid : Z) : option user_row :=
  match prefs with
  | Some p =>
      if any_values prefs then
        UserModel.get_users_with_filters io rnd db uid
          (min_age p) (max_age p) (pref_department p)
      else UserModel.get_random_user io rnd db uid true
  | None => UserModel.get_random_user io rnd db uid true
  end.

Inductive like_answer :=
| ItsAMatch          (* "It's a match!" *)
| Liked              (* "Liked!" *)
| FailedToSaveLike.  (* "Failed to save like. Please try again." *)

(** The [like_<id>] branch of [handle_callback]: the three store calls
    it makes, each with its own access. *)
Definition handle_like (io_like io_check io_save : access)
    (now : timestamp) (db : DB) (uid liked : Z) : DB * like_answer :=
  let '(db1, saved) := UserModel.add_like io_like now db uid liked in
  if saved then
    if UserModel.check_match io_check db1 uid liked then
      let '(db2, _) := UserModel.save_match io_save now db1 uid liked in
      (db2, ItsAMatch)
    else (db1, Liked)
  else (db1, FailedToSaveLike).

Definition matched (a : like_answer) : bool :=
  match a with ItsAMatch => true | _ => false end.

End BrowseHandler.

(** ** handlers/start_handler.py *)

Module StartHandler.
Import Database.

(** What the handler reads of [update.message]. *)
Record message := {
  from_user : Z;
  text : option string;
  photo : list string }.  (* file ids, smallest size first *)

Inductive reply :=
| RegistrationIncomplete | InvalidAgeRestart | ProfileCreated
| FailedToSaveProfile
| InvalidName | AskAge | InvalidAge | AskDepartment
| InvalidDepartment | AskBio | InvalidBio | AskPhoto.

Definition menu_buttons : list string :=
  ["🔍 Browse Profiles"; "👤 My Profile"; "💕 My Matches"; "💌 Liked Me";
   "📊 Statistics"; "⚙️ Settings"; "ℹ️ Help"; "📱 Menu"].

(** Truthiness of [d.get(k)]. *)
Definition get_truthy (user_data : gmap string string) (k : string)
  : option string :=
  match user_data !! k with
  | Some v => if Py.truthy v then Some v else None
  | None => None
  end.

Definition text_steps (db : DB) (user_data : gmap string string)
    (step txt : string) : DB * gmap string string * option reply :=
  if String.eqb step "name" then
    if negb (Validators.validate_name txt) then
      (db, user_data, Some InvalidName)
    else
      (db, <["step" := "age"]> (<["name" := Py.strip txt]> user_data),
       Some AskAge)
  else if String.eqb step "age" then
    match Validators.validate_age txt with
    | (true, Some age) =>
        (db, <["step" := "department"]> (<["age" := pretty age]> user_data),
         Some AskDepartment)
    | _ => (db, user_data, Some InvalidAge)
    end
  else if String.eqb step "department" then
    if negb (Validators.validate_department txt) then
      (db, user_data, Some InvalidDepartment)
    else
      (db, <["step" := "bio"]> (<["department" := Py.strip txt]> user_data),
       Some AskBio)
  else if String.eqb step "bio" then
    if negb (Validators.validate_bio txt) then
      (db, user_data, Some InvalidBio)
    else
      (db, <["step" := "photo"]> (<["bio" := Py.strip txt]> user_data),
       Some AskPhoto)
  else (db, user_data, None).

Definition photo_step (io : access) (now : timestamp) (db : DB)
    (user_data : gmap string string) (uid : Z) (photo_id : string)
  : DB * gmap string string * option reply :=
  match get_truthy user_data "name", get_truthy user_data "age",
        get_truthy user_data "department", get_truthy user_data "bio" with
  | Some name, Some age_str, Some dept, Some bio =>
      match Validators.validate_age age_str with
      | (true, Some age) =>
          let '(db', saved) :=
            UserModel.save_user io now db uid name age dept bio photo_id in
          if saved then (db', ∅, Some ProfileCreated)
          else (db', user_data, Some FailedToSaveProfile)
      | _ => (db, ∅, Some InvalidAgeRestart)
      end
  | _, _, _, _ => (db, ∅, Some RegistrationIncomplete)
  end.

Definition handle_registration (io : access) (now : timestamp) (db : DB)
    (user_data : gmap string string) (msg : message)
  : DB * gmap string string * option reply :=
  let step := default "" (user_data !! "step") in
  let txt := default "" (text msg) in
  if negb (Py.truthy step) && Py.truthy txt
     && bool_decide (txt ∈ menu_buttons)
  then (db, user_data, None)
  else
    match String.eqb step "photo", last (photo msg) with
    | true, Some photo_id =>
        photo_step io now db user_data (from_user msg) photo_id
    | _, _ =>
        if negb (Py.truthy txt) then (db, user_data, None)
        else text_steps db user_data step txt
    end.

End StartHandler.

(** ** utils/rate_limiter.py *)

Module RateLimiterModel.

#[export] Instance Qlt_dec (x y : Q) : Decision (x < y)%Q :=
  match Qlt_le_dec x y with
  | left H => left H
  | right H => right (Qle_not_lt _ _ H)
  end.

(** [_requests] is a [defaultdict(list)]: a missing key reads as []. *)
Record RateLimiter := {
  _requests : gmap Z (list Q);
  _banned : gmap Z Q }.

Definition init : RateLimiter := {| _requests := ∅; _banned := ∅ |}.

Definition requests_of (self : RateLimiter) (uid : Z) : list Q :=
  default [] (_requests self !! uid).

Definition banned_msg (remaining : Z) : string :=
  "Rate limit exceeded. Try again in " +:+ pretty remaining +:+ " seconds.".

Definition too_many_msg (ban_duration : Z) : string :=
  "Too many requests. Please wait " +:+ pretty ban_duration +:+ " seconds.".

(** The part of [is_allowed] after the ban check; [banned] is the ban
    table as that check leaves it. *)
Definition check_limit (self : RateLimiter) (banned : gmap Z Q) (now : Q)
    (uid max_requests time_window ban_duration : Z)
  : RateLimiter * (bool * string) :=
  let cutoff := (now - inject_Z time_window)%Q in
  let recent := filter (fun req_time => (cutoff < req_time)%Q)
                       (requests_of self uid) in
  if Z.of_nat (List.length recent) >=? max_requests then
    ({| _requests := <[uid := recent]> (_requests self);
        _banned := <[uid := (now + inject_Z ban_duration)%Q]> banned |},
     (false, too_many_msg ban_duration))
  else
    ({| _requests := <[uid := recent ++ [now]]> (_requests self);
        _banned := banned |},
     (true, "")).

Definition is_allowed (self : RateLimiter) (now : Q)
    (uid max_requests time_window ban_duration : Z)
  : RateLimiter * (bool * string) :=
  match _banned self !! uid with
  | Some ban_until =>
      if decide (now < ban_until)%Q then
        (self, (false, banned_msg (Py.trunc (ban_until - now))))
      else
        check_limit self (delete uid (_banned self)) now
          uid max_requests time_window ban_duration
  | None =>
      check_limit self (_banned self) now
        uid max_requests time_window ban_duration
  end.

Definition reset (self : RateLimiter) (uid : Z) : RateLimiter :=
  {| _requests := delete uid (_requests self);
     _banned := delete uid (_banned self) |}.

(** Calls made on the one global [rate_limiter], in order. *)
Inductive call :=
| IsAllowed (now : Q) (uid time_window ban_duration : Z)
| Reset (uid : Z).

Definition step (max_requests : Z) (self : RateLimiter) (c : call)
  : RateLimiter :=
  match c with
  | IsAllowed now uid w b => fst (is_allowed self now uid max_requests w b)
  | Reset uid => reset self uid
  end.

Definition run (max_requests : Z) (calls : list call) : RateLimiter :=
  foldl (step max_requests) init calls.

End RateLimiterModel.

(** * Vocabulary of the properties

    Predicates the statements below are written with, and the sample
    stores, dialogue states and call sequences they are tried on. *)

Section Vocabulary.
Import Database UserModel BrowseHandler StartHandler RateLimiterModel.

(** The primary key of the like table. *)
Definition like_key (l : like_row) : Z * Z := (liker_id l, liked_id l).

(** Sample rows and stores. *)
Definition profile (uid : Z) : user_row :=
  {| user_id := uid; name := "Abebe"; age := 20; department := "CAS";
     bio := "hello there"; photo_id := "file-1";
     created_at := "2024-01-01 10:00:00";
     updated_at := "2024-01-01 10:00:00" |}.

Definition like_edge (a b : Z) : like_row :=
  {| liker_id := a; liked_id := b;
     like_created_at := "2024-01-02 10:00:00" |}.

(** Users 1 and 2; 2 has liked 1, 1 has not liked 2. *)
Definition one_sided : DB :=
  {| users := [profile 1; profile 2]; likes := [like_edge 2 1];
     matches := []; blocks := [] |}.

(** Users 1 and 2 (aged 20), nothing else. *)
Definition two_users : DB :=
  {| users := [profile 1; profile 2]; likes := []; matches := [];
     blocks := [] |}.

Definition ages_18_25 : preferences :=
  {| min_age := Some 18; max_age := Some 25; pref_department := None |}.

(** Users 1 and 2 who like each other. *)
Definition mutual : DB :=
  {| users := [profile 1; profile 2];
     likes := [like_edge 2 1; like_edge 1 2];
     matches := []; blocks := [] |}.

(** Substring containment, ASCII letters compared without case. *)
Fixpoint prefix_nocase (sub s : string) : bool :=
  match sub, s with
  | EmptyString, _ => true
  | String _ _, EmptyString => false
  | String c sub', String d s' => like_char c d && prefix_nocase sub' s'
  end.

Fixpoint contains_nocase (sub s : string) : bool :=
  prefix_nocase sub s
  || match s with
     | EmptyString => false
     | String _ s' => contains_nocase sub s'
     end.

Fixpoint eq_nocase (a b : string) : bool :=
  match a, b with
  | EmptyString, EmptyString => true
  | String c a', String d b' => like_char c d && eq_nocase a' b'
  | _, _ => false
  end.

(** No [%] and no [_] in the text. *)
Fixpoint no_wildcard (s : string) : bool :=
  match s with
  | EmptyString => true
  | String c s' =>
      negb (Ascii.eqb c "%"%char) && negb (Ascii.eqb c "_"%char)
      && no_wildcard s'
  end.

(** What the query of [get_users_with_filters] asks of a row. *)
Definition passes (A : Z) (min_age max_age : option Z)
    (dept : option string) (u : user_row) : Prop :=
  user_id u <> A
  /\ (forall n, min_age = Some n -> n <= age u)
  /\ (forall n, max_age = Some n -> age u <= n)
  /\ (forall d, dept = Some d -> d <> "" ->
        like ("%" +:+ d +:+ "%") (department u) = true).

(** Users 1, 2 and 3 aged 20, 30 and 40. *)
Definition three_ages : DB :=
  {| users := [profile 1;
               {| user_id := 2; name := "Sara"; age := 30;
                  department := "Computer Science"; bio := "hello there";
                  photo_id := "file-2";
                  created_at := "2024-01-01 10:00:00";
                  updated_at := "2024-01-01 10:00:00" |};
               {| user_id := 3; name := "Kebede"; age := 40;
                  department := "Business"; bio := "hello there";
                  photo_id := "file-3";
                  created_at := "2024-01-01 10:00:00";
                  updated_at := "2024-01-01 10:00:00" |}];
     likes := []; matches := []; blocks := [] |}.

(** The bio kept in [user_data], if any, has an accepted length. *)
Definition bio_checked (user_data : gmap string string) : Prop :=
  forall b, user_data !! "bio" = Some b -> 10 <= Py.len b <= 500.

(** The store is untouched, or holds one more saved profile whose age
    and bio are within bounds. *)
Definition unchanged_or_valid_write (now : timestamp) (uid : Z)
    (db db' : DB) : Prop :=
  db' = db
  \/ exists nm ag dp bi ph,
       16 <= ag <= 100 /\ 10 <= Py.len bi <= 500
       /\ db' = (save_user Ok now db uid nm ag dp bi ph).1.

Fixpoint repeat_char (n : nat) (c : ascii) : string :=
  match n with O => EmptyString | S n' => String c (repeat_char n' c) end.

Definition in_age_step : gmap string string :=
  {["step" := "age"; "name" := "Abebe"]}.

Definition in_photo_step : gmap string string :=
  {["step" := "photo"; "name" := "Abebe"; "age" := "21";
    "department" := "CAS"; "bio" := "hello there"]}.

(** The timestamps of [uid] that a call at [now] keeps. *)
Definition recent_of (self : RateLimiter) (now : Q) (uid time_window : Z)
  : list Q :=
  filter (fun req_time => (now - inject_Z time_window < req_time)%Q)
         (requests_of self uid).

(** A limiter in which user 7 made a request at time 0 and is banned
    until time 1000. *)
Definition banned_7 : RateLimiter :=
  {| _requests := {[ 7 := [0%Q] ]}; _banned := {[ 7 := 1000%Q ]} |}.

(** No ban on [uid], or one that is over at [now]. *)
Definition unbanned (self : RateLimiter) (now : Q) (uid : Z) : Prop :=
  _banned self !! uid = None
  \/ exists ban_until, _banned self !! uid = Some ban_until
                       /\ (ban_until <= now)%Q.

(** No user has more than [max_requests] timestamps stored. *)
Definition bounded (max_requests : Z) (self : RateLimiter) : Prop :=
  forall v, Z.of_nat (List.length (requests_of self v)) <= max_requests.

Definition busy_minute : list call :=
  [IsAllowed 1 7 60 300; IsAllowed 2 7 60 300; IsAllowed 3 8 60 300;
   IsAllowed 4 7 60 300; IsAllowed 5 7 60 300; Reset 8;
   IsAllowed 400 7 60 300; IsAllowed 401 7 60 300].

End Vocabulary.

(** * More of the sources *)

(** ** Further Python built-ins *)

Module PyStr.

(** [s.startswith(prefix)] *)
Fixpoint startswith (s prefix : string) : bool :=
  match prefix, s with
  | EmptyString, _ => true
  | String _ _, EmptyString => false
  | String c prefix', String d s' => Ascii.eqb c d && startswith s' prefix'
  end.

(** [s.split(sep)] for a separator of one character. *)
Fixpoint split (sep : ascii) (s : string) : list string :=
  match s with
  | EmptyString => [EmptyString]
  | String c s' =>
      if Ascii.eqb c sep then EmptyString :: split sep s'
      else match split sep s' with
           | piece :: rest => String c piece :: rest
           | [] => [String c EmptyString]
           end
  end.

(** [int(s.split("_")[i])]: [None] stands for the [IndexError] or
    [ValueError] the handlers catch. *)
Definition int_field (s : string) (i : nat) : option Z :=
  split "_" s !! i ≫= Py.int.

End PyStr.

(** ** models/user_model.py: reports and favourites *)

Module Extras.
Import Database.

Record report_row := {
  reporter_id : Z; reported_id : Z; reason : option string;
  report_created_at : timestamp }.

Record favorite_row := {
  fav_user_id : Z; favorite_id : Z; favorite_created_at : timestamp }.

(** The store with the two tables the matching engine does not read. *)
Record Store := {
  core : DB;
  reports : list report_row;
  favorites : list favorite_row }.

Definition set_core (st : Store) (db : DB) : Store :=
  {| core := db; reports := reports st; favorites := favorites st |}.
Definition set_reports (st : Store) (t : list report_row) : Store :=
  {| core := core st; reports := t; favorites := favorites st |}.
Definition set_favorites (st : Store) (t : list favorite_row) : Store :=
  {| core := core st; reports := reports st; favorites := t |}.

(** [transaction] on the larger store. *)
Definition transaction_st (io : access) (st st' : Store) : Store * bool :=
  try_except io (st', true) (st, false).

Definition report_user (io : access) (now : timestamp) (st : Store)
    (reporter reported : Z) (why : option string) : Store * bool :=
  let row := {| reporter_id := reporter; reported_id := reported;
                reason := why; report_created_at := now |} in
  transaction_st io st
    (set_reports st
       (insert_or_ignore (fun r => (reporter_id r, reported_id r)) row
          (reports st))).

Definition add_favorite (io : access) (now : timestamp) (st : Store)
    (uid fav : Z) : Store * bool :=
  let row := {| fav_user_id := uid; favorite_id := fav;
                favorite_created_at := now |} in
  transaction_st io st
    (set_favorites st
       (insert_or_ignore (fun f => (fav_user_id f, favorite_id f)) row
          (favorites st))).

Definition remove_favorite (io : access) (st : Store) (uid fav : Z)
  : Store * bool :=
  transaction_st io st
    (set_favorites st
       (filter (fun f => ~ (fav_user_id f = uid /\ favorite_id f = fav))
               (favorites st))).

Definition get_favorites (io : access) (st : Store) (uid : Z)
  : list user_row :=
  try_except io
    (u ← users (core st);
     f ← filter (fun f => favorite_id f = user_id u) (favorites st);
     if decide (fav_user_id f = uid) then [u] else [])
    [].

Definition is_favorited (io : access) (st : Store) (uid fav : Z) : bool :=
  try_except io
    (bool_decide
       (fetchone (filter (fun f => fav_user_id f = uid /\ favorite_id f = fav)
                         (favorites st))
        <> None))
    false.

End Extras.

(** ** handlers/browse_handler.py: the callback dispatcher and [browse] *)

Module Callbacks.
Import Database Extras.

(** The branch [handle_callback] takes on a callback text, with the id
    it reads from it. *)
Inductive action :=
| NoData            (* empty data: "Invalid action" *)
| Malformed         (* the branch's [except (ValueError, IndexError)] *)
| LikeOf (target : Z)
| Pass | Skip | BackMenu
| ViewMatch (target : Z)
| View (target : Z)
| Refresh
| Favorite (target : Z)
| Unfavorite (target : Z)
| Report (target : Z)
| CancelReport
| Block (target : Z)
| EditProfile
| Unhandled.        (* no branch applies *)

Definition with_id (data : string) (i : nat) (k : Z -> action) : action :=
  match PyStr.int_field data i with
  | Some target => k target
  | None => Malformed
  end.

Definition dispatch (data : string) : action :=
  if negb (Py.truthy data) then NoData
  else if PyStr.startswith data "like_" then with_id data 1 LikeOf
  else if String.eqb data "pass" then Pass
  else if String.eqb data "skip" then Skip
  else if String.eqb data "back_menu" then BackMenu
  else if PyStr.startswith data "view_match_" then with_id data 2 ViewMatch
  else if PyStr.startswith data "view_" then with_id data 1 View
  else if String.eqb data "refresh" then Refresh
  else if PyStr.startswith data "favorite_" then with_id data 1 Favorite
  else if PyStr.startswith data "unfavorite_" then with_id data 1 Unfavorite
  else if PyStr.startswith data "report_" then with_id data 1 Report
  else if String.eqb data "cancel_report" then CancelReport
  else if PyStr.startswith data "block_" then with_id data 1 Block
  else if String.eqb data "edit_profile" then EditProfile
  else Unhandled.

(** The callback texts [show_next_profile] puts on the buttons under
    the profile [shown]. *)
Definition like_data (shown : Z) : string := "like_" +:+ pretty shown.
Definition view_data (shown : Z) : string := "view_" +:+ pretty shown.
Definition report_data (shown : Z) : string := "report_" +:+ pretty shown.
Definition view_match_data (shown : Z) : string :=
  "view_match_" +:+ pretty shown.  (* matches_handler.py *)

Definition favorite_data (io : access) (st : Store) (uid shown : Z)
  : string :=
  if is_favorited io st uid shown then "unfavorite_" +:+ pretty shown
  else "favorite_" +:+ pretty shown.

(** What [handle_callback] does to the store: the three accesses of a
    like, or the one access of the other writing branches. *)
Definition handle_callback (io io_check io_save : access) (now : timestamp)
    (st : Store) (uid : Z) (data : string) : Store :=
  match dispatch data with
  | LikeOf target =>
      set_core st
        (BrowseHandler.handle_like io io_check io_save now (core st)
           uid target).1
  | Favorite target => (add_favorite io now st uid target).1
  | Unfavorite target => (remove_favorite io st uid target).1
  | Block target =>
      set_core st (UserModel.block_user io now (core st) uid target).1
  | _ => st
  end.

Inductive browse_outcome :=
| Refused (why : string)      (* the limiter's reason *)
| NeedsProfile                (* "You need to complete your profile first!" *)
| NoMoreUsers
| Shown (u : user_row).

(** [browse]: the limiter first, then the registration check, then the
    selection. *)
Definition browse (io_exists io_select : access) (rnd : nat)
    (limiter : RateLimiterModel.RateLimiter) (now : Q)
    (max_requests time_window ban_duration : Z)
    (db : DB) (prefs : option BrowseHandler.preferences) (uid : Z)
  : RateLimiterModel.RateLimiter * browse_outcome :=
  let '(limiter', (allowed, why)) :=
    RateLimiterModel.is_allowed limiter now uid max_requests time_window
      ban_duration in
  if negb allowed then (limiter', Refused why)
  else if negb (UserModel.user_exists io_exists db uid)
  then (limiter', NeedsProfile)
  else
    match BrowseHandler.show_next_profile io_select rnd db prefs uid with
    | Some u => (limiter', Shown u)
    | None => (limiter', NoMoreUsers)
    end.

End Callbacks.

(** ** handlers/start_handler.py: [/start], and the dialogue as a whole *)

Module Dialogue.
Import Database StartHandler.

(** What [start] does to the dialogue state; it asks [user_exists]
    twice. *)
Definition start (io1 io2 : access) (db : DB)
    (user_data : gmap string string) (uid : Z) : gmap string string :=
  let user_data1 :=
    if UserModel.user_exists io1 db uid then user_data
    else <["step" := "name"]> user_data in
  if UserModel.user_exists io2 db uid then ∅ else user_data1.

(** The [edit_profile] branch of [handle_callback]. *)
Definition edit_profile (user_data : gmap string string)
  : gmap string string :=
  <["step" := "name"]> user_data.

(** What a user can do to their registration dialogue. *)
Inductive event :=
| Start (io1 io2 : access)
| EditProfile
| Message (io : access) (now : timestamp) (msg : message).

Definition step (uid : Z) (s : DB * gmap string string) (e : event)
  : DB * gmap string string :=
  match e with
  | Start io1 io2 => (s.1, start io1 io2 s.1 s.2 uid)
  | EditProfile => (s.1, edit_profile s.2)
  | Message io now msg =>
      (handle_registration io now s.1 s.2
         {| from_user := uid; text := text msg; photo := photo msg |}).1
  end.

Definition run (uid : Z) (s : DB * gmap string string) (es : list event)
  : DB * gmap string string :=
  foldl (step uid) s es.

End Dialogue.

(** ** handlers/preferences_handler.py *)

Module PreferencesHandler.
Import Database BrowseHandler.

Definition no_preferences : preferences :=
  {| min_age := None; max_age := None; pref_department := None |}.

Definition set_ages (p : preferences) (lo hi : option Z) : preferences :=
  {| min_age := lo; max_age := hi; pref_department := pref_department p |}.

Definition set_department (p : preferences) (d : option string)
  : preferences :=
  {| min_age := min_age p; max_age := max_age p; pref_department := d |}.

(** What [handle_preferences_callback] does to
    [context.user_data['preferences']] ([None]: the key is absent). *)
Definition handle_preferences_callback (data : string)
    (prefs : option preferences) : option preferences :=
  if negb (Py.truthy data) || negb (PyStr.startswith data "pref_") then prefs
  else
    let p := default no_preferences prefs in
    if String.eqb data "pref_age_all" then Some (set_ages p None None)
    else if String.eqb data "pref_age_18_25"
    then Some (set_ages p (Some 18) (Some 25))
    else if String.eqb data "pref_age_26_30"
    then Some (set_ages p (Some 26) (Some 30))
    else if String.eqb data "pref_age_31_plus"
    then Some (set_ages p (Some 31) None)
    else if String.eqb data "pref_dept_all" then Some (set_department p None)
    else if String.eqb data "pref_dept_cs"
    then Some (set_department p (Some "Computer Science"))
    else if String.eqb data "pref_dept_eng"
    then Some (set_department p (Some "Engineering"))
    else if String.eqb data "pref_dept_bus"
    then Some (set_department p (Some "Business"))
    else if String.eqb data "pref_apply" then Some p
    else if String.eqb data "pref_clear" then None
    else if String.eqb data "pref_cancel" then None
    else Some p.

Inductive apply_outcome :=
| NoUsersFound                       (* "No users found with these filters" *)
| Browsing (shown : option user_row).  (* [show_next_profile] takes over *)

(** The [pref_apply] branch: one draw to see whether anybody passes,
    then [show_next_profile] draws again. *)
Definition apply_filters (io1 io2 : access) (rnd1 rnd2 : nat) (db : DB)
    (p : preferences) (uid : Z) : apply_outcome :=
  match UserModel.get_users_with_filters io1 rnd1 db uid
          (min_age p) (max_age p) (pref_department p) with
  | None => NoUsersFound
  | Some _ => Browsing (show_next_profile io2 rnd2 db (Some p) uid)
  end.

End PreferencesHandler.

(** ** handlers/menu_handler.py: the statistics *)

Module MenuHandler.
Import Database.

Record statistics := {
  likes_given : nat; likes_received : nat;
  matches_count : nat; profile_views : nat }.

(** [SELECT COUNT( * ) FROM likes WHERE ...] *)
Definition count_likes (P : like_row -> Prop) `{!forall l, Decision (P l)}
    (db : DB) : nat :=
  List.length (filter P (likes db)).

(** [show_statistics]: the two counts raise into the handler's own
    [except] ([None]: the error reply); [get_user_matches] has its own. *)
Definition show_statistics (io_given io_received io_matches : access)
    (db : DB) (uid : Z) : option statistics :=
  try_except io_given
    (try_except io_received
       (let received := count_likes (fun l => liked_id l = uid) db in
        Some {| likes_given := count_likes (fun l => liker_id l = uid) db;
                likes_received := received;
                matches_count :=
                  List.length (UserModel.get_user_matches io_matches db uid);
                profile_views := received |})
       None)
    None.

End MenuHandler.

(** ** utils/rate_limiter.py: [get_stats]; handlers/admin_handler.py *)

Module LimiterStats.
Import RateLimiterModel.

Record stats := {
  requests_last_minute : nat;
  is_banned : bool;
  ban_remaining : Z }.

Definition banned_now (self : RateLimiter) (now : Q) (uid : Z) : bool :=
  match _banned self !! uid with
  | Some ban_until => bool_decide (now < ban_until)%Q
  | None => false
  end.

Definition get_stats (self : RateLimiter) (now : Q) (uid : Z) : stats :=
  let cutoff := (now - 60)%Q in
  let recent_requests :=
    filter (fun req_time => (cutoff < req_time)%Q) (requests_of self uid) in
  {| requests_last_minute := List.length recent_requests;
     is_banned := banned_now self now uid;
     ban_remaining :=
       match _banned self !! uid with
       | Some ban_until =>
           if bool_decide (now < ban_until)%Q
           then Py.trunc (ban_until - now) else 0
       | None => 0
       end |}.

(** [is_admin] *)
Definition is_admin (admin_ids : list Z) (uid : Z) : bool :=
  bool_decide (uid ∈ admin_ids).

(** What [admin_command] does to the global limiter: only
    [/admin reset <id>] from an admin touches it. *)
Definition admin_command (admin_ids : list Z) (self : RateLimiter)
    (uid : Z) (args : list string) : RateLimiter :=
  if negb (is_admin admin_ids uid) then self
  else
    match args with
    | command :: arg :: _ =>
        if String.eqb command "reset" then
          match Py.int arg with
          | Some target => reset self target
          | None => self
          end
        else self
    | _ => self
    end.

End LimiterStats.

(** * Vocabulary of the further properties *)

#[global] Instance Qle_dec (x y : Q) : Decision (x <= y)%Q :=
  match Qlt_le_dec y x with
  | left H => right (Qlt_not_le _ _ H)
  | right H => left H
  end.

Section MoreVocabulary.
Import Database UserModel BrowseHandler.
Import (hints) RateLimiterModel.

(** The writes the bot makes to the four core tables: a registration,
    the like button, a block. *)
Inductive write :=
| SaveUser (io : access) (now : timestamp) (uid : Z) (nm : string)
    (ag : Z) (dp bi ph : string)
| LikeButton (io io_check io_save : access) (now : timestamp) (uid liked : Z)
| BlockUser (io : access) (now : timestamp) (blocker blocked : Z).

Definition apply_write (db : DB) (w : write) : DB :=
  match w with
  | SaveUser io now uid nm ag dp bi ph =>
      (save_user io now db uid nm ag dp bi ph).1
  | LikeButton io io_check io_save now uid liked =>
      (handle_like io io_check io_save now db uid liked).1
  | BlockUser io now blocker blocked =>
      (block_user io now db blocker blocked).1
  end.

Definition apply_writes (db : DB) (ws : list write) : DB :=
  foldl apply_write db ws.

(** No two rows of the users table share an id. *)
Definition unique_ids (db : DB) : Prop := NoDup (user_id <$> users db).

(** Every row of the match table is an ordered pair of users who like
    each other. *)
Definition matches_backed (db : DB) : Prop :=
  Forall (fun m => user1_id m <= user2_id m
                   /\ has_like db (user1_id m) (user2_id m)
                   /\ has_like db (user2_id m) (user1_id m))
         (matches db).

(** Some row of [rows] has the id [uid]. *)
Definition lists_id (rows : list user_row) (uid : Z) : Prop :=
  uid ∈ (user_id <$> rows).

(** Only decimal digits. *)
Fixpoint all_digits (s : string) : bool :=
  match s with
  | EmptyString => true
  | String c s' => bool_decide (is_Some (Py.digit c)) && all_digits s'
  end.

(** The number a run of digits stands for, after the digits [acc]. *)
Fixpoint value_from (acc : Z) (s : string) : Z :=
  match s with
  | EmptyString => acc
  | String c s' => value_from (10 * acc + default 0 (Py.digit c)) s'
  end.

(** Only decimal digits and minus signs. *)
Fixpoint numeral_chars (s : string) : bool :=
  match s with
  | EmptyString => true
  | String c s' =>
      (bool_decide (is_Some (Py.digit c)) || Ascii.eqb c "-")
      && numeral_chars s'
  end.

(** A text that carries no surrounding whitespace and counts [lo] to
    [hi] characters. *)
Definition trimmed (lo hi : Z) (s : string) : Prop :=
  Py.strip s = s /\ lo <= Py.len s <= hi.

(** A row within the registration bounds, counted on the stored texts
    themselves: name of 2 to 50, department of 2 to 100 and bio of 10 to
    500 characters, none with surrounding whitespace, and an age from 16
    to 100. *)
Definition valid_profile (u : user_row) : Prop :=
  trimmed 2 50 (name u)
  /\ 16 <= age u <= 100
  /\ trimmed 2 100 (department u)
  /\ trimmed 10 500 (bio u).

(** The name, department and bio kept in the dialogue state, if any,
    are within the same bounds. *)
Definition checked_state (user_data : gmap string string) : Prop :=
  (forall v, user_data !! "name" = Some v -> v <> "" -> trimmed 2 50 v)
  /\ (forall v, user_data !! "department" = Some v -> v <> "" ->
        trimmed 2 100 v)
  /\ (forall v, user_data !! "bio" = Some v -> v <> "" -> trimmed 10 500 v).

(** A text message and a photo message. *)
Definition text_message (txt : string) : StartHandler.message :=
  {| StartHandler.from_user := 0; StartHandler.text := Some txt;
     StartHandler.photo := [] |}.

Definition photo_message (caption : option string) (sizes : list string)
  : StartHandler.message :=
  {| StartHandler.from_user := 0; StartHandler.text := caption;
     StartHandler.photo := sizes |}.

(** Calls that leave the ban of [uid] alone: no reset of [uid], and the
    calls [uid] makes come before [ban_until]. *)
Definition during_ban (uid : Z) (ban_until : Q) (c : RateLimiterModel.call)
  : Prop :=
  match c with
  | RateLimiterModel.IsAllowed now u _ _ => u = uid -> (now < ban_until)%Q
  | RateLimiterModel.Reset u => u <> uid
  end.

(** One user calling at the times [ts], one after the other, with one
    configuration: the limiter afterwards, and the times of the calls
    that were allowed. *)
Definition serve_one (uid max_requests time_window ban_duration : Z)
    (s : RateLimiterModel.RateLimiter * list Q) (now : Q)
  : RateLimiterModel.RateLimiter * list Q :=
  let r := RateLimiterModel.is_allowed s.1 now uid max_requests time_window
             ban_duration in
  (r.1, if r.2.1 then s.2 ++ [now] else s.2).

Definition serve (uid max_requests time_window ban_duration : Z)
    (self : RateLimiterModel.RateLimiter) (ts : list Q)
  : RateLimiterModel.RateLimiter * list Q :=
  foldl (serve_one uid max_requests time_window ban_duration) (self, []) ts.

(** How many of the times [l] lie in the window that ends at [t]. *)
Definition in_window (time_window : Z) (t : Q) (l : list Q) : nat :=
  List.length
    (filter (fun x => (t - inject_Z time_window < x)%Q /\ (x <= t)%Q) l).

(** The limiter holds, of the allowed times [s.2], those after [c]; all
    of them are at most [c + time_window]; no window holds too many. *)
Definition window_inv (uid max_requests time_window : Z)
    (s : RateLimiterModel.RateLimiter * list Q) (c : Q) : Prop :=
  RateLimiterModel.requests_of s.1 uid = filter (fun x => (c < x)%Q) s.2
  /\ Forall (fun x => (x <= c + inject_Z time_window)%Q) s.2
  /\ forall t0, t0 ∈ s.2 ->
       Z.of_nat (in_window time_window t0 s.2) <= max_requests.

(** Times that never go back. *)
Fixpoint nondecreasing (ts : list Q) : Prop :=
  match ts with
  | [] => True
  | t :: ts' => Forall (fun t' => (t <= t')%Q) ts' /\ nondecreasing ts'
  end.

(** The filters the preferences menu can set. *)
Definition menu_ages : list (option Z * option Z) :=
  [(None, None); (Some 18, Some 25); (Some 26, Some 30); (Some 31, None)].

Definition menu_departments : list (option string) :=
  [None; Some "Computer Science"; Some "Engineering"; Some "Business"].

Definition from_menu (prefs : option preferences) : Prop :=
  match prefs with
  | None => True
  | Some p => (min_age p, max_age p) ∈ menu_ages
              /\ pref_department p ∈ menu_departments
  end.

(** A morning of writes, one of them with a failing match insert. *)
Definition sample_writes : list write :=
  [LikeButton Ok Ok Ok "2024-02-02 09:00:00" 1 2;
   SaveUser Ok "2024-02-02 09:05:00" 3 "Kebede" 40 "Business"
     "hello there" "file-3";
   BlockUser Ok "2024-02-02 09:06:00" 1 3;
   LikeButton Ok Ok Ok "2024-02-02 09:10:00" 2 1;
   SaveUser Ok "2024-02-02 09:20:00" 2 "Sara" 30 "Law" "a longer bio"
     "file-9";
   LikeButton Ok Ok Err "2024-02-02 09:30:00" 3 3].

End MoreVocabulary.
(** * Properties *)

(** ** Sanity checks of the embedding on concrete inputs *)

Example validate_age_padded : Validators.validate_age " 16 " = (true, Some 16).
Proof. reflexivity. Qed.
Example validate_age_underscore :
  Validators.validate_age "1_00" = (true, Some 100).
Proof. reflexivity. Qed.
Example validate_age_not_a_number : Validators.validate_age "16y" = (false, None).
Proof. reflexivity. Qed.
Example like_ignores_case : Database.like "%sci%" "Computer Science" = true.
Proof. reflexivity. Qed.
Example like_no_match : Database.like "%math%" "Computer Science" = false.
Proof. reflexivity. Qed.

(** ** Lists and the SQL helpers *)

Section Lists.
Context {X : Type} (P : X -> Prop) `{!forall x, Decision (P x)}.

Lemma filter_none (l : list X) :
  (forall x, x ∈ l -> ~ P x) -> filter P l = [].
Proof.
  intros Hn. destruct (filter P l) as [|x rest] eqn:E; [done|].
  assert (Hx : x ∈ filter P l) by (rewrite E; left).
  apply list_elem_of_filter in Hx as [Hp Hx]. by destruct (Hn x Hx).
Qed.

Lemma filter_all (l : list X) : Forall P l -> filter P l = l.
Proof.
  induction 1 as [|x l Hx _ IH]; [done|].
  by rewrite filter_cons_True, IH.
Qed.

End Lists.

Section Tables.
Import Database.
Context {R K : Type} `{EqDecision K} (key : R -> K).

Lemma insert_or_ignore_present (r : R) (t : list R) :
  Exists (fun r' => key r' = key r) (insert_or_ignore key r t).
Proof.
  unfold insert_or_ignore. case_decide as Hin; [exact Hin|].
  apply Exists_app. right. by constructor.
Qed.

Lemma insert_or_ignore_again (r r' : R) (t : list R) :
  key r' = key r ->
  insert_or_ignore key r' (insert_or_ignore key r t)
  = insert_or_ignore key r t.
Proof.
  intros Hk. unfold insert_or_ignore at 1.
  rewrite decide_True; [done|].
  rewrite Hk. apply insert_or_ignore_present.
Qed.

Lemma insert_or_ignore_keeps (r x : R) (t : list R) :
  x ∈ t -> x ∈ insert_or_ignore key r t.
Proof.
  intros Hx. unfold insert_or_ignore. case_decide; [done|].
  apply elem_of_app. by left.
Qed.

End Tables.

Section Likes.
Import Database UserModel BrowseHandler.

Lemma has_like_iff (db : DB) (a b : Z) :
  has_like db a b <-> exists l, l ∈ likes db /\ liker_id l = a /\ liked_id l = b.
Proof. unfold has_like. rewrite Exists_exists. naive_solver. Qed.

Lemma likes_add_like (now : timestamp) (db : DB) (a b : Z) :
  likes (add_like Ok now db a b).1
  = insert_or_ignore like_key
      {| liker_id := a; liked_id := b; like_created_at := now |} (likes db).
Proof. reflexivity. Qed.

Lemma add_like_has_like (now : timestamp) (db : DB) (a b : Z) :
  has_like (add_like Ok now db a b).1 a b.
Proof.
  unfold has_like. rewrite likes_add_like.
  eapply Exists_impl; [apply (insert_or_ignore_present like_key)|].
  intros l Hl. injection Hl as -> ->. done.
Qed.

Lemma add_like_keeps (io : access) (now : timestamp) (db : DB) (a b x y : Z) :
  has_like db x y -> has_like (add_like io now db a b).1 x y.
Proof.
  destruct io; [|done].
  rewrite !has_like_iff. intros (l & Hl & Hx & Hy). exists l.
  split; [|done]. rewrite likes_add_like. by apply insert_or_ignore_keeps.
Qed.

Lemma users_add_like (io : access) (now : timestamp) (db : DB) (a b : Z) :
  users (add_like io now db a b).1 = users db.
Proof. by destruct io. Qed.

Lemma likes_save_match (io : access) (now : timestamp) (db : DB) (a b : Z) :
  likes (save_match io now db a b).1 = likes db.
Proof. by destruct io. Qed.

Lemma users_save_match (io : access) (now : timestamp) (db : DB) (a b : Z) :
  users (save_match io now db a b).1 = users db.
Proof. by destruct io. Qed.

(** What [check_match] computes: the one edge [user2 -> user1]. *)
Lemma check_match_reverse_edge (db : DB) (user1_id user2_id : Z) :
  check_match Ok db user1_id user2_id = true <-> has_like db user2_id user1_id.
Proof.
  unfold check_match, try_except, fetchone.
  rewrite bool_decide_eq_true, has_like_iff. split.
  - destruct (filter _ (likes db)) as [|l rows] eqn:E; [done|]. intros _.
    assert (Hl : l ∈ filter (fun l => liker_id l = user2_id
                                      /\ liked_id l = user1_id) (likes db))
      by (rewrite E; left).
    apply list_elem_of_filter in Hl. destruct Hl as [[Ha Hb] Hl]. eauto.
  - intros (l & Hl & Ha & Hb).
    assert (Hin : l ∈ filter (fun l => liker_id l = user2_id
                                       /\ liked_id l = user1_id) (likes db))
      by (apply list_elem_of_filter; done).
    destruct (filter _ (likes db)); [by apply elem_of_nil in Hin|done].
Qed.

(** The store after [handle_like], table by table. *)
Lemma likes_handle_like (io2 io3 : access) (now : timestamp) (db : DB)
    (a b : Z) :
  likes (handle_like Ok io2 io3 now db a b).1 = likes (add_like Ok now db a b).1.
Proof.
  unfold handle_like. cbn [add_like transaction try_except].
  destruct (check_match _ _ _ _); [|done].
  pose proof (likes_save_match io3 now
                (set_likes db (insert_or_ignore
                   (fun l => (liker_id l, liked_id l))
                   {| liker_id := a; liked_id := b; like_created_at := now |}
                   (likes db))) a b) as E.
  destruct (save_match io3 _ _ _ _) as [db2 ok]. exact E.
Qed.

Lemma likes_handle_like_any (io1 io2 io3 : access) (now : timestamp)
    (db : DB) (a b : Z) :
  likes (handle_like io1 io2 io3 now db a b).1 = likes (add_like io1 now db a b).1.
Proof.
  destruct io1; [apply likes_handle_like|done].
Qed.

Lemma users_handle_like (io1 io2 io3 : access) (now : timestamp) (db : DB)
    (a b : Z) :
  users (handle_like io1 io2 io3 now db a b).1 = users db.
Proof.
  unfold handle_like.
  pose proof (users_add_like io1 now db a b) as H1.
  destruct (add_like io1 now db a b) as [db1 ok1]. simpl in H1.
  destruct ok1; [|done].
  destruct (check_match _ _ _ _); [|done].
  pose proof (users_save_match io3 now db1 a b) as H2.
  destruct (save_match io3 _ _ _ _) as [db2 ok]. simpl in *. congruence.
Qed.

End Likes.

Section Matching.
Import Database UserModel BrowseHandler.

(** C3 (the code departs from the claim).  With only the edge 2 -> 1 in
    the like table, [check_match 1 2] answers true although the edge
    1 -> 2 is missing: the function looks at the reverse edge alone. *)
Theorem check_match_reverse_edge_only :
  check_match Ok one_sided 1 2 = true
  /\ has_like one_sided 2 1
  /\ ~ has_like one_sided 1 2.
Proof.
  split; [reflexivity|]. split.
  - apply has_like_iff. exists (like_edge 2 1). split; [left|done].
  - rewrite has_like_iff. intros (l & Hl & Ha & Hb).
    apply list_elem_of_singleton in Hl. subst l. discriminate Ha.
Qed.

(** Right after the caller's own like is stored, the reverse edge is
    all that is left to check: there [check_match] is the mutual test. *)
Lemma check_match_after_add_like (now : timestamp) (db : DB) (a b : Z) :
  let db1 := (add_like Ok now db a b).1 in
  check_match Ok db1 a b = true <-> has_like db1 a b /\ has_like db1 b a.
Proof.
  intros db1. rewrite check_match_reverse_edge. split; [|tauto].
  intros H. split; [apply add_like_has_like|exact H].
Qed.

(** C4.  A second [record_like(A,B)] leaves the like table as the first
    one left it, rows and row count alike, whatever the clock shows and
    whether or not the second call's store accesses go through. *)
Theorem record_like_idempotent (io2 io3 io1' io2' io3' : access)
    (now now' : timestamp) (db : DB) (A B : Z) :
  let once := (handle_like Ok io2 io3 now db A B).1 in
  let twice := (handle_like io1' io2' io3' now' once A B).1 in
  likes twice = likes once
  /\ List.length (likes twice) = List.length (likes once)
  /\ likes (add_like io1' now' (add_like Ok now db A B).1 A B).1
     = likes (add_like Ok now db A B).1.
Proof.
  intros once twice.
  assert (Hadd : forall d, likes d = likes (add_like Ok now db A B).1 ->
                   likes (add_like io1' now' d A B).1 = likes d).
  { intros d Hd. destruct io1'; [|done].
    rewrite likes_add_like, Hd, likes_add_like.
    by apply insert_or_ignore_again. }
  assert (H1 : likes twice = likes once).
  { unfold twice. rewrite likes_handle_like_any. apply Hadd.
    unfold once. apply likes_handle_like. }
  split; [exact H1|]. split; [by rewrite H1|]. by apply Hadd.
Qed.

Example record_like_twice_one_row :
  likes (handle_like Ok Ok Ok "t2"
           (handle_like Ok Ok Ok "t1" one_sided 1 2).1 1 2).1
  = [like_edge 2 1;
     {| liker_id := 1; liked_id := 2; like_created_at := "t1" |}].
Proof. reflexivity. Qed.

(** C5.  No profile is both in [get_users_who_liked_me] and in
    [get_user_matches] of the same user on the same store: the two
    lists share no row and no user id. *)
Theorem likers_and_matches_disjoint (io io' : access) (db : DB) (A : Z) :
  get_users_who_liked_me io db A ## get_user_matches io' db A
  /\ (user_id <$> get_users_who_liked_me io db A)
     ## (user_id <$> get_user_matches io' db A).
Proof.
  assert (Hids : (user_id <$> get_users_who_liked_me io db A)
                 ## (user_id <$> get_user_matches io' db A)).
  { intros x Hl Hm.
    apply list_elem_of_fmap in Hl as (u & -> & Hu).
    apply list_elem_of_fmap in Hm as (v & Hv & Hm).
    destruct io; [|by apply elem_of_nil in Hu].
    destruct io'; [|by apply elem_of_nil in Hm].
    unfold get_users_who_liked_me, get_user_matches, try_except in *.
    rewrite elem_of_remove_dups in Hu. rewrite elem_of_remove_dups in Hm.
    apply list_elem_of_filter in Hm as [(Hfwd & _ & _) _].
    apply list_elem_of_bind in Hu as (u' & Hu & _).
    apply list_elem_of_bind in Hu as (l & Hu & _).
    case_decide as Hc; [|by apply elem_of_nil in Hu].
    apply list_elem_of_singleton in Hu. subst u'.
    destruct Hc as (_ & Hno & _). apply Hno. by rewrite Hv. }
  split; [|exact Hids].
  intros u Hl Hm. apply (Hids (user_id u)); by apply list_elem_of_fmap_2.
Qed.

(** Both lists can be inhabited at once: 2 likes 1 only, 1 and 3 like
    each other. *)
Example likers_and_matches_inhabited :
  let db := {| users := [profile 1; profile 2; profile 3];
               likes := [like_edge 2 1; like_edge 3 1; like_edge 1 3];
               matches := []; blocks := [] |} in
  get_users_who_liked_me Ok db 1 = [profile 2]
  /\ get_user_matches Ok db 1 = [profile 3].
Proof. split; reflexivity. Qed.

End Matching.

Section Selection.
Import Database UserModel BrowseHandler.

Lemma fetchone_random_elem {R : Type} (rnd : nat) (rows : list R) (r : R) :
  fetchone (order_by_random_limit_1 rnd rows) = Some r -> r ∈ rows.
Proof.
  unfold fetchone, order_by_random_limit_1.
  destruct (rows !! _) as [r'|] eqn:E; [|done].
  intros [= <-]. by eapply list_elem_of_lookup_2.
Qed.

Lemma fetchone_random_none {R : Type} (rnd : nat) (rows : list R) :
  fetchone (order_by_random_limit_1 rnd rows) = None <-> rows = [].
Proof.
  unfold fetchone, order_by_random_limit_1. split.
  - destruct rows as [|r rows]; [done|].
    destruct ((r :: rows) !! _) as [r'|] eqn:E; [done|]. intros _.
    apply lookup_ge_None in E.
    pose proof (Nat.mod_upper_bound rnd (List.length (r :: rows))) as Hlt.
    simpl in *. lia.
  - by intros ->.
Qed.

(** The unfiltered path: never the requester, never a blocked profile. *)
Lemma get_random_user_sound (io : access) (rnd : nat) (db : DB) (A : Z)
    (u : user_row) :
  get_random_user io rnd db A true = Some u ->
  u ∈ users db /\ user_id u <> A /\ ~ blocked_by db A (user_id u).
Proof.
  destruct io; [|done]. unfold get_random_user, try_except.
  intros H. apply fetchone_random_elem, list_elem_of_filter in H. tauto.
Qed.

Lemma block_user_blocked_by (now : timestamp) (db : DB) (A B : Z) :
  blocked_by (block_user Ok now db A B).1 A B.
Proof.
  unfold blocked_by. cbn [block_user transaction try_except fst set_blocks blocks].
  eapply Exists_impl;
    [apply (insert_or_ignore_present
              (fun b => (blocker_id b, blocked_id b)))|].
  intros b Hb. injection Hb as -> ->. done.
Qed.

Lemma block_user_keeps (io : access) (now : timestamp) (db : DB)
    (A B X Y : Z) :
  blocked_by db X Y -> blocked_by (block_user io now db A B).1 X Y.
Proof.
  destruct io; [|done]. unfold blocked_by. rewrite !Exists_exists.
  intros (b & Hb & Hx). exists b. split; [|done].
  cbn [block_user transaction try_except fst set_blocks blocks].
  by apply insert_or_ignore_keeps.
Qed.

(** C1 (the code departs from the claim).  User 1 blocks user 2 and
    browses with the age filter 18-25 set: the filtered query has no
    clause on the block table, so user 2 is shown, whatever the random
    order.  The unfiltered query on the same store shows nobody. *)
Theorem filtered_browse_shows_blocked (rnd : nat) :
  let db := (block_user Ok "2024-01-03 10:00:00" two_users 1 2).1 in
  blocked_by db 1 2
  /\ get_users_with_filters Ok rnd db 1 (Some 18) (Some 25) None
     = Some (profile 2)
  /\ show_next_profile Ok rnd db (Some ages_18_25) 1 = Some (profile 2)
  /\ get_random_user Ok rnd db 1 true = None
  /\ show_next_profile Ok rnd db None 1 = None.
Proof.
  intros db. split; [apply block_user_blocked_by|].
  assert (H1 : forall rows : list user_row,
             List.length rows = 1%nat ->
             fetchone (order_by_random_limit_1 rnd rows) = head rows).
  { intros [|r [|r' rows]] Hlen; try discriminate Hlen.
    unfold order_by_random_limit_1. simpl List.length.
    by rewrite Nat.mod_1_r. }
  split; [|split; [|split]].
  - unfold get_users_with_filters, try_except. by rewrite H1.
  - unfold show_next_profile, get_users_with_filters, try_except.
    simpl any_values. cbn iota. by rewrite H1.
  - reflexivity.
  - reflexivity.
Qed.

End Selection.

Section MutualLike.
Import Database UserModel BrowseHandler.

Lemma has_like_ext (d d' : DB) (a b : Z) :
  likes d = likes d' -> has_like d a b <-> has_like d' a b.
Proof. unfold has_like. by intros ->. Qed.

Lemma get_user_matches_intro (db : DB) (A : Z) (u : user_row) :
  u ∈ users db -> user_id u <> A ->
  has_like db A (user_id u) -> has_like db (user_id u) A ->
  u ∈ get_user_matches Ok db A.
Proof.
  intros Hu Hne Hf Hb. unfold get_user_matches, try_except.
  apply elem_of_remove_dups, list_elem_of_filter. tauto.
Qed.

Lemma handle_like_matched (io3 : access) (now : timestamp) (db : DB)
    (a b : Z) :
  has_like (add_like Ok now db a b).1 b a ->
  (handle_like Ok Ok io3 now db a b).2 = ItsAMatch.
Proof.
  intros H. apply check_match_reverse_edge in H. unfold handle_like.
  cbn [add_like transaction try_except fst] in *. rewrite H.
  by destruct (save_match io3 _ _ _ _).
Qed.

(** C2.  For two profiles A and B of the users table (two users, as
    the match list of a user is about the others): after
    [record_like(A,B)], [record_like(B,A)] reports a match, and then
    [get_user_matches] of A holds B's row and that of B holds A's. *)
Theorem mutual_like_matches (io2 io3 io3' : access) (now now' : timestamp)
    (db : DB) (ua ub : user_row) :
  ua ∈ users db -> ub ∈ users db -> user_id ua <> user_id ub ->
  let A := user_id ua in
  let B := user_id ub in
  let first := handle_like Ok io2 io3 now db A B in
  let second := handle_like Ok Ok io3' now' first.1 B A in
  matched second.2 = true
  /\ ub ∈ get_user_matches Ok second.1 A
  /\ ua ∈ get_user_matches Ok second.1 B.
Proof.
  intros Ha Hb Hne A B first second.
  assert (HAB1 : has_like first.1 A B).
  { apply (has_like_ext _ (add_like Ok now db A B).1);
      [apply likes_handle_like|apply add_like_has_like]. }
  set (mid := (add_like Ok now' first.1 B A).1).
  assert (HBA : has_like mid B A) by apply add_like_has_like.
  assert (HAB : has_like mid A B) by by apply add_like_keeps.
  assert (Hlikes : likes second.1 = likes mid) by apply likes_handle_like.
  assert (Husers : users second.1 = users db).
  { unfold second. rewrite users_handle_like. apply users_handle_like. }
  split; [|split].
  - unfold second. by rewrite handle_like_matched.
  - apply get_user_matches_intro.
    + by rewrite Husers.
    + intros Heq. apply Hne. symmetry. exact Heq.
    + by apply (has_like_ext _ mid).
    + by apply (has_like_ext _ mid).
  - apply get_user_matches_intro.
    + by rewrite Husers.
    + done.
    + by apply (has_like_ext _ mid).
    + by apply (has_like_ext _ mid).
Qed.

Lemma mutual_like_matches_witness :
  matched (handle_like Ok Ok Ok "t2"
             (handle_like Ok Ok Ok "t1" two_users 1 2).1 2 1).2 = true
  /\ profile 2 ∈ get_user_matches Ok
       (handle_like Ok Ok Ok "t2"
          (handle_like Ok Ok Ok "t1" two_users 1 2).1 2 1).1 1
  /\ profile 1 ∈ get_user_matches Ok
       (handle_like Ok Ok Ok "t2"
          (handle_like Ok Ok Ok "t1" two_users 1 2).1 2 1).1 2.
Proof.
  apply (mutual_like_matches Ok Ok Ok "t1" "t2" two_users
           (profile 1) (profile 2)).
  - left.
  - right. left.
  - simpl. lia.
Defined.

End MutualLike.

Section StoreFailures.
Import Database UserModel BrowseHandler.

(** C9 as stated fails: on a store where 1 and 2 like each other, a
    failing access makes the match check, the match list, the liker
    list and both candidate queries answer exactly what they answer on
    a healthy store that holds no like at all. *)
Lemma failure_reads_as_nothing_found :
  check_match Ok mutual 1 2 = true
  /\ get_user_matches Ok mutual 1 = [profile 2]
  /\ check_match Err mutual 1 2 = check_match Ok two_users 1 2
  /\ get_user_matches Err mutual 1 = get_user_matches Ok two_users 1
  /\ get_users_who_liked_me Err one_sided 1
     = get_users_who_liked_me Ok two_users 1
  /\ get_random_user Err 0 mutual 1 true = get_random_user Ok 0 empty 1 true
  /\ ~ (check_match Err mutual 1 2 <> check_match Ok two_users 1 2).
Proof. repeat split; try reflexivity. intros H. by apply H. Qed.

(** What the readers answer on a healthy store that holds nothing for
    the question asked. *)
Lemma check_match_no_edge (db : DB) (a b : Z) :
  ~ has_like db b a -> check_match Ok db a b = false.
Proof.
  intros Hno. destruct (check_match Ok db a b) eqn:E; [|done].
  by apply check_match_reverse_edge in E.
Qed.

Lemma get_user_matches_no_like (db : DB) (a : Z) :
  (forall u, u ∈ users db -> ~ has_like db a (user_id u)) ->
  get_user_matches Ok db a = [].
Proof.
  intros Hno. unfold get_user_matches, try_except.
  rewrite filter_none; [done|]. intros u Hu (Hl & _). by apply (Hno u).
Qed.

Lemma get_random_user_nobody_else (rnd : nat) (db : DB) (a : Z) (eb : bool) :
  (forall u, u ∈ users db -> user_id u = a) ->
  get_random_user Ok rnd db a eb = None.
Proof.
  intros Hall. unfold get_random_user, try_except.
  apply fetchone_random_none.
  destruct eb; apply filter_none; intros u Hu; specialize (Hall u Hu); tauto.
Qed.

(** C9, as amended.  A failing store access is caught inside every
    function of the model.  The writing functions answer [False], the
    opposite of their answer on success, and leave the store as it was;
    a like that cannot be stored is reported as such.  The reading
    functions answer [False], the empty list or [None]: these are also
    their answers on a healthy store when there is no reverse like, no
    liked profile, nobody else to show; and a failing match check after
    a stored like is reported as a plain like. *)
Theorem storage_failure_outcomes (io2 io3 : access) (now : timestamp)
    (rnd : nat) (db db' : DB) (a b : Z) (lo hi : option Z)
    (dept : option string) (nm dp bi ph : string) (ag : Z) (eb : bool) :
  (add_like Err now db a b = (db, false)
   /\ (add_like Ok now db a b).2 = true
   /\ save_user Err now db a nm ag dp bi ph = (db, false)
   /\ (save_user Ok now db a nm ag dp bi ph).2 = true
   /\ save_match Err now db a b = (db, false)
   /\ block_user Err now db a b = (db, false)
   /\ handle_like Err io2 io3 now db a b = (db, FailedToSaveLike))
  /\ (check_match Err db a b = false
      /\ user_exists Err db a = false
      /\ is_blocked Err db a b = false
      /\ get_user Err db a = None
      /\ get_user_matches Err db a = []
      /\ get_users_who_liked_me Err db a = []
      /\ get_random_user Err rnd db a eb = None
      /\ get_users_with_filters Err rnd db a lo hi dept = None)
  /\ ((~ has_like db' b a ->
       check_match Ok db' a b = check_match Err db a b)
      /\ ((forall u, u ∈ users db' -> ~ has_like db' a (user_id u)) ->
          get_user_matches Ok db' a = get_user_matches Err db a)
      /\ ((forall u, u ∈ users db' -> user_id u = a) ->
          get_random_user Ok rnd db' a eb = get_random_user Err rnd db a eb))
  /\ handle_like Ok Err io3 now db a b = ((add_like Ok now db a b).1, Liked).
Proof.
  split; [by repeat split|]. split; [by repeat split|]. split; [|done].
  split; [apply check_match_no_edge|].
  split; [apply get_user_matches_no_like|apply get_random_user_nobody_else].
Qed.

Lemma storage_failure_outcomes_witness :
  check_match Ok two_users 1 2 = check_match Err mutual 1 2
  /\ get_user_matches Ok two_users 1 = get_user_matches Err mutual 1
  /\ get_random_user Ok 0 empty 1 true = get_random_user Err 0 mutual 1 true.
Proof.
  destruct (storage_failure_outcomes Ok Ok "2024-01-04 10:00:00" 0 mutual
              two_users 1 2 None None None "" "" "" "" 0 true)
    as (_ & _ & (Hc & Hm & _) & _).
  destruct (storage_failure_outcomes Ok Ok "2024-01-04 10:00:00" 0 mutual
              empty 1 2 None None None "" "" "" "" 0 true)
    as (_ & _ & (_ & _ & Hr) & _).
  assert (Hnone : forall x y, ~ has_like two_users x y).
  { intros x y H. apply has_like_iff in H as (l & Hl & _).
    by apply elem_of_nil in Hl. }
  split; [|split].
  - apply Hc, Hnone.
  - apply Hm. intros u _. apply Hnone.
  - apply Hr. intros u Hu. by apply elem_of_nil in Hu.
Defined.

End StoreFailures.

Section Filters.
Import Database UserModel BrowseHandler.

Lemma prefix_nocase_spec (sub s : string) :
  prefix_nocase sub s = true
  <-> exists mid rest, s = mid +:+ rest /\ eq_nocase sub mid = true.
Proof.
  revert s. induction sub as [|c sub IH]; intros s; simpl.
  - split; [|done]. intros _. by exists "", s.
  - destruct s as [|d s].
    + split; [done|]. intros ([|? ?] & rest & Hs & He); done.
    + rewrite andb_true_iff, IH. split.
      * intros (Hc & mid & rest & -> & He). exists (String d mid), rest.
        simpl. by rewrite Hc, He.
      * intros ([|d' mid] & rest & Hs & He); [done|].
        simpl in Hs, He. injection Hs as -> ->.
        apply andb_true_iff in He as [Hc He]. eauto.
Qed.

Lemma contains_nocase_spec (sub s : string) :
  contains_nocase sub s = true
  <-> exists pre mid post,
        s = pre +:+ mid +:+ post /\ eq_nocase sub mid = true.
Proof.
  induction s as [|d s IH]; simpl.
  - rewrite orb_false_r, prefix_nocase_spec. split.
    + intros (mid & rest & Hs & He). by exists "", mid, rest.
    + intros ([|? ?] & mid & post & Hs & He); [|done].
      exists mid, post. split; [exact Hs|exact He].
  - rewrite orb_true_iff, IH, prefix_nocase_spec. split.
    + intros [(mid & rest & Hs & He)|(pre & mid & post & -> & He)].
      * by exists "", mid, rest.
      * by exists (String d pre), mid, post.
    + intros ([|d' pre] & mid & post & Hs & He).
      * left. exists mid, post. split; [exact Hs|exact He].
      * right. injection Hs as -> ->. exists pre, mid, post. by split.
Qed.

Lemma like_percent (s : string) : like "%" s = true.
Proof. induction s as [|d s IH]; [done|]. simpl in *. by rewrite IH. Qed.

Lemma like_tail_percent (d s : string) :
  no_wildcard d = true -> like (d +:+ "%") s = prefix_nocase d s.
Proof.
  revert s. induction d as [|c d IH]; intros s Hw.
  - rewrite like_percent. by destruct s.
  - simpl in Hw. apply andb_true_iff in Hw as [Hw Hd].
    apply andb_true_iff in Hw as [Hp Hu].
    apply negb_true_iff in Hp, Hu.
    change (String c d +:+ "%") with (String c (d +:+ "%")).
    cbn [like]. rewrite Hp, Hu. destruct s as [|x s]; [done|].
    simpl. by rewrite IH.
Qed.

Lemma like_percent_unfold (p s : string) :
  like (String "%" p) s
  = like p s
    || match s with
       | EmptyString => false
       | String _ s' => like (String "%" p) s'
       end.
Proof. by destruct s. Qed.

(** Without wildcards in it, [LIKE '%d%'] is containment of [d]. *)
Lemma like_is_containment (d s : string) :
  no_wildcard d = true ->
  like ("%" +:+ d +:+ "%") s = contains_nocase d s.
Proof.
  intros Hw. change ("%" +:+ d +:+ "%") with (String "%" (d +:+ "%")).
  induction s as [|x s IH]; rewrite like_percent_unfold, like_tail_percent;
    try done.
  change (contains_nocase d (String x s))
    with (prefix_nocase d (String x s) || contains_nocase d s).
  by rewrite IH.
Qed.

End Filters.

Section FilterTheorems.
Import Database UserModel BrowseHandler.

Lemma where_build_query (A : Z) (min_age max_age : option Z)
    (dept : option string) (u : user_row) :
  where_ (build_query A min_age max_age dept) u
  <-> passes A min_age max_age dept u.
Proof.
  unfold where_, build_query, passes. rewrite Is_true_true.
  rewrite !forallb_app, !andb_true_iff. cbn [forallb holds].
  rewrite andb_true_r, negb_true_iff, Z.eqb_neq.
  assert (Hlo : forallb (holds u)
                  match min_age with Some n => [AgeGe n] | None => [] end
                = true <-> forall n, min_age = Some n -> n <= age u).
  { destruct min_age as [lo|]; simpl; [|done].
    rewrite andb_true_r, Z.leb_le. split; [by intros ? ? [= <-]|eauto]. }
  assert (Hhi : forallb (holds u)
                  match max_age with Some n => [AgeLe n] | None => [] end
                = true <-> forall n, max_age = Some n -> age u <= n).
  { destruct max_age as [hi|]; simpl; [|done].
    rewrite andb_true_r, Z.leb_le. split; [by intros ? ? [= <-]|eauto]. }
  assert (Hd : forallb (holds u)
                 match supplied dept with
                 | Some d => [DeptLike ("%" +:+ d +:+ "%")]
                 | None => []
                 end = true
               <-> forall d, dept = Some d -> d <> "" ->
                     like ("%" +:+ d +:+ "%") (department u) = true).
  { destruct dept as [[|c d]|]; simpl supplied; cbn [forallb holds].
    - split; [by intros _ ? [= <-]|done].
    - rewrite andb_true_r. split; [by intros ? ? [= <-] _|].
      intros H. by apply H.
    - done. }
  tauto.
Qed.

(** What does hold on both paths of [show_next_profile]: the requester
    is never shown; and without preferences nobody blocked is. *)
Lemma show_next_profile_not_self (io : access) (rnd : nat) (db : DB)
    (prefs : option preferences) (A : Z) (u : user_row) :
  show_next_profile io rnd db prefs A = Some u ->
  u ∈ users db /\ user_id u <> A
  /\ (any_values prefs = false -> ~ blocked_by db A (user_id u)).
Proof.
  unfold show_next_profile. intros H.
  assert (Hrandom : get_random_user io rnd db A true = Some u ->
            u ∈ users db /\ user_id u <> A
            /\ (any_values prefs = false -> ~ blocked_by db A (user_id u))).
  { intros Hr. apply get_random_user_sound in Hr. tauto. }
  destruct prefs as [p|]; [|by apply Hrandom].
  destruct (any_values (Some p)); [|by apply Hrandom].
  destruct io; [|done]. unfold get_users_with_filters, try_except in H.
  apply fetchone_random_elem, list_elem_of_filter in H as [Hw Hu].
  apply where_build_query in Hw as (Hne & _). by repeat split.
Qed.

(** What the filtered selection does guarantee.
    [get_users_with_filters] answers only rows of the
    users table other than the requester's whose age is at least
    [min_age] and at most [max_age] (each when given) and whose
    department matches the SQL pattern [%department%] (when a non-empty
    one is given); it answers [None] when no row does, with no
    unfiltered second try.  For a department free of [%] and [_] the
    pattern match is containment of the text, ASCII letters compared
    without case. *)
Theorem filtered_selection_sound (io : access) (rnd : nat) (db : DB)
    (A : Z) (min_age max_age : option Z) (dept : option string) :
  (forall u, get_users_with_filters io rnd db A min_age max_age dept = Some u ->
     u ∈ users db /\ passes A min_age max_age dept u)
  /\ ((forall u, u ∈ users db -> ~ passes A min_age max_age dept u) ->
      get_users_with_filters io rnd db A min_age max_age dept = None)
  /\ (forall d s, no_wildcard d = true ->
        like ("%" +:+ d +:+ "%") s = contains_nocase d s).
Proof.
  split; [|split].
  - intros u H. destruct io; [|done].
    unfold get_users_with_filters, try_except in H.
    apply fetchone_random_elem, list_elem_of_filter in H as [Hw Hu].
    split; [done|]. by apply where_build_query.
  - intros Hnone. destruct io; [|done].
    unfold get_users_with_filters, try_except.
    apply fetchone_random_none, filter_none.
    intros u Hu Hw. apply (Hnone u Hu). by apply where_build_query.
  - intros d s. apply like_is_containment.
Qed.

(** With a healthy store the converse holds too: some row is answered
    as soon as one passes. *)
Lemma filtered_selection_complete (rnd : nat) (db : DB) (A : Z)
    (min_age max_age : option Z) (dept : option string) (u : user_row) :
  u ∈ users db -> passes A min_age max_age dept u ->
  get_users_with_filters Ok rnd db A min_age max_age dept <> None.
Proof.
  intros Hu Hp. unfold get_users_with_filters, try_except.
  rewrite fetchone_random_none. intros Hnil.
  assert (Hin : u ∈ filter (where_ (build_query A min_age max_age dept))
                      (users db)).
  { apply list_elem_of_filter. split; [|done]. by apply where_build_query. }
  rewrite Hnil in Hin. by apply elem_of_nil in Hin.
Qed.

Lemma filtered_selection_witness :
  (exists u, get_users_with_filters Ok 7 three_ages 1 (Some 25) (Some 35)
               (Some "science") = Some u
             /\ age u = 30
             /\ passes 1 (Some 25) (Some 35) (Some "science") u)
  /\ get_users_with_filters Ok 7 three_ages 1 (Some 41) None None = None
  /\ like "%science%" "Computer Science"
     = contains_nocase "science" "Computer Science".
Proof.
  destruct (filtered_selection_sound Ok 7 three_ages 1 (Some 25) (Some 35)
              (Some "science")) as (Hsome & _ & Hlike).
  destruct (filtered_selection_sound Ok 7 three_ages 1 (Some 41) None None)
    as (_ & Hnone & _).
  split; [|split].
  - eexists. split; [reflexivity|]. split; [reflexivity|].
    apply Hsome. reflexivity.
  - apply Hnone. intros u Hu (_ & Hlo & _).
    specialize (Hlo 41 eq_refl).
    repeat (apply elem_of_cons in Hu as [-> | Hu]; [simpl in Hlo; lia|]).
    by apply elem_of_nil in Hu.
  - apply (Hlike "science" "Computer Science"). reflexivity.
Defined.

(** C7 (the code departs from the claim).  The department filter is
    meant as containment of the given text, but the text is put into the
    [LIKE] pattern unescaped, so its [_] and [%] act as wildcards: the
    filter [C_S] selects a profile of department [CAS], which does not
    contain the text [C_S], with or without case. *)
Lemma like_wildcard_is_not_containment :
  get_users_with_filters Ok 0 two_users 1 None None (Some "C_S")
  = Some (profile 2)
  /\ department (profile 2) = "CAS"
  /\ contains_nocase "C_S" "CAS" = false
  /\ ~ (exists pre post, "CAS" = pre +:+ "C_S" +:+ post).
Proof.
  split; [|split; [reflexivity|split; [reflexivity|]]].
  - reflexivity.
  - intros (pre & post & H).
    destruct pre as [|a [|b [|c pre]]]; simpl in H; try discriminate H.
    injection H as _ _ _ H. by destruct pre.
Qed.

End FilterTheorems.

Section Registration.
Import Database UserModel Validators StartHandler.

Lemma validate_bio_iff (s : string) :
  validate_bio s = true <-> 10 <= Py.len (Py.strip s) <= 500.
Proof.
  unfold validate_bio, validate_text_length. destruct s as [|c s].
  - split; [done|]. unfold Py.len. simpl. lia.
  - cbn [Py.truthy negb]. rewrite andb_true_iff, !Z.leb_le. tauto.
Qed.

Lemma validate_age_cases (s : string) :
  (exists a, Py.int (Py.strip s) = Some a /\ 16 <= a <= 100
             /\ validate_age s = (true, Some a))
  \/ ((forall a, Py.int (Py.strip s) = Some a -> a < 16 \/ 100 < a)
      /\ validate_age s = (false, None)).
Proof.
  unfold validate_age. destruct (Py.int (Py.strip s)) as [a|]; [|by right].
  destruct ((16 <=? a) && (a <=? 100)) eqn:E.
  - left. exists a. apply andb_true_iff in E as [?%Z.leb_le ?%Z.leb_le].
    repeat split; done.
  - right. split; [|done]. intros a' [= <-].
    apply andb_false_iff in E as [?%Z.leb_gt|?%Z.leb_gt]; lia.
Qed.

Lemma text_steps_checked (db : DB) (user_data : gmap string string)
    (step txt : string) :
  bio_checked user_data ->
  (text_steps db user_data step txt).1.1 = db
  /\ bio_checked (text_steps db user_data step txt).1.2.
Proof.
  intros Hb. unfold text_steps.
  repeat match goal with
         | |- context [if ?c then _ else _] => destruct c eqn:?
         | |- context [match validate_age ?t with _ => _ end] =>
             destruct (validate_age t) as [[|] [?|]]
         end; cbn [fst snd]; (split; [done|]); try done.
  - intros b. rewrite lookup_insert_ne, lookup_insert_ne by done. apply Hb.
  - intros b. rewrite lookup_insert_ne, lookup_insert_ne by done. apply Hb.
  - intros b. rewrite lookup_insert_ne, lookup_insert_ne by done. apply Hb.
  - intros b. rewrite lookup_insert_ne, lookup_insert_eq by done.
    intros [= <-]. apply validate_bio_iff. by apply negb_false_iff.
Qed.

Lemma photo_step_checked (io : access) (now : timestamp) (db : DB)
    (user_data : gmap string string) (uid : Z) (photo_id : string) :
  bio_checked user_data ->
  unchanged_or_valid_write now uid db
    (photo_step io now db user_data uid photo_id).1.1
  /\ bio_checked (photo_step io now db user_data uid photo_id).1.2.
Proof.
  intros Hb. unfold photo_step.
  destruct (get_truthy user_data "name") as [nm|]; [|by split; [left|]].
  destruct (get_truthy user_data "age") as [age_str|]; [|by split; [left|]].
  destruct (get_truthy user_data "department") as [dp|];
    [|by split; [left|]].
  destruct (get_truthy user_data "bio") as [bi|] eqn:Ebio;
    [|by split; [left|]].
  destruct (validate_age_cases age_str) as [(a & _ & Ha & ->)|[_ ->]];
    [|by split; [left|]].
  assert (Hbi : 10 <= Py.len bi <= 500).
  { apply Hb. unfold get_truthy in Ebio.
    destruct (user_data !! "bio") as [v|]; [|done].
    by destruct (Py.truthy v); simplify_eq. }
  destruct io; cbn [save_user transaction try_except fst snd].
  - split; [|done]. right. by exists nm, a, dp, bi, photo_id.
  - split; [by left|done].
Qed.

Lemma handle_registration_checked (io : access) (now : timestamp) (db : DB)
    (user_data : gmap string string) (msg : message) :
  bio_checked user_data ->
  unchanged_or_valid_write now (from_user msg) db
    (handle_registration io now db user_data msg).1.1
  /\ bio_checked (handle_registration io now db user_data msg).1.2.
Proof.
  intros Hb. unfold handle_registration.
  destruct (_ && _ && _); [by split; [left|]|].
  destruct (String.eqb _ "photo"), (last (photo msg)) as [photo_id|];
    try (by apply photo_step_checked);
    (destruct (negb _); [by split; [left|]|]);
    (destruct (text_steps_checked db user_data
                 (default "" (user_data !! "step"))
                 (default "" (text msg)) Hb) as [-> ?]; by split; [left|]).
Qed.

Lemma handle_registration_rejects (io : access) (now : timestamp) (db : DB)
    (user_data : gmap string string) (msg : message) :
  (user_data !! "step" = Some "age"
   /\ (validate_age (default "" (text msg))).1 = false)
  \/ (user_data !! "step" = Some "bio"
      /\ validate_bio (default "" (text msg)) = false) ->
  (handle_registration io now db user_data msg).1 = (db, user_data).
Proof.
  unfold handle_registration.
  intros [[-> Hv]|[-> Hv]]; cbn [default Py.truthy negb andb String.eqb];
    simpl; destruct (negb _); try done; unfold text_steps; simpl.
  - by destruct (validate_age _) as [[|] [?|]].
  - by rewrite Hv.
Qed.

(** C8 as stated fails on the raw text: a bio of ten characters, nine
    letters and a trailing blank, is rejected, and a bio of 501
    characters ending in a blank is accepted. *)
Lemma bio_length_is_measured_stripped :
  Py.len "123456789 " = 10
  /\ validate_bio "123456789 " = false
  /\ Py.len (repeat_char 500 "a" +:+ " ") = 501
  /\ validate_bio (repeat_char 500 "a" +:+ " ") = true.
Proof. repeat split; vm_compute; reflexivity. Qed.

(** C8, as amended.  [validate_age] accepts exactly the texts that
    [int] reads as a number from 16 to 100, so 15 is rejected and 16
    accepted.  [validate_bio] accepts exactly the texts whose length
    after stripping surrounding whitespace is from 10 to 500, so nine
    letters are rejected and ten accepted.  In the registration dialogue
    a rejected age or bio leaves the store and the dialogue state as
    they were; and as long as the bio kept in the dialogue state came
    through the check, every call leaves the store untouched or saves a
    profile whose age and bio are within these bounds. *)
Theorem registration_validation :
  (validate_age "15" = (false, None) /\ validate_age "16" = (true, Some 16))
  /\ (forall s,
        (exists a, Py.int (Py.strip s) = Some a /\ 16 <= a <= 100
                   /\ validate_age s = (true, Some a))
        \/ ((forall a, Py.int (Py.strip s) = Some a -> a < 16 \/ 100 < a)
            /\ validate_age s = (false, None)))
  /\ (validate_bio "123456789" = false /\ validate_bio "1234567890" = true)
  /\ (forall s, validate_bio s = true <-> 10 <= Py.len (Py.strip s) <= 500)
  /\ (forall io now db user_data msg,
        (user_data !! "step" = Some "age"
         /\ (validate_age (default "" (text msg))).1 = false)
        \/ (user_data !! "step" = Some "bio"
            /\ validate_bio (default "" (text msg)) = false) ->
        (handle_registration io now db user_data msg).1 = (db, user_data))
  /\ (forall io now db user_data msg,
        bio_checked user_data ->
        unchanged_or_valid_write now (from_user msg) db
          (handle_registration io now db user_data msg).1.1
        /\ bio_checked (handle_registration io now db user_data msg).1.2).
Proof.
  split; [by split|]. split; [exact validate_age_cases|].
  split; [by split|]. split; [exact validate_bio_iff|].
  split; [exact handle_registration_rejects|].
  exact handle_registration_checked.
Qed.

Lemma registration_validation_witness :
  (handle_registration Ok "2024-01-05 09:00:00" two_users in_age_step
     {| from_user := 3; text := Some "15"; photo := [] |}).1
  = (two_users, in_age_step)
  /\ unchanged_or_valid_write "2024-01-05 09:00:00" 3 two_users
       (handle_registration Ok "2024-01-05 09:00:00" two_users in_photo_step
          {| from_user := 3; text := None; photo := ["s"; "m"; "l"] |}).1.1.
Proof.
  destruct registration_validation as (_ & _ & _ & _ & Hrej & Hwrite).
  split.
  - apply Hrej. left. split; reflexivity.
  - apply Hwrite. intros b Hb. vm_compute in Hb. injection Hb as <-.
    vm_compute. split; discriminate.
Defined.

Example registration_saves_profile :
  users (handle_registration Ok "2024-01-05 09:00:00" two_users in_photo_step
           {| from_user := 3; text := None; photo := ["s"; "m"; "l"] |}).1.1
  = [profile 1; profile 2;
     {| user_id := 3; name := "Abebe"; age := 21; department := "CAS";
        bio := "hello there"; photo_id := "l";
        created_at := "2024-01-05 09:00:00";
        updated_at := "2024-01-05 09:00:00" |}].
Proof. vm_compute. reflexivity. Qed.

End Registration.

Section Limiter.
Import RateLimiterModel.

Implicit Types (self : RateLimiter) (now : Q) (uid max_requests : Z).

Lemma recent_of_spec self now uid (w : Z) (t : Q) :
  t ∈ recent_of self now uid w
  <-> t ∈ requests_of self uid /\ (now - inject_Z w < t)%Q.
Proof. unfold recent_of. rewrite list_elem_of_filter. tauto. Qed.

Lemma is_allowed_banned self now uid max_requests (w b : Z) (ban_until : Q) :
  _banned self !! uid = Some ban_until -> (now < ban_until)%Q ->
  is_allowed self now uid max_requests w b
  = (self, (false, banned_msg (Py.trunc (ban_until - now)))).
Proof. intros Hb Hlt. unfold is_allowed. rewrite Hb. by rewrite decide_True. Qed.

Lemma is_allowed_not_banned self now uid max_requests (w b : Z) :
  (_banned self !! uid = None
   \/ exists ban_until, _banned self !! uid = Some ban_until
                        /\ (ban_until <= now)%Q) ->
  is_allowed self now uid max_requests w b
  = check_limit self (delete uid (_banned self)) now uid max_requests w b.
Proof.
  intros [Hb|(ban_until & Hb & Hle)]; unfold is_allowed; rewrite Hb.
  - by rewrite delete_id.
  - rewrite decide_False; [done|]. by apply Qle_not_lt.
Qed.

Lemma check_limit_denies self (banned : gmap Z Q) now uid max_requests
    (w b : Z) :
  max_requests <= Z.of_nat (List.length (recent_of self now uid w)) ->
  check_limit self banned now uid max_requests w b
  = ({| _requests := <[uid := recent_of self now uid w]> (_requests self);
        _banned := <[uid := (now + inject_Z b)%Q]> banned |},
     (false, too_many_msg b)).
Proof.
  intros Hle. unfold check_limit. fold (recent_of self now uid w).
  destruct (Z.geb_spec (Z.of_nat (List.length (recent_of self now uid w)))
              max_requests); [done|lia].
Qed.

Lemma check_limit_allows self (banned : gmap Z Q) now uid max_requests
    (w b : Z) :
  Z.of_nat (List.length (recent_of self now uid w)) < max_requests ->
  check_limit self banned now uid max_requests w b
  = ({| _requests := <[uid := recent_of self now uid w ++ [now]]>
                       (_requests self);
        _banned := banned |},
     (true, "")).
Proof.
  intros Hlt. unfold check_limit. fold (recent_of self now uid w).
  destruct (Z.geb_spec (Z.of_nat (List.length (recent_of self now uid w)))
              max_requests); [lia|done].
Qed.

(** C6 as stated fails on a call made during a ban: the call returns
    before the cleaning, so the timestamp 0, older than 500 - 60, stays
    in the list of user 7. *)
Lemma banned_call_does_not_prune :
  let after := (is_allowed banned_7 500 7 3 60 300).1 in
  (is_allowed banned_7 500 7 3 60 300).2
  = (false, "Rate limit exceeded. Try again in 500 seconds.")
  /\ requests_of after 7 = [0%Q]
  /\ (0 < 500 - inject_Z 60)%Q
  /\ ~ (forall t, t ∈ requests_of after 7 -> ~ (t < 500 - inject_Z 60)%Q).
Proof.
  intros after. split; [by vm_compute|]. split; [by vm_compute|].
  split; [by vm_compute|].
  intros H. apply (H 0%Q); [|by vm_compute].
  change (requests_of after 7) with [0%Q]. left.
Qed.

(** One call seen from the caller's own entries. *)
Lemma is_allowed_allows self now uid max_requests (w b : Z) (kept : list Q) :
  unbanned self now uid ->
  recent_of self now uid w = kept ->
  Z.of_nat (List.length kept) < max_requests ->
  let r := is_allowed self now uid max_requests w b in
  r.2 = (true, "")
  /\ requests_of r.1 uid = kept ++ [now]
  /\ _banned r.1 !! uid = None.
Proof.
  intros Hu Hk Hlt r. unfold r.
  rewrite is_allowed_not_banned by done.
  rewrite check_limit_allows by (by rewrite Hk).
  split; [done|]. split.
  - unfold requests_of. cbn [_requests fst]. by rewrite lookup_insert_eq, Hk.
  - cbn [_banned fst]. apply lookup_delete_eq.
Qed.

Lemma is_allowed_denies self now uid max_requests (w b : Z) (kept : list Q) :
  unbanned self now uid ->
  recent_of self now uid w = kept ->
  max_requests <= Z.of_nat (List.length kept) ->
  let r := is_allowed self now uid max_requests w b in
  r.2 = (false, too_many_msg b)
  /\ requests_of r.1 uid = kept
  /\ _banned r.1 !! uid = Some (now + inject_Z b)%Q.
Proof.
  intros Hu Hk Hle r. unfold r.
  rewrite is_allowed_not_banned by done.
  rewrite check_limit_denies by (by rewrite Hk).
  split; [done|]. split.
  - unfold requests_of. cbn [_requests fst]. by rewrite lookup_insert_eq, Hk.
  - cbn [_banned fst]. apply lookup_insert_eq.
Qed.

(** Three calls inside one window pass, the fourth is refused and bans,
    and a call made once the ban is over passes again (the ban being at
    least as long as the window). *)
Lemma three_calls_then_ban self uid (w b : Z) (t1 t2 t3 t4 t5 : Q) :
  requests_of self uid = [] -> _banned self !! uid = None ->
  (t1 <= t2)%Q -> (t2 <= t3)%Q -> (t3 <= t4)%Q ->
  (t4 - inject_Z w < t1)%Q ->
  w <= b -> (t4 + inject_Z b <= t5)%Q ->
  let r1 := is_allowed self t1 uid 3 w b in
  let r2 := is_allowed r1.1 t2 uid 3 w b in
  let r3 := is_allowed r2.1 t3 uid 3 w b in
  let r4 := is_allowed r3.1 t4 uid 3 w b in
  let r5 := is_allowed r4.1 t5 uid 3 w b in
  r1.2 = (true, "") /\ r2.2 = (true, "") /\ r3.2 = (true, "")
  /\ r4.2 = (false, too_many_msg b)
  /\ _banned r4.1 !! uid = Some (t4 + inject_Z b)%Q
  /\ r5.2 = (true, "").
Proof.
  intros Hreq Hban H12 H23 H34 Hwin Hwb H5 r1 r2 r3 r4 r5.
  rewrite Zle_Qle in Hwb.
  destruct (is_allowed_allows self t1 uid 3 w b [])
    as (E1 & R1 & B1); [by left| |done|].
  { unfold recent_of. by rewrite Hreq. }
  fold r1 in E1, R1, B1.
  destruct (is_allowed_allows r1.1 t2 uid 3 w b [t1])
    as (E2 & R2 & B2); [by left| |done|].
  { unfold recent_of. rewrite R1. apply filter_all.
    repeat constructor. lra. }
  fold r2 in E2, R2, B2.
  destruct (is_allowed_allows r2.1 t3 uid 3 w b [t1; t2])
    as (E3 & R3 & B3); [by left| |done|].
  { unfold recent_of. rewrite R2. apply filter_all.
    repeat constructor; lra. }
  fold r3 in E3, R3, B3.
  destruct (is_allowed_denies r3.1 t4 uid 3 w b [t1; t2; t3])
    as (E4 & R4 & B4); [by left| |done|].
  { unfold recent_of. rewrite R3. apply filter_all.
    repeat constructor; lra. }
  fold r4 in E4, R4, B4.
  destruct (is_allowed_allows r4.1 t5 uid 3 w b [])
    as (E5 & R5 & B5); [right; eauto| |done|].
  { unfold recent_of. rewrite R4. apply filter_none.
    intros t Ht Hlt. repeat (apply elem_of_cons in Ht as [-> | Ht]; [lra|]).
    by apply elem_of_nil in Ht. }
  by fold r5 in E5.
Qed.

(** The three ways a call can go. *)
Lemma is_allowed_cases self now uid max_requests (w b : Z) :
  let kept := recent_of self now uid w in
  (exists ban_until,
     _banned self !! uid = Some ban_until /\ (now < ban_until)%Q
     /\ is_allowed self now uid max_requests w b
        = (self, (false, banned_msg (Py.trunc (ban_until - now)))))
  \/ (unbanned self now uid
      /\ max_requests <= Z.of_nat (List.length kept)
      /\ is_allowed self now uid max_requests w b
         = ({| _requests := <[uid := kept]> (_requests self);
               _banned := <[uid := (now + inject_Z b)%Q]> (_banned self) |},
            (false, too_many_msg b)))
  \/ (unbanned self now uid
      /\ Z.of_nat (List.length kept) < max_requests
      /\ is_allowed self now uid max_requests w b
         = ({| _requests := <[uid := kept ++ [now]]> (_requests self);
               _banned := delete uid (_banned self) |},
            (true, ""))).
Proof.
  intros kept.
  assert (Hu : (exists ban_until, _banned self !! uid = Some ban_until
                                  /\ (now < ban_until)%Q)
               \/ unbanned self now uid).
  { destruct (_banned self !! uid) as [ban_until|] eqn:Hb; [|by right; left].
    destruct (Qlt_le_dec now ban_until); [left|right; right]; eauto. }
  destruct Hu as [(ban_until & Hb & Hlt)|Hu].
  - left. exists ban_until. by rewrite (is_allowed_banned _ _ _ _ _ _ ban_until).
  - right. rewrite is_allowed_not_banned by done.
    destruct (Z.le_gt_cases max_requests (Z.of_nat (List.length kept))).
    + left. rewrite check_limit_denies by done.
      by rewrite insert_delete_eq.
    + right. by rewrite check_limit_allows.
Qed.

Lemma is_allowed_other self now uid max_requests (w b : Z) (v : Z) :
  v <> uid ->
  requests_of (is_allowed self now uid max_requests w b).1 v
  = requests_of self v
  /\ _banned (is_allowed self now uid max_requests w b).1 !! v
     = _banned self !! v.
Proof.
  intros Hv.
  destruct (is_allowed_cases self now uid max_requests w b)
    as [(u & _ & _ & ->)|[(_ & _ & ->)|(_ & _ & ->)]];
    unfold requests_of; cbn [fst _requests _banned];
    rewrite ?lookup_insert_ne, ?lookup_delete_ne by done; done.
Qed.

(** C6, as amended.  A call made while a ban is running is refused with
    the remaining whole seconds and changes nothing: no timestamp is
    cleaned.  Any other call (no ban, or a ban that is over and is hereby
    lifted) keeps of the caller's timestamps those newer than
    [now - time_window]; with [max_requests] or more of them kept it sets
    a ban until [now + ban_duration] and refuses, otherwise it records
    [now] and allows.  The entries of other users are never touched.  With
    [max_requests = 3], from a user without entries: three calls inside
    one window pass, the fourth is refused and bans, and a call made once
    a ban at least as long as the window is over passes again. *)
Theorem is_allowed_behaviour :
  (forall self now uid max_requests (w b : Z) (ban_until : Q),
     _banned self !! uid = Some ban_until -> (now < ban_until)%Q ->
     is_allowed self now uid max_requests w b
     = (self, (false, banned_msg (Py.trunc (ban_until - now)))))
  /\ (forall self now uid max_requests (w b : Z),
        unbanned self now uid ->
        let kept := recent_of self now uid w in
        let r := is_allowed self now uid max_requests w b in
        (forall t, t ∈ kept
                   <-> t ∈ requests_of self uid
                       /\ (now - inject_Z w < t)%Q)
        /\ (max_requests <= Z.of_nat (List.length kept) ->
            r.2 = (false, too_many_msg b)
            /\ requests_of r.1 uid = kept
            /\ _banned r.1 !! uid = Some (now + inject_Z b)%Q)
        /\ (Z.of_nat (List.length kept) < max_requests ->
            r.2 = (true, "")
            /\ requests_of r.1 uid = kept ++ [now]
            /\ _banned r.1 !! uid = None))
  /\ (forall self now uid max_requests (w b : Z) (v : Z),
        v <> uid ->
        requests_of (is_allowed self now uid max_requests w b).1 v
        = requests_of self v
        /\ _banned (is_allowed self now uid max_requests w b).1 !! v
           = _banned self !! v)
  /\ (forall self uid (w b : Z) (t1 t2 t3 t4 t5 : Q),
        requests_of self uid = [] -> _banned self !! uid = None ->
        (t1 <= t2)%Q -> (t2 <= t3)%Q -> (t3 <= t4)%Q ->
        (t4 - inject_Z w < t1)%Q ->
        w <= b -> (t4 + inject_Z b <= t5)%Q ->
        let r1 := is_allowed self t1 uid 3 w b in
        let r2 := is_allowed r1.1 t2 uid 3 w b in
        let r3 := is_allowed r2.1 t3 uid 3 w b in
        let r4 := is_allowed r3.1 t4 uid 3 w b in
        let r5 := is_allowed r4.1 t5 uid 3 w b in
        r1.2 = (true, "") /\ r2.2 = (true, "") /\ r3.2 = (true, "")
        /\ r4.2 = (false, too_many_msg b)
        /\ _banned r4.1 !! uid = Some (t4 + inject_Z b)%Q
        /\ r5.2 = (true, "")).
Proof.
  split; [exact is_allowed_banned|]. split; [|split].
  - intros self now uid max_requests w b Hu kept r.
    split; [intros t; apply recent_of_spec|]. split; intros H.
    + by apply is_allowed_denies.
    + by apply is_allowed_allows.
  - exact is_allowed_other.
  - exact three_calls_then_ban.
Qed.

Lemma is_allowed_behaviour_witness :
  is_allowed banned_7 500 7 3 60 300
  = (banned_7, (false, banned_msg (Py.trunc (1000 - 500))))
  /\ (is_allowed banned_7 1000 7 1 60 300).2 = (true, "")
  /\ (is_allowed (is_allowed banned_7 1000 7 1 60 300).1 1001 7 1 60 300).2
     = (false, too_many_msg 300)
  /\ (let r1 := is_allowed init 10 7 3 60 300 in
      let r2 := is_allowed r1.1 20 7 3 60 300 in
      let r3 := is_allowed r2.1 30 7 3 60 300 in
      let r4 := is_allowed r3.1 40 7 3 60 300 in
      let r5 := is_allowed r4.1 340 7 3 60 300 in
      r1.2 = (true, "") /\ r2.2 = (true, "") /\ r3.2 = (true, "")
      /\ r4.2 = (false, "Too many requests. Please wait 300 seconds.")
      /\ _banned r4.1 !! 7 = Some (40 + inject_Z 300)%Q
      /\ r5.2 = (true, "")).
Proof.
  destruct is_allowed_behaviour as (Hban & Hcheck & _ & Hthree).
  split; [|split; [|split]].
  - apply (Hban banned_7 500%Q 7 3 60 300 1000%Q); [reflexivity|].
    vm_compute. reflexivity.
  - apply (Hcheck banned_7 1000%Q 7 1 60 300).
    + right. exists 1000%Q. split; [reflexivity|]. vm_compute. discriminate.
    + vm_compute. reflexivity.
  - apply (Hcheck (is_allowed banned_7 1000 7 1 60 300).1 1001%Q 7 1 60 300).
    + left. vm_compute. reflexivity.
    + vm_compute. discriminate.
  - apply (Hthree init 7 60 300 10%Q 20%Q 30%Q 40%Q 340%Q);
      try reflexivity; vm_compute; discriminate.
Defined.

End Limiter.

Section LimiterInvariant.
Import RateLimiterModel.

Implicit Types (self : RateLimiter) (now : Q) (uid max_requests : Z).

Lemma requests_of_insert (m : gmap Z (list Q)) (bn : gmap Z Q) uid
    (l : list Q) (v : Z) :
  requests_of {| _requests := <[uid := l]> m; _banned := bn |} v
  = if decide (v = uid) then l
    else requests_of {| _requests := m; _banned := bn |} v.
Proof.
  unfold requests_of. cbn [_requests]. case_decide as Hv.
  - subst v. by rewrite lookup_insert_eq.
  - by rewrite lookup_insert_ne.
Qed.

Lemma denied_is_sublist self now uid max_requests (w b : Z) (v : Z) :
  (is_allowed self now uid max_requests w b).2.1 = false ->
  requests_of (is_allowed self now uid max_requests w b).1 v
    `sublist_of` requests_of self v.
Proof.
  destruct (is_allowed_cases self now uid max_requests w b)
    as [(u & _ & _ & ->)|[(_ & _ & ->)|(_ & _ & ->)]]; [done| |done].
  intros _. cbn [fst]. rewrite requests_of_insert. case_decide as Hv.
  - subst v. apply sublist_filter.
  - done.
Qed.

Lemma is_allowed_bounded self now uid max_requests (w b : Z) :
  bounded max_requests self ->
  bounded max_requests (is_allowed self now uid max_requests w b).1.
Proof.
  intros Hb v.
  destruct (is_allowed_cases self now uid max_requests w b)
    as [(u & _ & _ & ->)|[(_ & _ & ->)|(_ & Hlt & ->)]]; [apply Hb| |];
    cbn [fst]; rewrite requests_of_insert; case_decide as Hv;
    try apply Hb.
  - subst v. etrans; [|apply (Hb uid)]. apply inj_le, length_filter.
  - rewrite length_app. simpl. lia.
Qed.

Lemma reset_bounded self uid max_requests :
  0 <= max_requests ->
  bounded max_requests self -> bounded max_requests (reset self uid).
Proof.
  intros Hmax Hb v. unfold requests_of, reset. cbn [_requests].
  destruct (decide (v = uid)) as [->|Hv].
  - by rewrite lookup_delete_eq.
  - rewrite lookup_delete_ne by done. apply Hb.
Qed.

Lemma run_from_bounded max_requests (calls : list call) self :
  0 <= max_requests ->
  bounded max_requests self ->
  bounded max_requests (foldl (step max_requests) self calls).
Proof.
  intros Hmax. revert self.
  induction calls as [|c calls IH]; intros self Hb; [done|].
  simpl. apply IH. destruct c as [now uid w b|uid]; simpl.
  - by apply is_allowed_bounded.
  - by apply reset_bounded.
Qed.

(** C10.  With [max_requests] fixed and not negative: a refused call
    appends nothing, the list stored for any user after it is a sublist
    of the one stored before; and after any sequence of [is_allowed] and
    [reset] calls on a fresh limiter, for any users, times, windows and
    ban lengths, no stored list is longer than [max_requests]. *)
Theorem denied_call_never_appends max_requests :
  0 <= max_requests ->
  (forall self now uid (w b : Z) (v : Z),
     (is_allowed self now uid max_requests w b).2.1 = false ->
     requests_of (is_allowed self now uid max_requests w b).1 v
       `sublist_of` requests_of self v)
  /\ (forall (calls : list call) (v : Z),
        Z.of_nat (List.length (requests_of (run max_requests calls) v))
        <= max_requests).
Proof.
  intros Hmax. split.
  - intros self now uid w b v. apply denied_is_sublist.
  - intros calls. apply run_from_bounded; [done|].
    intros v. unfold requests_of, init. cbn [_requests].
    by rewrite lookup_empty.
Qed.

Lemma denied_call_never_appends_witness :
  (requests_of (is_allowed (run 3 (take 4 busy_minute)) 5 7 3 60 300).1 7
     `sublist_of` requests_of (run 3 (take 4 busy_minute)) 7)
  /\ Z.of_nat (List.length (requests_of (run 3 busy_minute) 7)) <= 3.
Proof.
  destruct (denied_call_never_appends 3) as [Hden Hlen]; [lia|].
  split.
  - apply Hden. vm_compute. reflexivity.
  - apply Hlen.
Defined.

Example busy_minute_entries :
  requests_of (run 3 (take 5 busy_minute)) 7 = [1%Q; 2%Q; 4%Q]
  /\ _banned (run 3 (take 5 busy_minute)) !! 7 = Some (5 + inject_Z 300)%Q
  /\ requests_of (run 3 busy_minute) 7 = [400%Q; 401%Q].
Proof. repeat split; vm_compute; reflexivity. Qed.

End LimiterInvariant.

(** * Further properties *)

(** ** Profiles: save and look up *)

Section Profiles.
Import Database UserModel BrowseHandler.

Lemma users_save_user (now : timestamp) (db : DB) (uid : Z) (nm : string)
    (ag : Z) (dp bi ph : string) :
  users (save_user Ok now db uid nm ag dp bi ph).1
  = filter (fun u => user_id u <> uid) (users db)
    ++ [{| user_id := uid; name := nm; age := ag; department := dp;
           bio := bi; photo_id := ph; created_at := now;
           updated_at := now |}].
Proof. reflexivity. Qed.

Lemma filter_after_replace (P : user_row -> Prop) `{!forall u, Decision (P u)}
    (uid : Z) (rows : list user_row) :
  (forall u, P u -> user_id u <> uid) ->
  filter P (filter (fun u => user_id u <> uid) rows) = filter P rows.
Proof.
  intros Hn. rewrite list_filter_filter. apply list_filter_iff.
  intros u. split; [tauto|]. intros Hp. split; [done|]. by apply Hn.
Qed.

(** X1.  A saved profile is read back as saved, whatever row the user
    had before: [get_user] answers the new row and [user_exists] answers
    true. *)
Theorem save_user_then_get_user (now : timestamp) (db : DB) (uid : Z)
    (nm : string) (ag : Z) (dp bi ph : string) :
  let db' := (save_user Ok now db uid nm ag dp bi ph).1 in
  get_user Ok db' uid
  = Some {| user_id := uid; name := nm; age := ag; department := dp;
            bio := bi; photo_id := ph; created_at := now;
            updated_at := now |}
  /\ user_exists Ok db' uid = true.
Proof.
  intros db'.
  assert (Hrows : filter (fun u => user_id u = uid) (users db')
                  = [{| user_id := uid; name := nm; age := ag;
                        department := dp; bio := bi; photo_id := ph;
                        created_at := now; updated_at := now |}]).
  { unfold db'. rewrite users_save_user, filter_app.
    rewrite (filter_none (fun u => user_id u = uid)
               (filter (fun u => user_id u <> uid) (users db))).
    - by rewrite filter_cons_True.
    - intros u Hu. by apply list_elem_of_filter in Hu as [Hne _]. }
  unfold get_user, user_exists, try_except. by rewrite Hrows.
Qed.

(** X2.  Saving the profile of one user leaves every other user's
    profile, and all likes, matches and blocks, as they were. *)
Theorem save_user_frame (io io' : access) (now : timestamp) (db : DB)
    (uid other : Z) (nm : string) (ag : Z) (dp bi ph : string) :
  other <> uid ->
  let db' := (save_user io now db uid nm ag dp bi ph).1 in
  get_user io' db' other = get_user io' db other
  /\ user_exists io' db' other = user_exists io' db other
  /\ likes db' = likes db /\ matches db' = matches db
  /\ blocks db' = blocks db.
Proof.
  intros Hne db'. destruct io; [|done].
  assert (Hrows : filter (fun u => user_id u = other) (users db')
                  = filter (fun u => user_id u = other) (users db)).
  { unfold db'. rewrite users_save_user, filter_app.
    rewrite filter_cons_False, filter_nil, app_nil_r by done.
    apply filter_after_replace. congruence. }
  unfold get_user, user_exists, try_except. by rewrite Hrows.
Qed.

Lemma save_user_frame_witness :
  get_user Ok (save_user Ok "2024-02-01 08:00:00" two_users 2 "Sara" 30
                 "Law" "a longer bio" "file-9").1 1
  = get_user Ok two_users 1.
Proof.
  apply (save_user_frame Ok Ok "2024-02-01 08:00:00" two_users 2 1 "Sara" 30
           "Law" "a longer bio" "file-9"). lia.
Defined.

Lemma ids_save_user (io : access) (now : timestamp) (db : DB) (uid x : Z)
    (nm : string) (ag : Z) (dp bi ph : string) :
  lists_id (users db) x ->
  lists_id (users (save_user io now db uid nm ag dp bi ph).1) x.
Proof.
  destruct io; [|done]. unfold lists_id. rewrite users_save_user, fmap_app.
  intros Hx. apply elem_of_app. destruct (decide (x = uid)) as [->|Hne].
  - right. simpl. left.
  - left. apply list_elem_of_fmap in Hx as (u & -> & Hu).
    apply list_elem_of_fmap_2, list_elem_of_filter. done.
Qed.

Lemma unique_ids_save_user (io : access) (now : timestamp) (db : DB)
    (uid : Z) (nm : string) (ag : Z) (dp bi ph : string) :
  unique_ids db -> unique_ids (save_user io now db uid nm ag dp bi ph).1.
Proof.
  destruct io; [|done]. unfold unique_ids.
  rewrite users_save_user, fmap_app. intros Hnd.
  apply NoDup_app. split; [|split].
  - induction (users db) as [|u rows IH]; [constructor|].
    simpl in Hnd. apply NoDup_cons in Hnd as [Hu Hnd].
    rewrite filter_cons. case_decide; [|by apply IH].
    simpl. apply NoDup_cons. split; [|by apply IH].
    intros Hin. apply Hu. apply list_elem_of_fmap in Hin as (v & Hv & Hin).
    apply list_elem_of_filter in Hin as [_ Hin].
    rewrite Hv. by apply list_elem_of_fmap_2.
  - intros x Hx Hin. apply list_elem_of_singleton in Hin. simpl in Hin.
    subst x. apply list_elem_of_fmap in Hx as (v & Hv & Hx).
    apply list_elem_of_filter in Hx as [Hne _]. done.
  - apply NoDup_singleton.
Qed.

End Profiles.

(** ** The core tables under any sequence of writes *)

Section Writes.
Import Database UserModel BrowseHandler.

Lemma apply_writes_ind (P : DB -> Prop) :
  (forall db w, P db -> P (apply_write db w)) ->
  forall ws db, P db -> P (apply_writes db ws).
Proof.
  intros Hstep ws. unfold apply_writes.
  induction ws as [|w ws IH]; intros db Hdb; [done|].
  simpl. by apply IH, Hstep.
Qed.

Lemma blocks_handle_like (io1 io2 io3 : access) (now : timestamp) (db : DB)
    (a b : Z) :
  blocks (handle_like io1 io2 io3 now db a b).1 = blocks db.
Proof.
  unfold handle_like. destruct io1; [|done].
  cbn [add_like transaction try_except].
  destruct (check_match _ _ _ _); [|done]. by destruct io3.
Qed.

Lemma matches_handle_like (io1 io2 io3 : access) (now : timestamp) (db : DB)
    (a b : Z) :
  matches (handle_like io1 io2 io3 now db a b).1 = matches db
  \/ (io1 = Ok /\ has_like (add_like Ok now db a b).1 b a
      /\ matches (handle_like io1 io2 io3 now db a b).1
         = insert_or_ignore (fun m => (user1_id m, user2_id m))
             {| user1_id := Z.min a b; user2_id := Z.max a b;
                match_created_at := now |} (matches db)).
Proof.
  unfold handle_like. destruct io1; [|by left].
  cbn [add_like transaction try_except].
  destruct (check_match _ _ _ _) eqn:Hc; [|by left].
  destruct io3; [|by left]. right.
  destruct io2; [|done].
  apply check_match_reverse_edge in Hc. by repeat split.
Qed.

Lemma has_like_apply_write (db : DB) (w : write) (a b : Z) :
  has_like db a b -> has_like (apply_write db w) a b.
Proof.
  intros H. destruct w as [io now uid nm ag dp bi ph|io1 io2 io3 now uid liked
                          |io now x y]; simpl.
  - by destruct io.
  - apply (has_like_ext _ (add_like io1 now db uid liked).1);
      [apply likes_handle_like_any|by apply add_like_keeps].
  - by destruct io.
Qed.

Lemma blocked_by_apply_write (db : DB) (w : write) (a b : Z) :
  blocked_by db a b -> blocked_by (apply_write db w) a b.
Proof.
  intros H. destruct w as [io now uid nm ag dp bi ph|io1 io2 io3 now uid liked
                          |io now x y]; simpl.
  - by destruct io.
  - unfold blocked_by. by rewrite blocks_handle_like.
  - by apply block_user_keeps.
Qed.

Lemma lists_id_apply_write (db : DB) (w : write) (x : Z) :
  lists_id (users db) x -> lists_id (users (apply_write db w)) x.
Proof.
  intros H. destruct w as [io now uid nm ag dp bi ph|io1 io2 io3 now uid liked
                          |io now y z]; simpl.
  - by apply ids_save_user.
  - by rewrite users_handle_like.
  - by destruct io.
Qed.

(** X3.  The users table never comes to hold two rows with one id:
    registrations replace, likes and blocks do not touch it. *)
Theorem unique_ids_kept (db : DB) (ws : list write) :
  unique_ids db -> unique_ids (apply_writes db ws).
Proof.
  apply apply_writes_ind. clear. intros db w H.
  destruct w as [io now uid nm ag dp bi ph|io1 io2 io3 now uid liked
                |io now y z]; simpl.
  - by apply unique_ids_save_user.
  - unfold unique_ids. by rewrite users_handle_like.
  - by destruct io.
Qed.

Lemma unique_ids_kept_witness : unique_ids (apply_writes two_users sample_writes).
Proof.
  apply unique_ids_kept. unfold unique_ids. simpl.
  apply NoDup_cons. split; [|apply NoDup_singleton].
  intros H. apply list_elem_of_singleton in H. discriminate H.
Defined.

(** X4.  The match table stays a table of ordered pairs of users who
    like each other: a row is written only after both likes are found,
    smaller id first, and likes are never removed. *)
Theorem matches_backed_kept (db : DB) (ws : list write) :
  matches_backed db -> matches_backed (apply_writes db ws).
Proof.
  apply apply_writes_ind. clear. intros db w H. unfold matches_backed in *.
  assert (Hold : Forall (fun m => user1_id m <= user2_id m
                    /\ has_like (apply_write db w) (user1_id m) (user2_id m)
                    /\ has_like (apply_write db w) (user2_id m) (user1_id m))
                   (matches db)).
  { eapply Forall_impl; [exact H|]. intros m (Hle & H1 & H2).
    split; [done|]. split; by apply has_like_apply_write. }
  destruct w as [io now uid nm ag dp bi ph|io1 io2 io3 now uid liked
                |io now y z].
  - by destruct io.
  - destruct (matches_handle_like io1 io2 io3 now db uid liked)
      as [Hm|(-> & Hrev & Hm)]; simpl; rewrite Hm; [exact Hold|].
    unfold insert_or_ignore. case_decide; [exact Hold|].
    apply Forall_app. split; [exact Hold|]. apply Forall_singleton.
    cbn [user1_id user2_id].
    assert (Hfwd : has_like (handle_like Ok io2 io3 now db uid liked).1
                     uid liked).
    { apply (has_like_ext _ (add_like Ok now db uid liked).1);
        [apply likes_handle_like|apply add_like_has_like]. }
    assert (Hbwd : has_like (handle_like Ok io2 io3 now db uid liked).1
                     liked uid).
    { by apply (has_like_ext _ (add_like Ok now db uid liked).1);
        [apply likes_handle_like|]. }
    split; [lia|].
    destruct (Z.le_ge_cases uid liked).
    + rewrite Z.min_l, Z.max_r by done. done.
    + rewrite Z.min_r, Z.max_l by done. done.
  - by destruct io.
Qed.

Lemma matches_backed_kept_witness :
  matches_backed (apply_writes two_users sample_writes).
Proof. apply matches_backed_kept. constructor. Defined.

Example sample_writes_matches :
  (fun m => (user1_id m, user2_id m))
    <$> matches (apply_writes two_users sample_writes) = [(1, 2)].
Proof. reflexivity. Qed.

Lemma lists_id_matches (db : DB) (A x : Z) :
  lists_id (get_user_matches Ok db A) x
  <-> lists_id (users db) x /\ has_like db A x /\ has_like db x A /\ x <> A.
Proof.
  unfold lists_id, get_user_matches, try_except.
  rewrite !list_elem_of_fmap. split.
  - intros (u & -> & Hu). rewrite elem_of_remove_dups in Hu.
    apply list_elem_of_filter in Hu as [(H1 & H2 & H3) Hu].
    split; [by exists u|done].
  - intros ((u & -> & Hu) & H1 & H2 & H3). exists u. split; [done|].
    apply elem_of_remove_dups, list_elem_of_filter. done.
Qed.

(** X5.  Likes and matches are for good: a stored like survives every
    later write, and a profile listed among the matches of A is listed
    there after every later write (there is no unlike). *)
Theorem likes_and_matches_stay (db : DB) (ws : list write) (A : Z) :
  (forall a b, has_like db a b -> has_like (apply_writes db ws) a b)
  /\ (forall x, lists_id (get_user_matches Ok db A) x ->
        lists_id (get_user_matches Ok (apply_writes db ws) A) x).
Proof.
  assert (Hlike : forall a b, has_like db a b ->
                    has_like (apply_writes db ws) a b).
  { intros a b. apply (apply_writes_ind (fun d => has_like d a b)).
    intros d w. apply has_like_apply_write. }
  split; [exact Hlike|]. intros x. rewrite !lists_id_matches.
  intros (Hu & H1 & H2 & H3). repeat split; auto.
  revert Hu. apply (apply_writes_ind (fun d => lists_id (users d) x)).
  intros d w. apply lists_id_apply_write.
Qed.

Lemma likes_and_matches_stay_witness :
  has_like (apply_writes mutual sample_writes) 2 1
  /\ lists_id (get_user_matches Ok (apply_writes mutual sample_writes) 1) 2.
Proof.
  destruct (likes_and_matches_stay mutual sample_writes 1) as [Hl Hm].
  split.
  - apply Hl. apply has_like_iff. exists (like_edge 2 1). split; [left|done].
  - apply Hm. vm_compute. left.
Defined.

Lemma is_blocked_iff (db : DB) (A B : Z) :
  is_blocked Ok db A B = true <-> blocked_by db A B.
Proof.
  unfold is_blocked, blocked_by, try_except, fetchone.
  rewrite bool_decide_eq_true, Exists_exists. split.
  - destruct (filter _ (blocks db)) as [|b rows] eqn:E; [done|]. intros _.
    assert (Hb : b ∈ filter (fun b => blocker_id b = A /\ blocked_id b = B)
                       (blocks db)) by (rewrite E; left).
    apply list_elem_of_filter in Hb as [Hb Hin]. eauto.
  - intros (b & Hin & Hb).
    assert (Hf : b ∈ filter (fun b => blocker_id b = A /\ blocked_id b = B)
                       (blocks db)) by (by apply list_elem_of_filter).
    destruct (filter _ (blocks db)); [by apply elem_of_nil in Hf|done].
Qed.

(** X6.  A block is for good and hides for good: once [is_blocked]
    answers true for (A, B), it does so after every later write, and the
    unfiltered selection for A never draws B (there is no unblock). *)
Theorem blocked_stays_hidden (db : DB) (ws : list write) (A B : Z)
    (io : access) (rnd : nat) (u : user_row) :
  is_blocked Ok db A B = true ->
  is_blocked Ok (apply_writes db ws) A B = true
  /\ (get_random_user io rnd (apply_writes db ws) A true = Some u ->
      user_id u <> B).
Proof.
  rewrite !is_blocked_iff. intros Hb.
  assert (Hb' : blocked_by (apply_writes db ws) A B).
  { revert Hb. apply (apply_writes_ind (fun d => blocked_by d A B)).
    intros d w. apply blocked_by_apply_write. }
  split; [exact Hb'|]. intros Hsel Heq.
  apply get_random_user_sound in Hsel as (_ & _ & Hnb). apply Hnb.
  by rewrite Heq.
Qed.

Lemma blocked_stays_hidden_witness :
  is_blocked Ok
    (apply_writes (block_user Ok "2024-02-02 08:00:00" two_users 1 2).1
       sample_writes) 1 2 = true.
Proof.
  apply (blocked_stays_hidden
           (block_user Ok "2024-02-02 08:00:00" two_users 1 2).1
           sample_writes 1 2 Ok 0 (profile 2)).
  reflexivity.
Defined.

End Writes.

(** ** Matches, likers, blocks and the statistics *)

Section Relations.
Import Database UserModel BrowseHandler MenuHandler.

Lemma matches_elem (db : DB) (A : Z) (u : user_row) :
  u ∈ get_user_matches Ok db A
  <-> u ∈ users db /\ has_like db A (user_id u)
      /\ has_like db (user_id u) A /\ user_id u <> A.
Proof.
  unfold get_user_matches, try_except.
  rewrite elem_of_remove_dups, list_elem_of_filter. tauto.
Qed.

Lemma likers_elem (db : DB) (A : Z) (u : user_row) :
  u ∈ get_users_who_liked_me Ok db A
  <-> u ∈ users db /\ has_like db (user_id u) A
      /\ ~ has_like db A (user_id u) /\ user_id u <> A.
Proof.
  unfold get_users_who_liked_me, try_except.
  rewrite elem_of_remove_dups, list_elem_of_bind. split.
  - intros (v & Hu & Hv). apply list_elem_of_bind in Hu as (l & Hu & Hl).
    case_decide as Hc; [|by apply elem_of_nil in Hu].
    apply list_elem_of_singleton in Hu. subst v.
    apply list_elem_of_filter in Hl as [Hl Hin].
    destruct Hc as (Hc1 & Hc2 & Hc3). repeat split; try done.
    apply has_like_iff. eauto.
  - intros (Hu & Hl & Hn & Hne). exists u. split; [|done].
    apply has_like_iff in Hl as (l & Hin & Hl1 & Hl2).
    apply list_elem_of_bind. exists l. split.
    + rewrite decide_True by done. left.
    + by apply list_elem_of_filter.
Qed.

(** X7.  A match is stored once, smaller id first, in whichever order
    and however often the two users are given. *)
Theorem save_match_unordered (io : access) (now now' : timestamp) (db : DB)
    (a b : Z) :
  let db1 := (save_match Ok now db a b).1 in
  matches (save_match io now' db1 b a).1 = matches db1
  /\ matches (save_match io now' db1 a b).1 = matches db1
  /\ Exists (fun m => user1_id m = Z.min a b /\ user2_id m = Z.max a b)
            (matches db1).
Proof.
  intros db1.
  assert (Hin : Exists (fun m => (user1_id m, user2_id m)
                                 = (Z.min a b, Z.max a b)) (matches db1)).
  { apply (insert_or_ignore_present (fun m => (user1_id m, user2_id m))
             {| user1_id := Z.min a b; user2_id := Z.max a b;
                match_created_at := now |}). }
  split; [|split].
  - destruct io; [|done].
    apply (insert_or_ignore_again (fun m => (user1_id m, user2_id m))).
    cbn. by rewrite Z.min_comm, Z.max_comm.
  - destruct io; [|done].
    by apply (insert_or_ignore_again (fun m => (user1_id m, user2_id m))).
  - eapply Exists_impl; [exact Hin|]. intros m [= -> ->]. done.
Qed.

(** X8.  A block works one way only: when A blocks B, what any other
    requester is shown, B included, and whom they have blocked, is as
    before. *)
Theorem block_is_one_way (io io' : access) (now : timestamp) (rnd : nat)
    (db : DB) (A B C x : Z) (eb : bool) :
  C <> A ->
  let db' := (block_user io now db A B).1 in
  get_random_user io' rnd db' C eb = get_random_user io' rnd db C eb
  /\ is_blocked io' db' C x = is_blocked io' db C x.
Proof.
  intros Hne db'. destruct io; [|done].
  assert (Hfilter : forall P : block_row -> Prop,
            forall Hdec : (forall b, Decision (P b)),
            (forall b, P b -> blocker_id b = C) ->
            filter P (blocks db') = filter P (blocks db)).
  { intros P Hdec HP. unfold db'.
    cbn [block_user transaction try_except fst set_blocks blocks].
    unfold insert_or_ignore. case_decide; [done|].
    rewrite filter_app, filter_cons_False, filter_nil, app_nil_r; [done|].
    intros Hp. apply HP in Hp. simpl in Hp. congruence. }
  assert (Hblocked : forall y, blocked_by db' C y <-> blocked_by db C y).
  { intros y. rewrite <- !is_blocked_iff.
    unfold is_blocked, try_except. rewrite Hfilter; [done|]. tauto. }
  split.
  - unfold get_random_user. destruct io'; [|done]. unfold try_except.
    destruct eb; [|done].
    replace (users db') with (users db) by done.
    f_equal. f_equal. apply list_filter_iff. intros u.
    by rewrite Hblocked.
  - unfold is_blocked. destruct io'; [|done]. unfold try_except.
    rewrite Hfilter; [done|]. tauto.
Qed.

Lemma block_is_one_way_witness :
  get_random_user Ok 0 (block_user Ok "2024-02-03 10:00:00" two_users 1 2).1
    2 true
  = get_random_user Ok 0 two_users 2 true.
Proof.
  apply (block_is_one_way Ok Ok "2024-02-03 10:00:00" 0 two_users 1 2 2 1 true).
  lia.
Defined.

(** X9.  Liking back a profile from the liked-me list always makes a
    match: the like is answered "It's a match!", the profile is then
    among the matches and no longer on the liked-me list. *)
Theorem like_back_matches (io3 : access) (now : timestamp) (db : DB) (A : Z)
    (u : user_row) :
  u ∈ get_users_who_liked_me Ok db A ->
  let r := handle_like Ok Ok io3 now db A (user_id u) in
  r.2 = ItsAMatch
  /\ u ∈ get_user_matches Ok r.1 A
  /\ u ∉ get_users_who_liked_me Ok r.1 A.
Proof.
  intros Hu r. apply likers_elem in Hu as (Hin & Hback & _ & Hne).
  assert (Hfwd : has_like r.1 A (user_id u)).
  { apply (has_like_ext _ (add_like Ok now db A (user_id u)).1);
      [apply likes_handle_like|apply add_like_has_like]. }
  assert (Hback' : has_like (add_like Ok now db A (user_id u)).1 (user_id u) A)
    by by apply add_like_keeps.
  split; [by apply handle_like_matched|]. split.
  - apply matches_elem. repeat split; try done.
    + unfold r. by rewrite users_handle_like.
    + by apply (has_like_ext _ (add_like Ok now db A (user_id u)).1);
        [apply likes_handle_like|].
  - rewrite likers_elem. tauto.
Qed.

Lemma like_back_matches_witness :
  (handle_like Ok Ok Ok "2024-02-03 11:00:00" one_sided 1
     (user_id (profile 2))).2 = ItsAMatch.
Proof.
  apply (like_back_matches Ok "2024-02-03 11:00:00" one_sided 1 (profile 2)).
  vm_compute. left.
Defined.

(** X10.  Being matched is mutual: for two profiles of the users table,
    one is among the matches of the other exactly when the other is
    among the matches of the one. *)
Theorem matches_symmetric (db : DB) (ua ub : user_row) :
  ua ∈ users db -> ub ∈ users db ->
  ub ∈ get_user_matches Ok db (user_id ua)
  <-> ua ∈ get_user_matches Ok db (user_id ub).
Proof.
  intros Ha Hb. rewrite !matches_elem. split; intros (_ & H1 & H2 & H3);
    repeat split; try done; by intros Heq; apply H3.
Qed.

Lemma matches_symmetric_witness :
  profile 2 ∈ get_user_matches Ok mutual (user_id (profile 1))
  <-> profile 1 ∈ get_user_matches Ok mutual (user_id (profile 2)).
Proof.
  apply matches_symmetric; [left|right; left].
Defined.

(** X11.  Everyone who liked A is on exactly one of A's two lists: a
    profile other than A's own that has liked A is on the liked-me list
    if and only if it is not among the matches; and nobody else is on
    either list. *)
Theorem liker_is_on_one_list (db : DB) (A : Z) (u : user_row) :
  ((u ∈ get_users_who_liked_me Ok db A \/ u ∈ get_user_matches Ok db A)
   <-> u ∈ users db /\ has_like db (user_id u) A /\ user_id u <> A)
  /\ (u ∈ users db -> has_like db (user_id u) A -> user_id u <> A ->
      u ∈ get_users_who_liked_me Ok db A <-> u ∉ get_user_matches Ok db A).
Proof.
  rewrite likers_elem, matches_elem.
  destruct (decide (has_like db A (user_id u))); tauto.
Qed.

Lemma liker_is_on_one_list_witness :
  profile 2 ∈ get_users_who_liked_me Ok one_sided 1
  <-> profile 2 ∉ get_user_matches Ok one_sided 1.
Proof.
  destruct (liker_is_on_one_list one_sided 1 (profile 2)) as [_ H].
  apply H.
  - right. left.
  - apply has_like_iff. exists (like_edge 2 1). split; [left|done].
  - simpl. lia.
Defined.

Lemma remove_dups_sublist {X : Type} `{EqDecision X} (l : list X) :
  remove_dups l `sublist_of` l.
Proof.
  induction l as [|x l IH]; [done|]. simpl.
  case_decide; [by apply sublist_cons|by apply sublist_skip].
Qed.

(** X12.  The statistics are consistent: with unique user ids, the
    number of matches shown is at most the number of likes given and at
    most the number of likes received, and the profile views shown are
    the likes received. *)
Theorem statistics_consistent (io1 io2 io3 : access) (db : DB) (uid : Z)
    (s : statistics) :
  unique_ids db ->
  show_statistics io1 io2 io3 db uid = Some s ->
  (matches_count s <= likes_given s)%nat
  /\ (matches_count s <= likes_received s)%nat
  /\ profile_views s = likes_received s.
Proof.
  intros Hnd Hs. destruct io1, io2; try done.
  cbn [show_statistics try_except] in Hs. injection Hs as <-.
  cbn [matches_count likes_given likes_received profile_views].
  split; [|split; [|done]].
  all: destruct io3; [|cbn; lia].
  all: set (M := get_user_matches Ok db uid).
  all: assert (HM : NoDup (user_id <$> M)).
  1,3: (apply (sublist_NoDup _ (user_id <$> users db));
        [exact Hnd|apply fmap_sublist; etrans;
                     [apply remove_dups_sublist|apply sublist_filter]]).
  - unfold count_likes.
    rewrite <- (length_fmap user_id M),
            <- (length_fmap liked_id (filter _ (likes db))).
    apply submseteq_length, NoDup_submseteq; [done|].
    intros x Hx. apply list_elem_of_fmap in Hx as (u & -> & Hu).
    apply matches_elem in Hu as (_ & Hl & _).
    apply has_like_iff in Hl as (l & Hin & Hl1 & Hl2).
    apply list_elem_of_fmap. exists l. split; [done|].
    by apply list_elem_of_filter.
  - unfold count_likes.
    rewrite <- (length_fmap user_id M),
            <- (length_fmap liker_id (filter _ (likes db))).
    apply submseteq_length, NoDup_submseteq; [done|].
    intros x Hx. apply list_elem_of_fmap in Hx as (u & -> & Hu).
    apply matches_elem in Hu as (_ & _ & Hl & _).
    apply has_like_iff in Hl as (l & Hin & Hl1 & Hl2).
    apply list_elem_of_fmap. exists l. split; [done|].
    by apply list_elem_of_filter.
Qed.

Lemma statistics_consistent_witness :
  exists s, show_statistics Ok Ok Ok mutual 1 = Some s
            /\ (matches_count s <= likes_given s)%nat
            /\ (matches_count s <= likes_received s)%nat
            /\ profile_views s = likes_received s.
Proof.
  eexists. split; [reflexivity|].
  apply (statistics_consistent Ok Ok Ok mutual 1).
  - unfold unique_ids. simpl. apply NoDup_cons. split; [|apply NoDup_singleton].
    intros H. apply list_elem_of_singleton in H. discriminate H.
  - reflexivity.
Defined.

End Relations.

(** ** Numbers written and read back *)

Section Numerals.

Lemma digit_char_facts (c : ascii) (d : Z) :
  Py.digit c = Some d ->
  Py.isspace c = false /\ Ascii.eqb c "_" = false
  /\ Ascii.eqb c "+" = false /\ Ascii.eqb c "-" = false.
Proof.
  destruct c as [[] [] [] [] [] [] [] []]; vm_compute; intros H;
    first [discriminate H | by repeat split].
Qed.

Lemma digit_pretty_char (d : N) :
  (d < 10)%N -> Py.digit (pretty_N_char d) = Some (Z.of_N d).
Proof.
  intros Hd.
  assert (d = 0 \/ d = 1 \/ d = 2 \/ d = 3 \/ d = 4 \/ d = 5 \/ d = 6
          \/ d = 7 \/ d = 8 \/ d = 9)%N as Hcases by lia.
  repeat (destruct Hcases as [->|Hcases]; [reflexivity|]). by subst.
Qed.

Lemma all_digits_pretty_go (x : N) (s : string) :
  all_digits s = true -> all_digits (pretty_N_go x s) = true.
Proof.
  revert s. induction (N.lt_wf_0 x) as [x _ IH]; intros s Hs.
  destruct (decide (x = 0)%N) as [->|Hx]; [by rewrite pretty_N_go_0|].
  rewrite pretty_N_go_step by lia. apply IH; [apply N.div_lt; lia|].
  simpl. rewrite Hs, andb_true_r. apply bool_decide_eq_true.
  rewrite digit_pretty_char; [done|]. by apply N.mod_lt.
Qed.

Lemma value_pretty_go (x : N) (s : string) :
  value_from 0 (pretty_N_go x s) = value_from (Z.of_N x) s.
Proof.
  revert s. induction (N.lt_wf_0 x) as [x _ IH]; intros s.
  destruct (decide (x = 0)%N) as [->|Hx]; [by rewrite pretty_N_go_0|].
  rewrite pretty_N_go_step by lia. rewrite IH by (apply N.div_lt; lia).
  simpl. rewrite digit_pretty_char by (by apply N.mod_lt). simpl.
  f_equal. rewrite (N.div_mod x 10) at 3 by done. lia.
Qed.

Lemma count_pretty_go (n : nat) (x : N) (s : string) :
  (x < 10 ^ N.of_nat n)%N ->
  Py.count_digits (pretty_N_go x s) <= Z.of_nat n + Py.count_digits s.
Proof.
  revert x s. induction n as [|n IH]; intros x s Hx.
  - assert (x = 0%N) as -> by (simpl in Hx; lia). rewrite pretty_N_go_0. lia.
  - destruct (decide (x = 0)%N) as [->|Hx0]; [rewrite pretty_N_go_0; lia|].
    rewrite pretty_N_go_step by lia. etrans; [apply IH|].
    + rewrite Nat2N.inj_succ, N.pow_succ_r' in Hx.
      apply N.Div0.div_lt_upper_bound. lia.
    + cbn [Py.count_digits]. destruct (Py.digit _); lia.
Qed.

Lemma digits_all_digits (s : string) (acc : Z) :
  all_digits s = true -> Py.digits s acc true = Some (value_from acc s).
Proof.
  revert acc. induction s as [|c s IH]; intros acc Hs; [done|].
  simpl in Hs. apply andb_true_iff in Hs as [Hc Hs].
  apply bool_decide_eq_true in Hc as [d Hd].
  destruct (digit_char_facts c d Hd) as (_ & Hu & _).
  simpl. rewrite Hu, Hd. simpl. by apply IH.
Qed.

Lemma digits_first (s : string) :
  all_digits s = true -> s <> "" ->
  Py.digits s 0 false = Some (value_from 0 s).
Proof.
  destruct s as [|c s]; [done|]. intros Hs _.
  simpl in Hs. apply andb_true_iff in Hs as [Hc Hs].
  apply bool_decide_eq_true in Hc as [d Hd].
  destruct (digit_char_facts c d Hd) as (_ & Hu & _).
  simpl. rewrite Hu, Hd. simpl. by apply digits_all_digits.
Qed.

Lemma rstrip_all_digits (s : string) : all_digits s = true -> Py.rstrip s = s.
Proof.
  induction s as [|c s IH]; [done|]. intros Hs.
  simpl in Hs. apply andb_true_iff in Hs as [Hc Hs].
  apply bool_decide_eq_true in Hc as [d Hd].
  destruct (digit_char_facts c d Hd) as (Hsp & _).
  simpl. rewrite IH by done. rewrite Hsp. by destruct s.
Qed.

Lemma strip_all_digits (s : string) : all_digits s = true -> Py.strip s = s.
Proof.
  intros Hs. unfold Py.strip.
  replace (Py.lstrip s) with s; [by apply rstrip_all_digits|].
  destruct s as [|c s]; [done|].
  simpl in Hs. apply andb_true_iff in Hs as [Hc Hs].
  apply bool_decide_eq_true in Hc as [d Hd].
  destruct (digit_char_facts c d Hd) as (Hsp & _). simpl. by rewrite Hsp.
Qed.

Lemma int_no_sign (c : ascii) (r : string) :
  Py.strip (String c r) = String c r ->
  Ascii.eqb c "+" = false -> Ascii.eqb c "-" = false ->
  Py.int (String c r)
  = if Py.int_max_str_digits <? Py.count_digits (String c r) then None
    else Py.digits (String c r) 0 false.
Proof.
  intros Hs Hp Hm. unfold Py.int. rewrite Hs.
  destruct c as [[] [] [] [] [] [] [] []];
    first [discriminate Hp | discriminate Hm | reflexivity].
Qed.

(** [int] reads an unsigned numeral of at most 4300 digits, and the
    same after a minus sign. *)
Lemma int_numeral (s : string) :
  all_digits s = true -> s <> "" -> Py.count_digits s <= 4300 ->
  Py.int s = Some (value_from 0 s)
  /\ Py.int ("-" +:+ s) = Some (- value_from 0 s).
Proof.
  intros Hs Hne Hc.
  assert (Hlim : (Py.int_max_str_digits <? Py.count_digits s) = false)
    by (apply Z.ltb_ge; exact Hc).
  split.
  - destruct s as [|c r] eqn:E; [done|]. rewrite <- E in *.
    assert (Hsign : Ascii.eqb c "+" = false /\ Ascii.eqb c "-" = false).
    { rewrite E in Hs. simpl in Hs. apply andb_true_iff in Hs as [Hd _].
      apply bool_decide_eq_true in Hd as [d Hd].
      by destruct (digit_char_facts c d Hd) as (_ & _ & ? & ?). }
    destruct Hsign as [Hp Hm]. rewrite E at 1.
    rewrite int_no_sign; [|by rewrite <- E; apply strip_all_digits|done|done].
    rewrite <- E, Hlim. by apply digits_first.
  - unfold Py.int.
    assert (Hstrip : Py.strip ("-" +:+ s) = "-" +:+ s).
    { unfold Py.strip. change (Py.lstrip ("-" +:+ s)) with ("-" +:+ s).
      change (Py.rstrip ("-" +:+ s))
        with (match Py.rstrip s with
              | "" => "-"
              | r => String "-" r
              end).
      rewrite rstrip_all_digits by done. by destruct s. }
    rewrite Hstrip. change ("-" +:+ s) with (String "-" s). cbv iota beta.
    rewrite Hlim. by rewrite digits_first.
Qed.

Lemma pretty_positive_numeral (p : positive) :
  Z.pos p < 10 ^ 4300 ->
  let s := pretty_N_go (N.pos p) "" in
  all_digits s = true /\ s <> "" /\ Py.count_digits s <= 4300
  /\ value_from 0 s = Z.pos p.
Proof.
  intros Hp s.
  assert (Hv : value_from 0 s = Z.pos p) by (unfold s; by rewrite value_pretty_go).
  split; [by apply all_digits_pretty_go|]. split; [|split; [|done]].
  - intros Hs. rewrite Hs in Hv. done.
  - pose proof (count_pretty_go 4300 (N.pos p) "") as Hc.
    simpl Py.count_digits in Hc. fold s in Hc.
    rewrite Z.add_0_r in Hc. etrans; [apply Hc|].
    + apply N2Z.inj_lt. rewrite N2Z.inj_pow. simpl Z.of_N at 1.
      replace (Z.of_N (N.of_nat 4300)) with 4300 by (by vm_compute).
      exact Hp.
    + by vm_compute.
Qed.

Lemma int_pretty_pos (p : positive) :
  Z.pos p < 10 ^ 4300 ->
  Py.int (pretty (Z.pos p)) = Some (Z.pos p)
  /\ Py.int (pretty (Z.neg p)) = Some (Z.neg p).
Proof.
  intros Hz. destruct (pretty_positive_numeral p Hz) as (Hd & Hne & Hc & Hv).
  unfold pretty, pretty_Z, pretty, pretty_positive, pretty, pretty_N.
  rewrite !decide_False by done.
  destruct (int_numeral _ Hd Hne Hc) as [-> ->]. by rewrite Hv.
Qed.


(** X13.  A number written with [str] (or in an f-string) is read back
    by [int] as the same number, as long as it stays within the 4300
    digits [int] accepts. *)
Theorem int_of_pretty (z : Z) :
  Z.abs z < 10 ^ 4300 -> Py.int (pretty z) = Some z.
Proof.
  intros Hz. destruct z as [|p|p]; [by vm_compute|..];
    by apply int_pretty_pos.
Qed.

Lemma int_of_pretty_witness : Py.int (pretty (-5123456789)) = Some (-5123456789).
Proof. apply int_of_pretty. by vm_compute. Defined.

End Numerals.

(** ** Callback texts: written on a button, read back on a press *)

Section CallbackTexts.
Import Database Extras Callbacks.

Lemma numeral_chars_digits (s : string) :
  all_digits s = true -> numeral_chars s = true.
Proof.
  induction s as [|c s IH]; [done|]. simpl. intros H.
  apply andb_true_iff in H as [-> H]. by rewrite IH.
Qed.

Lemma numeral_chars_pretty (z : Z) : numeral_chars (pretty z) = true.
Proof.
  assert (Hpos : forall p : positive,
            numeral_chars (pretty_N_go (N.pos p) "") = true).
  { intros p. by apply numeral_chars_digits, all_digits_pretty_go. }
  destruct z as [|p|p]; [done| |];
    unfold pretty, pretty_Z, pretty, pretty_positive, pretty, pretty_N;
    rewrite decide_False by done; [apply Hpos|].
  change ("-" +:+ pretty_N_go (N.pos p) "")
    with (String "-" (pretty_N_go (N.pos p) "")).
  simpl. by rewrite Hpos.
Qed.

Lemma numeral_char_facts (c : ascii) :
  (bool_decide (is_Some (Py.digit c)) || Ascii.eqb c "-") = true ->
  Ascii.eqb c "_" = false /\ Ascii.eqb c "m" = false.
Proof.
  destruct c as [[] [] [] [] [] [] [] []]; vm_compute; intros H;
    first [discriminate H | by split].
Qed.

Lemma split_numeral (s : string) :
  numeral_chars s = true -> PyStr.split "_" s = [s].
Proof.
  induction s as [|c s IH]; [done|]. simpl. intros H.
  apply andb_true_iff in H as [Hc H].
  destruct (numeral_char_facts c Hc) as [Hu _].
  by rewrite Hu, IH.
Qed.

Lemma numeral_not_match (s : string) :
  numeral_chars s = true -> PyStr.startswith s "match_" = false.
Proof.
  destruct s as [|c s]; [done|]. intros H.
  cbn [numeral_chars] in H. apply andb_true_iff in H as [Hc H].
  destruct (numeral_char_facts c Hc) as [_ Hm].
  rewrite Ascii.eqb_sym in Hm.
  change (PyStr.startswith (String c s) "match_")
    with (Ascii.eqb "m" c && PyStr.startswith s "atch_").
  by rewrite Hm.
Qed.

Lemma startswith_nil (s : string) : PyStr.startswith s "" = true.
Proof. by destruct s. Qed.

Lemma dispatch_numeral (p : string) (z : Z) :
  Py.int p = Some z -> PyStr.split "_" p = [p] ->
  PyStr.startswith p "match_" = false ->
  dispatch ("like_" +:+ p) = LikeOf z
  /\ dispatch ("view_" +:+ p) = View z
  /\ dispatch ("view_match_" +:+ p) = ViewMatch z
  /\ dispatch ("report_" +:+ p) = Report z
  /\ dispatch ("favorite_" +:+ p) = Favorite z
  /\ dispatch ("unfavorite_" +:+ p) = Unfavorite z
  /\ dispatch ("block_" +:+ p) = Block z.
Proof.
  intros Hint Hsplit Hnm.
  repeat split; unfold dispatch, with_id, PyStr.int_field;
    cbv [String.append]; cbn;
    rewrite ?Hnm, ?Hsplit, ?startswith_nil; cbn;
    rewrite ?startswith_nil, Hint; done.
Qed.

Lemma dispatch_pretty (z : Z) :
  Py.int (pretty z) = Some z ->
  dispatch ("favorite_" +:+ pretty z) = Favorite z
  /\ dispatch ("unfavorite_" +:+ pretty z) = Unfavorite z.
Proof.
  intros Hint.
  destruct (dispatch_numeral (pretty z) z Hint) as (_ & _ & _ & _ & Hf & Hu & _);
    [apply split_numeral, numeral_chars_pretty
    |apply numeral_not_match, numeral_chars_pretty|done].
Qed.

(** X14.  Every callback text the bot writes on a button is read back by
    [handle_callback] as the action and the user id it was written for
    (ids within the digits [int] accepts); [view_match_] is not taken
    for [view_]. *)
Theorem dispatch_reads_buttons (z : Z) :
  Z.abs z < 10 ^ 4300 ->
  dispatch (like_data z) = LikeOf z
  /\ dispatch (view_data z) = View z
  /\ dispatch (view_match_data z) = ViewMatch z
  /\ dispatch (report_data z) = Report z
  /\ dispatch ("favorite_" +:+ pretty z) = Favorite z
  /\ dispatch ("unfavorite_" +:+ pretty z) = Unfavorite z
  /\ dispatch ("block_" +:+ pretty z) = Block z.
Proof.
  intros Hz. apply dispatch_numeral.
  - destruct z as [|p|p]; [by vm_compute|..]; by apply int_pretty_pos.
  - apply split_numeral, numeral_chars_pretty.
  - apply numeral_not_match, numeral_chars_pretty.
Qed.

Lemma dispatch_reads_buttons_witness :
  dispatch (view_match_data 77) = ViewMatch 77.
Proof.
  destruct (dispatch_reads_buttons 77) as (_ & _ & H & _); [by vm_compute|].
  exact H.
Defined.

Example dispatch_edge_cases :
  dispatch "" = NoData /\ dispatch "like_" = Malformed
  /\ dispatch "like_abc" = Malformed /\ dispatch "view_match" = Malformed
  /\ dispatch "like_12_3" = LikeOf 12 /\ dispatch "pref_apply" = Unhandled
  /\ dispatch "like_-4" = LikeOf (-4).
Proof. repeat split; reflexivity. Qed.

End CallbackTexts.

(** ** Favourites and reports *)

Section Favourites.
Import Database Extras Callbacks.

Lemma store_eq (s s' : Store) :
  core s = core s' -> reports s = reports s' -> favorites s = favorites s' ->
  s = s'.
Proof. destruct s, s'; simpl; by intros -> -> ->. Qed.

(** [favorites] holds the pair (uid, fav). *)
Lemma is_favorited_iff (st : Store) (uid fav : Z) :
  is_favorited Ok st uid fav = true
  <-> exists f, f ∈ favorites st /\ fav_user_id f = uid /\ favorite_id f = fav.
Proof.
  unfold is_favorited, try_except, fetchone. rewrite bool_decide_eq_true.
  split.
  - destruct (filter _ (favorites st)) as [|f rows] eqn:E; [done|]. intros _.
    assert (Hf : f ∈ filter (fun f => fav_user_id f = uid
                                      /\ favorite_id f = fav) (favorites st))
      by (rewrite E; left).
    apply list_elem_of_filter in Hf as [[H1 H2] Hin]. eauto.
  - intros (f & Hin & H1 & H2).
    assert (Hf : f ∈ filter (fun f => fav_user_id f = uid
                                      /\ favorite_id f = fav) (favorites st))
      by (by apply list_elem_of_filter).
    destruct (filter _ (favorites st)); [by apply elem_of_nil in Hf|done].
Qed.

Lemma is_favorited_ext (st st' : Store) (uid fav : Z) :
  (forall f, fav_user_id f = uid -> favorite_id f = fav ->
     f ∈ favorites st' <-> f ∈ favorites st) ->
  is_favorited Ok st' uid fav = is_favorited Ok st uid fav.
Proof.
  intros H. apply eq_true_iff_eq. rewrite !is_favorited_iff.
  split; intros (f & Hin & H1 & H2); exists f; (split; [|done]);
    by apply (H f H1 H2).
Qed.

Lemma favorites_add (now : timestamp) (st : Store) (uid fav : Z) (f : favorite_row) :
  f ∈ favorites (add_favorite Ok now st uid fav).1
  <-> f ∈ favorites st
      \/ (f = {| fav_user_id := uid; favorite_id := fav;
                 favorite_created_at := now |}
          /\ is_favorited Ok st uid fav = false).
Proof.
  cbn [add_favorite transaction_st try_except fst set_favorites favorites].
  unfold insert_or_ignore. case_decide as Hin.
  - split; [by left|]. intros [H|[_ H]]; [done|].
    apply not_true_iff_false in H. exfalso. apply H, is_favorited_iff.
    apply Exists_exists in Hin as (g & Hg & [= H1 H2]). eauto.
  - rewrite elem_of_app, list_elem_of_singleton. split.
    + intros [H| ->]; [by left|]. right. split; [done|].
      apply not_true_iff_false. intros H. apply Hin.
      apply is_favorited_iff in H as (g & Hg & H1 & H2).
      apply Exists_exists. exists g. split; [done|]. simpl. congruence.
    + intros [H|[-> _]]; tauto.
Qed.

Lemma favorites_remove (st : Store) (uid fav : Z) (f : favorite_row) :
  f ∈ favorites (remove_favorite Ok st uid fav).1
  <-> f ∈ favorites st /\ ~ (fav_user_id f = uid /\ favorite_id f = fav).
Proof.
  cbn [remove_favorite transaction_st try_except fst set_favorites favorites].
  rewrite list_elem_of_filter. tauto.
Qed.

Lemma add_favorite_is_favorited (now : timestamp) (st : Store) (uid fav : Z) :
  is_favorited Ok (add_favorite Ok now st uid fav).1 uid fav = true.
Proof.
  apply is_favorited_iff.
  pose proof (insert_or_ignore_present
                (fun f => (fav_user_id f, favorite_id f))
                {| fav_user_id := uid; favorite_id := fav;
                   favorite_created_at := now |} (favorites st)) as H.
  apply Exists_exists in H as (f & Hin & [= H1 H2]). eauto.
Qed.

Lemma remove_favorite_is_favorited (st : Store) (uid fav : Z) :
  is_favorited Ok (remove_favorite Ok st uid fav).1 uid fav = false.
Proof.
  apply not_true_iff_false. rewrite is_favorited_iff.
  intros (f & Hin & H1 & H2). apply favorites_remove in Hin. tauto.
Qed.

(** X15.  The favourites of a user behave as a set of ids: after
    [add_favorite] the id is a favourite, after [remove_favorite] it is
    not, adding twice or removing twice is as once, and neither touches
    any other pair or the core tables. *)
Theorem favourite_is_a_set (io : access) (now : timestamp) (st : Store)
    (uid fav uid' fav' : Z) :
  let added := (add_favorite Ok now st uid fav).1 in
  let removed := (remove_favorite Ok st uid fav).1 in
  is_favorited Ok added uid fav = true
  /\ is_favorited Ok removed uid fav = false
  /\ (add_favorite io now added uid fav).1 = added
  /\ (remove_favorite io removed uid fav).1 = removed
  /\ ((uid', fav') <> (uid, fav) ->
      is_favorited Ok added uid' fav' = is_favorited Ok st uid' fav'
      /\ is_favorited Ok removed uid' fav' = is_favorited Ok st uid' fav')
  /\ core added = core st /\ core removed = core st.
Proof.
  intros added removed.
  assert (Hrm : forall f, f ∈ favorites removed
                  <-> f ∈ favorites st
                      /\ ~ (fav_user_id f = uid /\ favorite_id f = fav))
    by (intros f; apply favorites_remove).
  split; [|split; [|split; [|split; [|split; [|by split]]]]].
  - apply add_favorite_is_favorited.
  - apply remove_favorite_is_favorited.
  - destruct io; [|done]. apply store_eq; try done.
    by apply (insert_or_ignore_again (fun f => (fav_user_id f, favorite_id f))).
  - destruct io; [|done]. apply store_eq; try done.
    cbn [remove_favorite transaction_st try_except fst set_favorites favorites].
    apply filter_all, Forall_forall. intros f Hf.
    apply Hrm in Hf. tauto.
  - intros Hne. split; apply is_favorited_ext; intros f H1 H2.
    + unfold added. rewrite favorites_add. split; [|by left].
      intros [H|[-> _]]; [done|]. simpl in *. congruence.
    + rewrite Hrm. split; [tauto|]. intros Hin. split; [done|].
      intros [H3 H4]. congruence.
Qed.

Lemma favourite_is_a_set_witness :
  let st := {| core := two_users; reports := []; favorites := [] |} in
  is_favorited Ok (add_favorite Ok "2024-02-04 10:00:00" st 1 2).1 2 1
  = is_favorited Ok st 2 1.
Proof.
  intros st.
  destruct (favourite_is_a_set Ok "2024-02-04 10:00:00" st 1 2 2 1)
    as (_ & _ & _ & _ & H & _).
  apply H. intros [=].
Defined.

(** X16.  The favourites list shows exactly the profiles of the users
    table for which [is_favorited] answers true (a favourite whose
    profile is missing is not shown). *)
Theorem get_favorites_lists_favourites (st : Store) (uid : Z) (u : user_row) :
  u ∈ get_favorites Ok st uid
  <-> u ∈ users (core st) /\ is_favorited Ok st uid (user_id u) = true.
Proof.
  unfold get_favorites, try_except. rewrite is_favorited_iff.
  rewrite list_elem_of_bind. split.
  - intros (v & Hu & Hv). apply list_elem_of_bind in Hu as (f & Hu & Hf).
    case_decide as Hc; [|by apply elem_of_nil in Hu].
    apply list_elem_of_singleton in Hu. subst v.
    apply list_elem_of_filter in Hf as [Hf Hin]. eauto.
  - intros (Hu & f & Hin & H1 & H2). exists u. split; [|done].
    apply list_elem_of_bind. exists f. split.
    + rewrite decide_True by done. left.
    + by apply list_elem_of_filter.
Qed.

(** X17.  Pressing the favourite button under a shown profile flips
    that favourite: the text on the button is [favorite_<id>] or
    [unfavorite_<id>] by the current state, and [handle_callback] on that
    text leaves [is_favorited] the opposite of what it was. *)
Theorem favourite_button_toggles (io2 io3 : access) (now : timestamp)
    (st : Store) (uid shown : Z) :
  Z.abs shown < 10 ^ 4300 ->
  is_favorited Ok
    (handle_callback Ok io2 io3 now st uid (favorite_data Ok st uid shown))
    uid shown
  = negb (is_favorited Ok st uid shown).
Proof.
  intros Hz.
  assert (Hint : Py.int (pretty shown) = Some shown)
    by (destruct shown as [|p|p]; [by vm_compute|..]; by apply int_pretty_pos).
  destruct (dispatch_pretty shown Hint) as (Hf & Hu).
  pose proof (add_favorite_is_favorited now st uid shown) as Hadd.
  pose proof (remove_favorite_is_favorited st uid shown) as Hrm.
  unfold handle_callback, favorite_data.
  destruct (is_favorited Ok st uid shown); [by rewrite Hu|by rewrite Hf].
Qed.

Lemma favourite_button_toggles_witness :
  let st := {| core := two_users; reports := []; favorites := [] |} in
  is_favorited Ok
    (handle_callback Ok Ok Ok "2024-02-04 11:00:00" st 1
       (favorite_data Ok st 1 2)) 1 2
  = negb (is_favorited Ok st 1 2).
Proof. intros st. apply favourite_button_toggles. by vm_compute. Defined.

(** X18.  A report is informational: it changes nothing but the reports
    table, so the reported profile is drawn as before; and a second
    report of the same profile by the same user is dropped, its reason
    included. *)
Theorem report_is_informational (io io' : access) (now now' : timestamp)
    (rnd : nat) (st : Store) (reporter reported : Z) (why why' : option string)
    (eb : bool) :
  let st1 := (report_user Ok now st reporter reported why).1 in
  core (report_user io now st reporter reported why).1 = core st
  /\ favorites (report_user io now st reporter reported why).1 = favorites st
  /\ UserModel.get_random_user io' rnd (core st1) reporter eb
     = UserModel.get_random_user io' rnd (core st) reporter eb
  /\ (report_user io now' st1 reporter reported why').1 = st1
  /\ Exists (fun r => reporter_id r = reporter /\ reported_id r = reported)
            (reports st1).
Proof.
  intros st1. split; [by destruct io|]. split; [by destruct io|].
  split; [done|]. split.
  - destruct io; [|done]. apply store_eq; try done.
    by apply (insert_or_ignore_again (fun r => (reporter_id r, reported_id r))).
  - eapply Exists_impl;
      [apply (insert_or_ignore_present
                (fun r => (reporter_id r, reported_id r)))|].
    intros r [= H1 H2]. done.
Qed.

Example second_report_reason_dropped :
  let st := {| core := two_users; reports := []; favorites := [] |} in
  reason <$> reports
    (report_user Ok "t2" (report_user Ok "t1" st 1 2 (Some "Spam")).1 1 2
       (Some "Fake profile")).1
  = [Some "Spam"].
Proof. reflexivity. Qed.

End Favourites.

(** ** Validators and the registration dialogue *)

Section Stripping.
Import Validators.

Lemma rstrip_idempotent (s : string) : Py.rstrip (Py.rstrip s) = Py.rstrip s.
Proof.
  induction s as [|c s IH]; [done|]. simpl.
  destruct (Py.rstrip s) as [|d r] eqn:E.
  - destruct (Py.isspace c) eqn:Hc; [done|]. simpl. by rewrite Hc.
  - simpl in *. by rewrite IH.
Qed.

Lemma lstrip_head (s : string) :
  match Py.lstrip s with
  | EmptyString => True
  | String c _ => Py.isspace c = false
  end.
Proof.
  induction s as [|c s IH]; [done|]. simpl.
  destruct (Py.isspace c) eqn:Hc; [exact IH|done].
Qed.

Lemma rstrip_keeps_head (c : ascii) (s : string) :
  Py.isspace c = false ->
  exists r, Py.rstrip (String c s) = String c r.
Proof.
  intros Hc. simpl. destruct (Py.rstrip s); rewrite ?Hc; eauto.
Qed.

Lemma strip_idempotent (s : string) : Py.strip (Py.strip s) = Py.strip s.
Proof.
  unfold Py.strip. pose proof (lstrip_head s) as Hh.
  destruct (Py.lstrip s) as [|c t]; [done|].
  destruct (rstrip_keeps_head c t Hh) as [r Hr]. rewrite Hr.
  replace (Py.lstrip (String c r)) with (String c r)
    by (simpl; by rewrite Hh).
  rewrite <- Hr. apply rstrip_idempotent.
Qed.


Lemma validate_text_length_strip (t : string) (lo hi : Z) :
  1 <= lo ->
  validate_text_length (Py.strip t) lo hi = validate_text_length t lo hi.
Proof.
  intros Hlo. unfold validate_text_length. rewrite strip_idempotent.
  destruct (Py.strip t) as [|c r] eqn:E.
  - assert ((lo <=? Py.len "") = false) as -> by (apply Z.leb_gt; unfold Py.len; simpl; lia).
    by destruct (negb (Py.truthy t)).
  - destruct t as [|c' t']; [done|]. done.
Qed.




(** X19.  Each validator judges the text with its surrounding
    whitespace removed: the verdict on a text is the verdict on its
    stripped form, which is the form the dialogue stores.  So blanks
    around an input never matter, and a blank input is rejected. *)
Theorem validators_judge_stripped (t : string) :
  (validate_name (Py.strip t) = validate_name t
   /\ validate_department (Py.strip t) = validate_department t
   /\ validate_bio (Py.strip t) = validate_bio t
   /\ validate_age (Py.strip t) = validate_age t)
  /\ (Py.strip t = "" ->
      validate_name t = false /\ validate_department t = false
      /\ validate_bio t = false /\ validate_age t = (false, None)).
Proof.
  assert (Hage : validate_age (Py.strip t) = validate_age t)
    by (unfold validate_age; by rewrite strip_idempotent).
  split.
  - repeat split; try (apply validate_text_length_strip; lia). exact Hage.
  - intros Hb. rewrite <- Hage.
    unfold validate_name, validate_department, validate_bio.
    rewrite <- (validate_text_length_strip t 2 50),
            <- (validate_text_length_strip t 2 100),
            <- (validate_text_length_strip t 10 500) by lia.
    by rewrite Hb.
Qed.

Lemma validators_judge_stripped_witness :
  Validators.validate_name "     " = false
  /\ Validators.validate_age "   " = (false, None).
Proof.
  destruct (validators_judge_stripped "     ") as [_ H].
  destruct (validators_judge_stripped "   ") as [_ H'].
  split; [apply H|apply H']; reflexivity.
Defined.

End Stripping.

Section DialogueProperties.
Import Database UserModel Validators StartHandler.

Lemma get_truthy_Some (user_data : gmap string string) (k v : string) :
  get_truthy user_data k = Some v -> user_data !! k = Some v /\ v <> "".
Proof.
  unfold get_truthy. destruct (user_data !! k) as [w|]; [|done].
  destruct w; [done|]. by intros [= <-].
Qed.

Lemma validate_text_length_trimmed (t : string) (lo hi : Z) :
  validate_text_length t lo hi = true -> trimmed lo hi (Py.strip t).
Proof.
  unfold validate_text_length, trimmed. rewrite strip_idempotent.
  destruct (negb (Py.truthy t)); [done|].
  rewrite andb_true_iff, !Z.leb_le. tauto.
Qed.

Lemma trimmed_validate_text_length (s : string) (lo hi : Z) :
  1 <= lo -> trimmed lo hi s -> validate_text_length s lo hi = true.
Proof.
  intros Hlo [Hs Hlen]. unfold validate_text_length. rewrite Hs.
  destruct s as [|c s]; [unfold Py.len in Hlen; simpl in Hlen; lia|].
  cbn [Py.truthy negb]. rewrite andb_true_iff, !Z.leb_le. tauto.
Qed.

Lemma checked_state_step (user_data : gmap string string) (v : string) :
  checked_state user_data -> checked_state (<["step" := v]> user_data).
Proof.
  intros (Hn & Hd & Hb).
  (split; [|split]); intros w; rewrite lookup_insert_ne by done; auto.
Qed.

Lemma checked_state_empty : checked_state ∅.
Proof. (split; [|split]); intros v; by rewrite lookup_empty. Qed.

Lemma text_steps_keeps (db : DB) (user_data : gmap string string)
    (step txt : string) :
  checked_state user_data ->
  (text_steps db user_data step txt).1.1 = db
  /\ checked_state (text_steps db user_data step txt).1.2.
Proof.
  intros Hc. pose proof Hc as (Hn & Hd & Hb). unfold text_steps.
  destruct (String.eqb step "name").
  { destruct (validate_name txt) eqn:Hv; cbn [negb fst snd]; [|done].
    split; [done|]. apply checked_state_step.
    (split; [|split]); intros v; [|rewrite lookup_insert_ne by done; auto..].
    rewrite lookup_insert_eq. intros [= <-] _.
    by apply validate_text_length_trimmed. }
  destruct (String.eqb step "age").
  { destruct (validate_age txt) as [[|] [a|]]; cbn [fst snd]; try done.
    split; [done|]. apply checked_state_step.
    (split; [|split]); intros v; rewrite lookup_insert_ne by done; auto. }
  destruct (String.eqb step "department").
  { destruct (validate_department txt) eqn:Hv; cbn [negb fst snd]; [|done].
    split; [done|]. apply checked_state_step.
    (split; [|split]); intros v; [rewrite lookup_insert_ne by done; auto| |
                             rewrite lookup_insert_ne by done; auto].
    rewrite lookup_insert_eq. intros [= <-] _.
    by apply validate_text_length_trimmed. }
  destruct (String.eqb step "bio"); [|done].
  destruct (validate_bio txt) eqn:Hv; cbn [negb fst snd]; [|done].
  split; [done|]. apply checked_state_step.
  (split; [|split]); intros v; [rewrite lookup_insert_ne by done; auto..|].
  rewrite lookup_insert_eq. intros [= <-] _.
  by apply validate_text_length_trimmed.
Qed.

Lemma valid_profiles_save_user (io : access) (now : timestamp) (db : DB)
    (uid : Z) (nm : string) (ag : Z) (dp bi ph : string) :
  Forall valid_profile (users db) ->
  trimmed 2 50 nm -> 16 <= ag <= 100 ->
  trimmed 2 100 dp -> trimmed 10 500 bi ->
  Forall valid_profile (users (save_user io now db uid nm ag dp bi ph).1).
Proof.
  intros Hall Hn Ha Hd Hb. destruct io; [|done].
  rewrite users_save_user. apply Forall_app. split.
  - apply Forall_forall. intros u Hu. apply list_elem_of_filter in Hu as [_ Hu].
    by eapply Forall_forall in Hall.
  - apply Forall_singleton. unfold valid_profile. simpl. tauto.
Qed.

Lemma photo_step_keeps (io : access) (now : timestamp) (db : DB)
    (user_data : gmap string string) (uid : Z) (photo_id : string) :
  Forall valid_profile (users db) -> checked_state user_data ->
  Forall valid_profile
    (users (photo_step io now db user_data uid photo_id).1.1)
  /\ checked_state (photo_step io now db user_data uid photo_id).1.2.
Proof.
  intros Hall Hc. pose proof Hc as (Hn & Hd & Hb). unfold photo_step.
  destruct (get_truthy user_data "name") as [nm|] eqn:En;
    [|by split; [|apply checked_state_empty]].
  destruct (get_truthy user_data "age") as [age_str|];
    [|by split; [|apply checked_state_empty]].
  destruct (get_truthy user_data "department") as [dp|] eqn:Ed;
    [|by split; [|apply checked_state_empty]].
  destruct (get_truthy user_data "bio") as [bi|] eqn:Eb;
    [|by split; [|apply checked_state_empty]].
  apply get_truthy_Some in En as [En En'], Ed as [Ed Ed'], Eb as [Eb Eb'].
  destruct (validate_age_cases age_str) as [(a & _ & Ha & ->)|[_ ->]];
    [|by split; [|apply checked_state_empty]].
  pose proof (valid_profiles_save_user io now db uid nm a dp bi photo_id
                Hall (Hn _ En En') Ha (Hd _ Ed Ed') (Hb _ Eb Eb')) as Hsave.
  destruct (save_user io now db uid nm a dp bi photo_id) as [db' saved].
  destruct saved; (split; [exact Hsave|]); [apply checked_state_empty|done].
Qed.

Lemma handle_registration_keeps (io : access) (now : timestamp) (db : DB)
    (user_data : gmap string string) (msg : message) :
  Forall valid_profile (users db) -> checked_state user_data ->
  Forall valid_profile (users (handle_registration io now db user_data msg).1.1)
  /\ checked_state (handle_registration io now db user_data msg).1.2.
Proof.
  intros Hall Hc. unfold handle_registration.
  destruct (_ && _ && _); [done|].
  destruct (String.eqb _ "photo"), (last (photo msg)) as [photo_id|];
    try (by apply photo_step_keeps);
    (destruct (negb _); [done|]);
    (destruct (text_steps_keeps db user_data
                 (default "" (user_data !! "step"))
                 (default "" (text msg)) Hc) as [-> ?]; done).
Qed.

(** X20.  Whatever a user does in the registration dialogue ([/start],
    "edit profile", texts and photos in any order, store accesses failing
    or not), the users table only ever holds profiles within the
    registration bounds, counted on the stored texts themselves: a name
    of 2 to 50, a department of 2 to 100 and a bio of 10 to 500
    characters, each stored without surrounding whitespace, and an age
    from 16 to 100; provided the table and the texts kept in the
    dialogue state were so before. *)
Theorem dialogue_keeps_profiles_valid (uid : Z) (db : DB)
    (user_data : gmap string string) (es : list Dialogue.event) :
  Forall valid_profile (users db) -> checked_state user_data ->
  Forall valid_profile (users (Dialogue.run uid (db, user_data) es).1)
  /\ checked_state (Dialogue.run uid (db, user_data) es).2.
Proof.
  unfold Dialogue.run. revert db user_data.
  induction es as [|e es IH]; intros db user_data Hall Hc; [done|].
  simpl. destruct (Dialogue.step uid (db, user_data) e) as [db' ud'] eqn:E.
  apply IH.
  - destruct e as [io1 io2| |io now msg]; simpl in E.
    + by injection E as <- <-.
    + by injection E as <- <-.
    + pose proof (handle_registration_keeps io now db user_data
                    {| from_user := uid; text := text msg;
                       photo := photo msg |} Hall Hc) as [H _].
      by rewrite E in H.
  - destruct e as [io1 io2| |io now msg]; simpl in E.
    + injection E as <- <-. unfold Dialogue.start.
      destruct (user_exists io2 db uid); [apply checked_state_empty|].
      destruct (user_exists io1 db uid); [done|by apply checked_state_step].
    + injection E as <- <-. by apply checked_state_step.
    + pose proof (handle_registration_keeps io now db user_data
                    {| from_user := uid; text := text msg;
                       photo := photo msg |} Hall Hc) as [_ H].
      by rewrite E in H.
Qed.

Lemma dialogue_keeps_profiles_valid_witness :
  Forall valid_profile
    (users (Dialogue.run 3 (Database.empty, ∅)
              [Dialogue.Start Ok Ok;
               Dialogue.Message Ok "t1" (text_message "  Abebe ");
               Dialogue.Message Ok "t2" (text_message "15");
               Dialogue.Message Ok "t3" (text_message "21");
               Dialogue.EditProfile;
               Dialogue.Message Ok "t4" (text_message "Almaz");
               Dialogue.Message Ok "t5" (text_message " 22");
               Dialogue.Message Ok "t6" (text_message "CAS");
               Dialogue.Message Ok "t7" (text_message "hello there ");
               Dialogue.Message Ok "t8" (photo_message None ["s"; "l"])]).1).
Proof.
  apply dialogue_keeps_profiles_valid; [constructor|apply checked_state_empty].
Defined.

Lemma valid_profile_passes_checks (u : user_row) :
  valid_profile u ->
  Validators.validate_name (name u) = true
  /\ Validators.validate_department (department u) = true
  /\ Validators.validate_bio (bio u) = true.
Proof.
  intros (Hn & _ & Hd & Hb).
  repeat split; by apply trimmed_validate_text_length.
Qed.

Example padded_name_is_no_valid_profile :
  ~ valid_profile
      {| user_id := 1; name := "Abebe" +:+ repeat_char 55 " "; age := 20;
         department := "CAS"; bio := "hello there"; photo_id := "p";
         created_at := "t"; updated_at := "t" |}.
Proof. intros ([H _] & _). vm_compute in H. discriminate H. Qed.

Example dialogue_sample_result :
  users (Dialogue.run 3 (Database.empty, ∅)
           [Dialogue.Start Ok Ok;
            Dialogue.Message Ok "t1" (text_message "  Abebe ");
            Dialogue.Message Ok "t2" (text_message "15");
            Dialogue.Message Ok "t3" (text_message "21");
            Dialogue.EditProfile;
            Dialogue.Message Ok "t4" (text_message "Almaz");
            Dialogue.Message Ok "t5" (text_message " 22");
            Dialogue.Message Ok "t6" (text_message "CAS");
            Dialogue.Message Ok "t7" (text_message "hello there ");
            Dialogue.Message Ok "t8" (photo_message None ["s"; "l"])]).1
  = [{| user_id := 3; name := "Almaz"; age := 22; department := "CAS";
        bio := "hello there"; photo_id := "l"; created_at := "t8";
        updated_at := "t8" |}].
Proof. vm_compute. reflexivity. Qed.











Lemma text_steps_store (db : DB) (user_data : gmap string string)
    (step txt : string) :
  (text_steps db user_data step txt).1.1 = db.
Proof.
  unfold text_steps.
  repeat match goal with
         | |- context [if ?c then _ else _] => destruct c
         | |- context [match validate_age ?t with _ => _ end] =>
             destruct (validate_age t) as [[|] [?|]]
         end; done.
Qed.

(** X22.  Only a photo sent in the photo step can write a profile: any
    message without a photo, and any message in another step, leaves the
    store as it was. *)
Theorem only_the_photo_step_writes (io : access) (now : timestamp) (db : DB)
    (user_data : gmap string string) (msg : message) :
  default "" (user_data !! "step") <> "photo" \/ photo msg = [] ->
  (handle_registration io now db user_data msg).1.1 = db.
Proof.
  intros H. unfold handle_registration.
  destruct (_ && _ && _); [done|].
  destruct (String.eqb_spec (default "" (user_data !! "step")) "photo")
    as [Heq|Hne].
  - destruct H as [H|H]; [done|]. rewrite H. cbn [last].
    destruct (negb _); [done|apply text_steps_store].
  - destruct (negb _); [done|apply text_steps_store].
Qed.

Lemma only_the_photo_step_writes_witness :
  (handle_registration Ok "t" two_users in_photo_step
     (text_message "no photo yet")).1.1 = two_users.
Proof. apply only_the_photo_step_writes. by right. Defined.

End DialogueProperties.

(** ** The limiter: statistics, reset, bans *)

Section LimiterMore.
Import RateLimiterModel LimiterStats.

Implicit Types (self : RateLimiter) (now : Q) (uid max_requests : Z).

Lemma banned_now_true self now uid :
  banned_now self now uid = true
  <-> exists ban_until, _banned self !! uid = Some ban_until
                        /\ (now < ban_until)%Q.
Proof.
  unfold banned_now. destruct (_banned self !! uid) as [u|].
  - rewrite bool_decide_eq_true. split; [eauto|]. by intros (? & [= <-] & ?).
  - split; [done|]. by intros (? & ? & ?).
Qed.

Lemma banned_now_false self now uid :
  banned_now self now uid = false <-> unbanned self now uid.
Proof.
  unfold banned_now, unbanned. destruct (_banned self !! uid) as [u|].
  - rewrite bool_decide_eq_false. split.
    + intros H. right. exists u. split; [done|]. by apply Qnot_lt_le.
    + intros [?|(? & [= <-] & ?)]; [done|]. by apply Qle_not_lt.
  - split; [by left|done].
Qed.

(** X23.  [get_stats] tells what [is_allowed] will do with the default
    window of 60 seconds: a call at the same instant is allowed exactly
    when the statistics show no ban and fewer than [max_requests]
    requests in the last minute; under a ban the call is refused with
    the [ban_remaining] of the statistics. *)
Theorem get_stats_predicts_is_allowed self now uid max_requests (b : Z) :
  let s := get_stats self now uid in
  ((is_allowed self now uid max_requests 60 b).2.1 = true
   <-> is_banned s = false
       /\ Z.of_nat (requests_last_minute s) < max_requests)
  /\ (is_banned s = true ->
      is_allowed self now uid max_requests 60 b
      = (self, (false, banned_msg (ban_remaining s))))
  /\ (is_banned s = false -> ban_remaining s = 0).
Proof.
  intros s.
  assert (Hkept : requests_last_minute s
                  = List.length (recent_of self now uid 60)) by done.
  split; [|split].
  - unfold s at 1. cbn [is_banned]. rewrite Hkept.
    destruct (is_allowed_cases self now uid max_requests 60 b)
      as [(u & Hb & Hlt & ->)|[(Hu & Hle & ->)|(Hu & Hlt & ->)]];
      cbn [fst snd].
    + split; [done|]. intros [H _]. apply banned_now_false in H.
      destruct H as [H|(u' & H & Hle)]; [congruence|].
      assert (u' = u) as -> by congruence. by apply Qle_not_lt in Hle.
    + split; [done|]. intros [_ H]. lia.
    + split; [|done]. intros _. split; [|done]. by apply banned_now_false.
  - cbn [is_banned s get_stats]. intros H.
    apply banned_now_true in H as (u & Hb & Hlt).
    rewrite (is_allowed_banned _ _ _ _ _ _ u Hb Hlt).
    unfold s, get_stats. cbn [ban_remaining]. rewrite Hb.
    by rewrite bool_decide_eq_true_2.
  - unfold s, get_stats. cbn [is_banned ban_remaining]. unfold banned_now.
    destruct (_banned self !! uid); [|done]. by intros ->.
Qed.

Lemma get_stats_predicts_is_allowed_witness :
  is_allowed banned_7 500 7 3 60 300
  = (banned_7, (false, banned_msg (ban_remaining (get_stats banned_7 500 7)))).
Proof.
  destruct (get_stats_predicts_is_allowed banned_7 500 7 3 300) as (_ & H & _).
  apply H. by vm_compute.
Defined.

(** X24.  A reset wipes one user and nobody else: the user's requests
    and ban are gone, so that with a positive limit the user's next call
    is allowed; and only an admin's [/admin reset <id>] reaches the
    limiter. *)
Theorem reset_lifts_the_ban (admin_ids : list Z) self now uid max_requests
    (w b : Z) (caller other : Z) (arg command : string) :
  (requests_of (reset self uid) uid = []
   /\ _banned (reset self uid) !! uid = None
   /\ (other <> uid ->
       requests_of (reset self uid) other = requests_of self other
       /\ _banned (reset self uid) !! other = _banned self !! other))
  /\ (0 < max_requests ->
      (is_allowed (reset self uid) now uid max_requests w b).2 = (true, ""))
  /\ (is_admin admin_ids caller = false ->
      admin_command admin_ids self caller [command; arg] = self)
  /\ (caller ∈ admin_ids -> Py.int arg = Some uid ->
      admin_command admin_ids self caller ["reset"; arg] = reset self uid).
Proof.
  assert (Hreq : requests_of (reset self uid) uid = []).
  { unfold requests_of, reset. cbn [_requests]. by rewrite lookup_delete_eq. }
  assert (Hban : _banned (reset self uid) !! uid = None).
  { unfold reset. cbn [_banned]. by rewrite lookup_delete_eq. }
  split; [|split; [|split]].
  - split; [done|]. split; [done|]. intros Hne.
    unfold requests_of, reset. cbn [_requests _banned].
    by rewrite !lookup_delete_ne.
  - intros Hmax.
    apply (is_allowed_allows (reset self uid) now uid max_requests w b []).
    + by left.
    + unfold recent_of. by rewrite Hreq.
    + simpl. lia.
  - intros Hna. unfold admin_command. by rewrite Hna.
  - intros Hin Hint. unfold admin_command, is_admin.
    rewrite bool_decide_eq_true_2 by done. cbn [negb String.eqb Ascii.eqb Bool.eqb].
    by rewrite Hint.
Qed.

Lemma reset_lifts_the_ban_witness :
  (is_allowed (admin_command [99] banned_7 99 ["reset"; "7"]) 500 7 3 60 300).2
  = (true, "").
Proof.
  destruct (reset_lifts_the_ban [99] banned_7 500 7 3 60 300 99 8 "7" "reset")
    as (_ & Hallow & _ & Hadmin).
  rewrite Hadmin; [apply Hallow; lia|left|reflexivity].
Defined.

(** X25.  A ban runs its full time whatever happens meanwhile: calls of
    the banned user before the ban ends, and any calls and resets of
    other users, leave the user's ban and requests as they are, and every
    call of the user before the end is refused. *)
Theorem ban_runs_its_time self uid max_requests (ban_until : Q)
    (cs : list call) :
  _banned self !! uid = Some ban_until ->
  Forall (during_ban uid ban_until) cs ->
  let after := foldl (step max_requests) self cs in
  _banned after !! uid = Some ban_until
  /\ requests_of after uid = requests_of self uid
  /\ (forall now (w b : Z), (now < ban_until)%Q ->
        is_allowed after now uid max_requests w b
        = (after, (false, banned_msg (Py.trunc (ban_until - now))))).
Proof.
  intros Hb Hcs after.
  assert (Hinv : _banned after !! uid = Some ban_until
                 /\ requests_of after uid = requests_of self uid).
  { unfold after. clear after. revert self Hb.
    induction Hcs as [|c cs Hc _ IH]; intros self Hb; [done|].
    simpl.
    assert (Hstep : _banned (step max_requests self c) !! uid = Some ban_until
                    /\ requests_of (step max_requests self c) uid
                       = requests_of self uid).
    { destruct c as [now u w b|u]; simpl in *.
      - destruct (decide (u = uid)) as [->|Hne].
        + rewrite (is_allowed_banned _ _ _ _ _ _ ban_until Hb (Hc eq_refl)).
          done.
        + destruct (is_allowed_other self now u max_requests w b uid)
            as [-> ->]; [congruence|done].
      - unfold requests_of, reset. cbn [_requests _banned].
        by rewrite !lookup_delete_ne. }
    destruct Hstep as [Hb' Hr']. destruct (IH _ Hb') as [H1 H2].
    split; [done|congruence]. }
  destruct Hinv as [Hb' Hr']. split; [done|]. split; [done|].
  intros now w b Hlt. by apply is_allowed_banned.
Qed.

Lemma ban_runs_its_time_witness :
  _banned (foldl (step 3) banned_7
             [IsAllowed 10 7 60 300; IsAllowed 20 8 60 300; Reset 8;
              IsAllowed 999 7 60 300]) !! 7 = Some 1000%Q.
Proof.
  apply (ban_runs_its_time banned_7 7 3 1000%Q); [reflexivity|].
  repeat constructor; simpl; intros; first [by vm_compute | lia].
Defined.

End LimiterMore.

(** ** The limiter: what a window lets through *)

Section Window.
Import RateLimiterModel.

Context (uid max_requests w b : Z).

Lemma filter_ext_elem {X : Type} (P R : X -> Prop)
    `{!forall x, Decision (P x)} `{!forall x, Decision (R x)} (l : list X) :
  (forall x, x ∈ l -> P x <-> R x) -> filter P l = filter R l.
Proof.
  induction l as [|x l IH]; intros Hext; [done|].
  rewrite !filter_cons. rewrite IH by (intros y Hy; apply Hext; by right).
  destruct (decide (P x)) as [Hp|Hp], (decide (R x)) as [Hr|Hr]; try done.
  - destruct Hr. apply Hext; [left|done].
  - destruct Hp. apply Hext; [left|done].
Qed.

Lemma in_window_snoc (t0 t : Q) (l : list Q) :
  in_window w t0 (l ++ [t])
  = (in_window w t0 l
     + if decide ((t0 - inject_Z w < t)%Q /\ (t <= t0)%Q) then 1 else 0)%nat.
Proof.
  unfold in_window. rewrite filter_app, length_app, filter_cons.
  by case_decide.
Qed.

Lemma window_inv_step (s : RateLimiter * list Q) (c t : Q) :
  0 < w -> window_inv uid max_requests w s c ->
  (c + inject_Z w <= t)%Q ->
  exists c', window_inv uid max_requests w
               (serve_one uid max_requests w b s t) c'
             /\ (c' + inject_Z w <= t)%Q.
Proof.
  intros Hw (Hreq & Hle & Hbound) Hct. rewrite Zlt_Qlt in Hw.
  change (inject_Z 0) with 0%Q in Hw.
  assert (Hkept : recent_of s.1 t uid w
                  = filter (fun x => (t - inject_Z w < x)%Q) s.2).
  { unfold recent_of. rewrite Hreq, list_filter_filter.
    apply list_filter_iff. intros x. split; [tauto|]. intros Hx.
    split; [done|]. lra. }
  unfold serve_one.
  destruct (is_allowed_cases s.1 t uid max_requests w b)
    as [(u & _ & _ & ->)|[(_ & Hmax & ->)|(_ & Hmax & ->)]]; cbn [fst snd].
  - exists c. by repeat split.
  - exists (t - inject_Z w)%Q. split; [|lra]. repeat split; cbn [fst snd].
    + rewrite requests_of_insert, decide_True by done. exact Hkept.
    + eapply Forall_impl; [exact Hle|]. intros x Hx. simpl in Hx. lra.
    + exact Hbound.
  - exists (t - inject_Z w)%Q. split; [|lra]. repeat split; cbn [fst snd].
    + rewrite requests_of_insert, decide_True by done.
      rewrite Hkept, filter_app, filter_cons_True, filter_nil; [done|lra].
    + apply Forall_app. split.
      * eapply Forall_impl; [exact Hle|]. intros x Hx. simpl in Hx. lra.
      * apply Forall_singleton. lra.
    + intros t0 Ht0. rewrite in_window_snoc. case_decide as Hin.
      * assert (Hsame : in_window w t0 s.2
                        = List.length (recent_of s.1 t uid w)).
        { unfold in_window. rewrite Hkept. f_equal.
          apply filter_ext_elem. intros x Hx.
          pose proof (proj1 (Forall_forall _ _) Hle x Hx) as Hxle.
          simpl in Hxle.
          assert (t0 <= t)%Q as Ht0le.
          { apply elem_of_app in Ht0 as [Ht0|Ht0].
            - pose proof (proj1 (Forall_forall _ _) Hle t0 Ht0) as H0.
              simpl in H0. lra.
            - apply list_elem_of_singleton in Ht0. subst. lra. }
          split; [intros [? ?]; lra|intros ?; split; lra]. }
        rewrite Hsame. lia.
      * rewrite Nat.add_0_r. apply Hbound.
        apply elem_of_app in Ht0 as [Ht0|Ht0]; [done|].
        apply list_elem_of_singleton in Ht0. subst t0.
        destruct Hin. split; lra.
Qed.

Lemma window_inv_serve (ts : list Q) (s : RateLimiter * list Q) (c : Q) :
  0 < w -> window_inv uid max_requests w s c ->
  Forall (fun t => (c + inject_Z w <= t)%Q) ts -> nondecreasing ts ->
  exists c', window_inv uid max_requests w
               (foldl (serve_one uid max_requests w b) s ts) c'.
Proof.
  intros Hw. revert s c. induction ts as [|t ts IH]; intros s c Hinv Hc Hnd.
  - by exists c.
  - apply Forall_cons in Hc as [Hct Hc]. destruct Hnd as [Hts Hnd].
    destruct (window_inv_step s c t Hw Hinv Hct) as (c' & Hinv' & Hc').
    simpl. apply (IH _ c'); [done| |done].
    eapply Forall_impl; [exact Hts|]. intros t' Ht'. simpl in Ht'. lra.
Qed.

(** X26.  The sliding window holds: when one user calls at times that
    never go back, with one positive window and one limit, then in the
    window that ends at any allowed call at most [max_requests] calls
    were allowed, refusals, bans and their expiry included. *)
Theorem window_lets_through_at_most_max (self : RateLimiter) (ts : list Q)
    (t0 : Q) :
  requests_of self uid = [] -> 0 < w -> nondecreasing ts ->
  t0 ∈ (serve uid max_requests w b self ts).2 ->
  Z.of_nat (in_window w t0 (serve uid max_requests w b self ts).2)
  <= max_requests.
Proof.
  intros Hreq Hw Hnd. unfold serve.
  destruct ts as [|t ts]; [intros H; by apply elem_of_nil in H|].
  destruct (window_inv_serve (t :: ts) (self, []) (t - inject_Z w)%Q Hw)
    as (c' & _ & _ & Hbound); [| |done|by apply Hbound].
  - repeat split; cbn [fst snd]; [by rewrite Hreq|constructor|].
    intros x Hx. by apply elem_of_nil in Hx.
  - destruct Hnd as [Hts _]. apply Forall_cons. split; [lra|].
    eapply Forall_impl; [exact Hts|]. intros t' Ht'. simpl in Ht'. lra.
Qed.

Lemma serve_burst (ts done : list Q) (s : RateLimiter) (t' : Q) :
  requests_of s uid = done -> _banned s !! uid = None ->
  Forall (fun t => (t' - inject_Z w < t)%Q) (done ++ ts) ->
  Forall (fun t => (t <= t')%Q) ts ->
  Z.of_nat (List.length (done ++ ts)) <= max_requests ->
  let r := foldl (serve_one uid max_requests w b) (s, done) ts in
  r.2 = done ++ ts /\ requests_of r.1 uid = done ++ ts
  /\ _banned r.1 !! uid = None.
Proof.
  revert done s. induction ts as [|t ts IH]; intros done s Hreq Hban Hwin Hle Hlen.
  - simpl. by rewrite app_nil_r.
  - apply Forall_cons in Hle as [Ht Hle].
    rewrite length_app in Hlen. simpl in Hlen.
    destruct (is_allowed_allows s t uid max_requests w b done)
      as (Hans & Hreq' & Hban').
    + by left.
    + unfold recent_of. rewrite Hreq. apply filter_all.
      apply Forall_app in Hwin as [Hwin _].
      eapply Forall_impl; [exact Hwin|]. intros x Hx. simpl in Hx. lra.
    + lia.
    + assert (Hstep : serve_one uid max_requests w b (s, done) t
                      = ((is_allowed s t uid max_requests w b).1,
                         done ++ [t])).
      { unfold serve_one. cbn [fst snd]. by rewrite Hans. }
      cbn [foldl]. rewrite Hstep.
      replace (done ++ t :: ts) with ((done ++ [t]) ++ ts)
        by (by rewrite <- app_assoc).
      apply IH; try done.
      * by rewrite <- app_assoc.
      * rewrite <- app_assoc, length_app. simpl. lia.
Qed.

(** X27.  A burst fills the limit exactly: from a user without entries
    or ban, [max_requests] calls at times that all lie in the window of
    a later call are all allowed, and that later call is refused with
    the ban message. *)
Theorem burst_fills_the_limit (self : RateLimiter) (ts : list Q) (t' : Q) :
  requests_of self uid = [] -> _banned self !! uid = None ->
  Forall (fun t => (t' - inject_Z w < t)%Q /\ (t <= t')%Q) ts ->
  Z.of_nat (List.length ts) = max_requests ->
  let r := serve uid max_requests w b self ts in
  r.2 = ts
  /\ is_allowed r.1 t' uid max_requests w b
     = ({| _requests := <[uid := ts]> (_requests r.1);
           _banned := <[uid := (t' + inject_Z b)%Q]> (_banned r.1) |},
        (false, too_many_msg b)).
Proof.
  intros Hreq Hban Hts Hlen r.
  destruct (serve_burst ts [] self t') as (Hlog & Hreq' & Hban');
    try done.
  - eapply Forall_impl; [exact Hts|]. by intros x [? ?].
  - eapply Forall_impl; [exact Hts|]. by intros x [? ?].
  - simpl. lia.
  - fold (serve uid max_requests w b self ts) in Hlog, Hreq', Hban'.
    fold r in Hlog, Hreq', Hban'. simpl in Hlog, Hreq'.
    split; [done|].
    assert (Hkept : recent_of r.1 t' uid w = ts).
    { unfold recent_of. rewrite Hreq'. apply filter_all.
      eapply Forall_impl; [exact Hts|]. by intros x [? ?]. }
    rewrite is_allowed_not_banned by (by left).
    rewrite check_limit_denies by (rewrite Hkept; lia).
    by rewrite Hkept, insert_delete_eq.
Qed.

End Window.

Lemma window_lets_through_at_most_max_witness :
  Z.of_nat (in_window 60 401 (serve 7 2 60 300 RateLimiterModel.init
                                [10; 11; 12; 13; 400; 401]%Q).2) <= 2.
Proof.
  apply window_lets_through_at_most_max; [reflexivity|lia| |].
  - repeat constructor; by vm_compute.
  - vm_compute. do 3 right. left.
Defined.

Lemma burst_fills_the_limit_witness :
  (serve 7 3 60 300 RateLimiterModel.init [10; 20; 30]%Q).2 = [10; 20; 30]%Q.
Proof.
  apply (burst_fills_the_limit 7 3 60 300 RateLimiterModel.init
           [10; 20; 30]%Q 40%Q); try reflexivity.
  repeat constructor; by vm_compute.
Defined.

Example serve_sample :
  (serve 7 2 60 300 RateLimiterModel.init [10; 11; 12; 13; 400; 401]%Q).2
  = [10; 11; 400; 401]%Q.
Proof. vm_compute. reflexivity. Qed.

(** ** [browse] *)

Section Browsing.
Import Database UserModel BrowseHandler RateLimiterModel Callbacks.

Lemma user_exists_registered (io : access) (db : DB) (uid : Z) :
  user_exists io db uid = true ->
  exists me, me ∈ users db /\ user_id me = uid.
Proof.
  destruct io; [|done]. unfold user_exists, try_except.
  intros H. apply bool_decide_eq_true in H.
  destruct (filter (fun u => user_id u = uid) (users db)) as [|me l] eqn:E;
    [done|].
  assert (Hme : me ∈ filter (fun u => user_id u = uid) (users db))
    by (rewrite E; left).
  apply list_elem_of_filter in Hme as [Hid Hme]. by exists me.
Qed.

(** X28.  [/browse] shows a profile only to a caller whom the limiter
    let through and who has a profile, and the profile shown is a stored
    one of somebody else; and every call the limiter lets through is
    counted, also when it ends at the registration check or finds
    nobody. *)
Theorem browse_checks_before_showing (io_exists io_select : access)
    (rnd : nat) (limiter limiter' : RateLimiter) (now : Q)
    (max_requests w b : Z) (db : DB) (prefs : option preferences)
    (uid : Z) (out : browse_outcome) :
  browse io_exists io_select rnd limiter now max_requests w b db prefs uid
  = (limiter', out) ->
  (forall u, out = Shown u ->
     is_allowed limiter now uid max_requests w b = (limiter', (true, ""))
     /\ (exists me, me ∈ users db /\ user_id me = uid)
     /\ u ∈ users db /\ user_id u <> uid)
  /\ ((forall why, out <> Refused why) ->
      requests_of limiter' uid = recent_of limiter now uid w ++ [now]).
Proof.
  unfold browse.
  destruct (is_allowed_cases limiter now uid max_requests w b)
    as [(ban_until & _ & _ & ->)|[(_ & _ & ->)|(_ & _ & Hallowed)]];
    cbn [negb].
  - intros [= <- <-]. split; [done|]. intros H. exfalso. by eapply H.
  - intros [= <- <-]. split; [done|]. intros H. exfalso. by eapply H.
  - rewrite Hallowed. cbn [negb]. intros H.
    assert (Hl : limiter'
                 = {| _requests := <[uid := recent_of limiter now uid w
                                           ++ [now]]> (_requests limiter);
                      _banned := delete uid (_banned limiter) |}).
    { destruct (negb (user_exists io_exists db uid)); [by injection H|].
      destruct (show_next_profile io_select rnd db prefs uid);
        by injection H. }
    split.
    + intros u ->. rewrite <- Hl. split; [done|].
      destruct (user_exists io_exists db uid) eqn:Hex; [|done].
      cbn [negb] in H.
      destruct (show_next_profile io_select rnd db prefs uid) as [u'|] eqn:Hs;
        [|done].
      injection H as _ ->.
      apply show_next_profile_not_self in Hs as (Hu & Hne & _).
      split; [by eapply user_exists_registered|done].
    + intros _. rewrite Hl. unfold requests_of. cbn [_requests].
      by rewrite lookup_insert_eq.
Qed.

End Browsing.

Lemma browse_checks_before_showing_witness :
  RateLimiterModel.is_allowed RateLimiterModel.init 5 1 10 60 300
  = ((Callbacks.browse Database.Ok Database.Ok 0 RateLimiterModel.init 5
        10 60 300 two_users None 1).1, (true, "")).
Proof.
  refine (proj1 (proj1 (browse_checks_before_showing Database.Ok Database.Ok 0
            RateLimiterModel.init _ 5 10 60 300 two_users None 1 _ _)
            (profile 2) _)).
  - vm_compute. reflexivity.
  - reflexivity.
Defined.

(** ** The preferences menu *)

Section PreferencesMenu.
Import Database UserModel BrowseHandler PreferencesHandler.

Lemma from_menu_set_ages (p : preferences) (lo hi : option Z) :
  from_menu (Some p) -> (lo, hi) ∈ menu_ages ->
  from_menu (Some (set_ages p lo hi)).
Proof. intros [_ Hd] Ha. by split. Qed.

Lemma from_menu_set_department (p : preferences) (d : option string) :
  from_menu (Some p) -> d ∈ menu_departments ->
  from_menu (Some (set_department p d)).
Proof. intros [Ha _] Hd. by split. Qed.

Lemma from_menu_default (prefs : option preferences) :
  from_menu prefs -> from_menu (Some (default no_preferences prefs)).
Proof.
  destruct prefs as [p|]; [done|]. intros _. split; simpl; left.
Qed.

Lemma from_menu_callback (data : string) (prefs : option preferences) :
  from_menu prefs -> from_menu (handle_preferences_callback data prefs).
Proof.
  intros H. apply from_menu_default in H as Hp.
  unfold handle_preferences_callback.
  repeat (match goal with
          | |- context [if ?c then _ else _] => destruct c
          end; try done);
    first [ apply from_menu_set_ages; [done|]
          | apply from_menu_set_department; [done|] ];
    unfold menu_ages, menu_departments;
    repeat first [left; done | right].
Qed.

Lemma from_menu_callbacks (datas : list string) (prefs : option preferences) :
  from_menu prefs ->
  from_menu (foldl (fun p d => handle_preferences_callback d p) prefs datas).
Proof.
  revert prefs. induction datas as [|d datas IH]; intros prefs H; [done|].
  simpl. by apply IH, from_menu_callback.
Qed.

Lemma menu_department_plain (d : string) :
  Some d ∈ menu_departments -> d <> "" /\ no_wildcard d = true.
Proof.
  unfold menu_departments. rewrite !elem_of_cons, elem_of_nil.
  intros [H|[H|[H|[H|[]]]]]; [done|..]; injection H as ->; by vm_compute.
Qed.

(** X29.  The preferences menu means what its buttons say: whatever
    buttons were pressed, in whatever order, a profile then shown is a
    stored one of somebody else whose age lies within the chosen bounds
    and whose department contains the chosen department's name,
    letter case aside. *)
Theorem menu_filters_are_literal (datas : list string) (io : access)
    (rnd : nat) (db : DB) (uid : Z) (u : user_row) :
  let prefs :=
    foldl (fun p d => handle_preferences_callback d p) None datas in
  show_next_profile io rnd db prefs uid = Some u ->
  u ∈ users db /\ user_id u <> uid
  /\ forall p, prefs = Some p ->
       (forall n, min_age p = Some n -> n <= age u)
       /\ (forall n, max_age p = Some n -> age u <= n)
       /\ (forall d, pref_department p = Some d ->
             contains_nocase d (department u) = true).
Proof.
  intros prefs Hs.
  assert (Hmenu : from_menu prefs) by (by apply from_menu_callbacks).
  destruct (show_next_profile_not_self _ _ _ _ _ _ Hs) as (Hu & Hne & _).
  split; [done|]. split; [done|]. intros p Hp. rewrite Hp in Hs, Hmenu.
  destruct Hmenu as [Ha Hd].
  unfold show_next_profile in Hs.
  destruct (any_values (Some p)) eqn:Hany.
  - destruct io; [|done]. unfold get_users_with_filters, try_except in Hs.
    apply fetchone_random_elem, list_elem_of_filter in Hs as [Hw _].
    apply where_build_query in Hw as (_ & Hlo & Hhi & Hdept).
    split; [done|]. split; [done|]. intros d Hpd.
    rewrite Hpd in Hd. apply menu_department_plain in Hd as [Hne' Hplain].
    rewrite <- like_is_containment by done. by apply Hdept.
  - unfold any_values in Hany.
    unfold menu_ages in Ha. unfold menu_departments in Hd.
    rewrite !elem_of_cons, elem_of_nil in Ha.
    rewrite !elem_of_cons, elem_of_nil in Hd.
    destruct (min_age p) as [lo|], (max_age p) as [hi|],
      (pref_department p) as [d|];
      destruct Ha as [Ha|[Ha|[Ha|[Ha|[]]]]]; try discriminate Ha;
      destruct Hd as [Hd|[Hd|[Hd|[Hd|[]]]]]; try discriminate Hd;
      try (injection Ha as -> ->); try (injection Ha as ->);
      try (injection Hd as ->); try discriminate Hany;
      repeat split; intros ? [=].
Qed.

End PreferencesMenu.

Lemma menu_filters_are_literal_witness :
  profile 2 ∈ Database.users two_users.
Proof.
  refine (proj1 (menu_filters_are_literal
            ["pref_age_18_25"; "pref_dept_cs"; "pref_dept_all"; "pref_apply"]
            Database.Ok 0 two_users 1 (profile 2) _)).
  vm_compute. reflexivity.
Defined.
